(** * The chronology index of the "On This Day" video catalogue

    A shallow embedding of [src/utils.py] and [src/fetch_videos.py]:
    the date extractor ([parse_date_from_title]), the catalogue store
    ([load_videos_db], [save_videos_db], [create_backup]), the calendar
    matcher ([get_videos_for_date]) and the ingestion loop
    ([fetch_all_videos_from_playlist]).

    Python exceptions are values of [exn]; a call that may raise returns
    a [result].  The third-party and standard-library routines the code
    calls ([datetime.strptime], [dateutil.parser.parse],
    [datetime.fromisoformat], [strftime], [json.dump], [json.load]) are
    parameters of the development; executable reference instances are
    given at the end of the definitions and are used to run the code on
    concrete inputs. *)

From Stdlib Require Import ZArith List String Ascii Bool Lia.
From Stdlib Require Import DecimalString DecimalPos DecimalFacts DecimalZ.
From Stdlib Require Import Sorting.Sorted Sorting.Permutation.
From stdpp Require Import base option list gmap strings.

Import ListNotations.
Set Warnings "-register-all".
Local Open Scope string_scope.
Local Open Scope Z_scope.

(** ** Exceptions and results *)

(** The exception classes that occur in the modelled code.  [ParserError]
    (dateutil) and [JSONDecodeError] (json) are subclasses of
    [ValueError] in Python; [ReError] is [re.error], which [strptime]
    lets through when the regular expression it builds from a format
    does not compile; [Exception] is the generic class the store raises
    with a message. *)
Inductive exn : Type :=
  | ValueError
  | ParserError
  | JSONDecodeError (msg : string)
  | ReError
  | TypeError
  | AttributeError
  | KeyError (key : string)
  | OverflowError
  | Exception (msg : string).

(** [isinstance(e, ValueError)]: what an [except ValueError] clause
    catches. *)
Definition isinstance_ValueError (e : exn) : bool :=
  match e with
  | ValueError | ParserError | JSONDecodeError _ => true
  | _ => false
  end.

(** [isinstance(e, json.JSONDecodeError)]. *)
Definition isinstance_JSONDecodeError (e : exn) : option string :=
  match e with
  | JSONDecodeError msg => Some msg
  | _ => None
  end.

Inductive result (A : Type) : Type :=
  | Ok (a : A)
  | Raise (e : exn).
Arguments Ok {A} a.
Arguments Raise {A} e.

Definition bind {A B : Type} (r : result A) (k : A -> result B) : result B :=
  match r with
  | Ok a => k a
  | Raise e => Raise e
  end.

Declare Scope py_scope.
Delimit Scope py_scope with py.
Notation "'let*' x ':=' r 'in' k" := (bind r (fun x => k))
  (at level 10, x name, r at level 100, k at level 200) : py_scope.
Local Open Scope py_scope.

Definition returns {A : Type} (r : result A) : Prop := exists a, r = Ok a.

(** ** Data model *)

(** A [datetime] value; only the calendar fields are observed by the
    modelled code ([.month], [.day], [strftime('%Y-%m-%d')]). *)
Module datetime.
Record t : Type := make { year : Z; month : Z; day : Z }.
End datetime.

(** The video dictionary built at [fetch_videos.py:150-158].  The key
    ['recording_date'] holds a string or [None]. *)
Module VideoRecord.
Record t : Type := make {
  video_id : string;
  title : string;
  description : string;
  upload_date : string;
  recording_date : option string;
  url : string;
  thumbnail : string
}.
End VideoRecord.
Abbreviation video := VideoRecord.t.

(** The part of the catalogue dictionary the matcher reads:
    [videos_db.get('videos', [])] (an absent key reads as the empty
    list). *)
Module Catalogue.
Record t : Type := make {
  channel_name : string;
  last_updated : option string;
  videos : list video
}.
End Catalogue.
Abbreviation catalogue := Catalogue.t.

(** Python truthiness of a string: only the empty string is falsy. *)
Definition truthy (s : string) : bool :=
  match s with
  | EmptyString => false
  | String _ _ => true
  end.

(** Python's order on strings (by code point; on UTF-8 text the
    byte-wise lexicographic order). *)
Definition str_le (a b : string) : Prop := String.leb a b = true.

(** ** [list.sort(key=...)] on string keys

    Python's [list.sort] is a stable sort that compares keys with [<]
    only.  It is modelled by the stable insertion sort below: an element
    is placed before the first later element whose key is not smaller. *)
Section Sort.
Context {A : Type} (key : A -> string).

Fixpoint insert_by (x : A) (l : list A) : list A :=
  match l with
  | [] => [x]
  | y :: l' =>
      if String.ltb (key y) (key x) then y :: insert_by x l'
      else x :: y :: l'
  end.

Fixpoint list_sort (l : list A) : list A :=
  match l with
  | [] => []
  | x :: l' => insert_by x (list_sort l')
  end.

(** The order of the keys, and the elements with a given key. *)
Definition key_le (a b : A) : Prop := str_le (key a) (key b).
Definition has_key (k : string) (a : A) : bool := String.eqb (key a) k.
End Sort.

(** ** Calendar matcher ([utils.py:117-145]) *)
Section Matcher.
(** [datetime.fromisoformat]. *)
Variable fromisoformat : string -> result datetime.t.

(** The [for video in videos_db.get('videos', [])] loop, with the
    accumulator [matching_videos]. *)
Fixpoint matching_loop (month day : Z) (videos : list video)
    (matching_videos : list video) : result (list video) :=
  match videos with
  | [] => Ok matching_videos
  | video :: rest =>
      match VideoRecord.recording_date video with
      | Some recording_date =>
          if truthy recording_date then
            match fromisoformat recording_date with
            | Ok date_obj =>
                if (datetime.month date_obj =? month)
                   && (datetime.day date_obj =? day)
                then matching_loop month day rest (matching_videos ++ [video])
                else matching_loop month day rest matching_videos
            | Raise e =>
                if isinstance_ValueError e
                then matching_loop month day rest matching_videos
                else Raise e
            end
          else matching_loop month day rest matching_videos
      | None => matching_loop month day rest matching_videos
      end
  end.

(** The sort key [lambda v: v.get('recording_date', '')]. *)
Definition sort_key (v : video) : string :=
  match VideoRecord.recording_date v with
  | Some s => s
  | None => ""
  end.

Definition get_videos_for_date (videos_db : catalogue) (month day : Z)
    : result (list video) :=
  let* matching_videos :=
    matching_loop month day (Catalogue.videos videos_db) [] in
  Ok (list_sort sort_key matching_videos).

(** The matching rule in the words of the specification: the record
    has a recording date that parses, and its month and day equal the
    query. *)
Definition recorded_on (month day : Z) (v : video) : bool :=
  match VideoRecord.recording_date v with
  | Some s =>
      match fromisoformat s with
      | Ok d => (datetime.month d =? month) && (datetime.day d =? day)
      | Raise _ => false
      end
  | None => false
  end.
End Matcher.

(** ** Date extractor ([utils.py:84-115]) *)

(** The configuration dictionary, restricted to the keys the modelled
    code reads.  An absent key is [None]; the [.get(key, default)] calls
    of the source supply the defaults. *)
Module DateParsing.
Record t : Type := make {
  title_patterns : option (list string);
  use_upload_date_fallback : option bool
}.
End DateParsing.

Module Config.
Record t : Type := make { date_parsing : option DateParsing.t }.
End Config.
Abbreviation config := Config.t.

(** [config.get('date_parsing', {}).get('title_patterns', [])]. *)
Definition config_title_patterns (cfg : config) : list string :=
  match Config.date_parsing cfg with
  | Some dp =>
      match DateParsing.title_patterns dp with
      | Some ps => ps
      | None => []
      end
  | None => []
  end.

(** [config.get('date_parsing', {}).get('use_upload_date_fallback', True)]. *)
Definition config_use_upload_date_fallback (cfg : config) : bool :=
  match Config.date_parsing cfg with
  | Some dp =>
      match DateParsing.use_upload_date_fallback dp with
      | Some b => b
      | None => true
      end
  | None => true
  end.

Section Extractor.
(** [datetime.strptime(title, pattern)]. *)
Variable strptime : string -> string -> result datetime.t.
(** [dateutil.parser.parse(title, fuzzy=True)]. *)
Variable parser_parse_fuzzy : string -> result datetime.t.

(** The [for pattern in patterns] loop: [Ok (Some d)] is the early
    [return date_obj], [Ok None] is falling out of the loop, and an
    exception that [except ValueError] does not catch propagates. *)
Fixpoint try_patterns (title : string) (patterns : list string)
    : result (option datetime.t) :=
  match patterns with
  | [] => Ok None
  | pattern :: rest =>
      match strptime title pattern with
      | Ok date_obj => Ok (Some date_obj)
      | Raise e =>
          if isinstance_ValueError e then try_patterns title rest
          else Raise e
      end
  end.

Definition parse_date_from_title (title : string) (cfg : config)
    : result (option datetime.t) :=
  let patterns := config_title_patterns cfg in
  let* strict := try_patterns title patterns in
  match strict with
  | Some date_obj => Ok (Some date_obj)
  | None =>
      match parser_parse_fuzzy title with
      | Ok date_obj => Ok (Some date_obj)
      | Raise _ => Ok None
      end
  end.

(** A format the strict stage can work with: whatever the title,
    [strptime] parses it or rejects it with a [ValueError]. *)
Definition usable_format (pattern : string) : Prop :=
  forall title e,
    strptime title pattern = Raise e -> isinstance_ValueError e = true.

(** The extractor in the words of the specification, section 4.1:
    strict patterns in order, then the fuzzy scan if it is enabled,
    else absent.  A strategy "matches" when it returns a date. *)
Fixpoint first_strict_match (title : string) (patterns : list string)
    : option datetime.t :=
  match patterns with
  | [] => None
  | pattern :: rest =>
      match strptime title pattern with
      | Ok d => Some d
      | Raise _ => first_strict_match title rest
      end
  end.

Definition extract_spec (title : string) (patterns : list string)
    (fuzzy_enabled : bool) : option datetime.t :=
  match first_strict_match title patterns with
  | Some d => Some d
  | None =>
      if fuzzy_enabled then
        match parser_parse_fuzzy title with
        | Ok d => Some d
        | Raise _ => None
        end
      else None
  end.
End Extractor.

(** ** Ingestion ([fetch_videos.py:95-175]) *)

(** A playlist item as the hosting API supplies it: [item['snippet']]
    with [resourceId.videoId]; [description] and the high-resolution
    thumbnail URL may be absent. *)
Module Snippet.
Record t : Type := make {
  title : string;
  videoId : string;
  description : option string;
  publishedAt : string;
  thumbnail_high_url : option string
}.
End Snippet.
Abbreviation snippet := Snippet.t.

(** What [request.execute()] yields for one page: an [HttpError], or a
    response with its items and an optional [nextPageToken]. *)
Inductive api_response : Type :=
  | HttpError
  | Response (items : list snippet) (nextPageToken : option string).

Section Ingestion.
Variable strptime : string -> string -> result datetime.t.
Variable parser_parse_fuzzy : string -> result datetime.t.
(** [date_obj.strftime('%Y-%m-%d')]. *)
Variable strftime_ymd : datetime.t -> string.

(** The test at [fetch_videos.py:132]. *)
Definition is_removed (title : string) : bool :=
  String.eqb title "Private video" || String.eqb title "Deleted video".

(** Lines 135-158: the record built for a retained item. *)
Definition make_video_data (cfg : config) (item : snippet)
    : result video :=
  let video_id := Snippet.videoId item in
  let title := Snippet.title item in
  let description := default "" (Snippet.description item) in
  let upload_date := String.substring 0 10 (Snippet.publishedAt item) in
  let* date_obj :=
    parse_date_from_title strptime parser_parse_fuzzy title cfg in
  let recording_date :=
    match date_obj with
    | Some d => Some (strftime_ymd d)
    | None =>
        if config_use_upload_date_fallback cfg then Some upload_date
        else None
    end in
  Ok (VideoRecord.make video_id title description upload_date
        recording_date
        ("https://www.youtube.com/watch?v=" ++ video_id)
        (default "" (Snippet.thumbnail_high_url item))).

(** The [for item in items] loop, lines 128-160, with the accumulator
    [videos]. *)
Fixpoint process_items (cfg : config) (videos : list video)
    (items : list snippet) : result (list video) :=
  match items with
  | [] => Ok videos
  | item :: rest =>
      if is_removed (Snippet.title item) then
        process_items cfg videos rest
      else
        let* video_data := make_video_data cfg item in
        process_items cfg (videos ++ [video_data]) rest
  end.

(** The [while True] loop, lines 114-172.  [youtube] answers a page
    token with a response; the loop ends on an [HttpError] or on a
    response without a (truthy) next token.  [None] means that [fuel]
    pages did not reach the end of the playlist. *)
Fixpoint fetch_loop (fuel : nat) (youtube : option string -> api_response)
    (cfg : config) (videos : list video) (next_page_token : option string)
    : option (result (list video)) :=
  match fuel with
  | O => None
  | S fuel' =>
      match youtube next_page_token with
      | HttpError => Some (Ok videos)
      | Response items next =>
          match process_items cfg videos items with
          | Raise e => Some (Raise e)
          | Ok videos' =>
              match next with
              | Some tok =>
                  if truthy tok
                  then fetch_loop fuel' youtube cfg videos' (Some tok)
                  else Some (Ok videos')
              | None => Some (Ok videos')
              end
          end
      end
  end.

Definition fetch_all_videos_from_playlist (fuel : nat)
    (youtube : option string -> api_response) (cfg : config)
    : option (result (list video)) :=
  fetch_loop fuel youtube cfg [] None.

(** The raw entries the loop has been given, page after page. *)
Fixpoint pages_seen (fuel : nat) (youtube : option string -> api_response)
    (next_page_token : option string) : list snippet :=
  match fuel with
  | O => []
  | S fuel' =>
      match youtube next_page_token with
      | HttpError => []
      | Response items next =>
          items ++
          match next with
          | Some tok =>
              if truthy tok then pages_seen fuel' youtube (Some tok) else []
          | None => []
          end
      end
  end.

(** What the date extractor finds in a title: its date, or nothing
    (also where it does not return). *)
Definition extracted (cfg : config) (title : string) : option datetime.t :=
  match parse_date_from_title strptime parser_parse_fuzzy title cfg with
  | Ok found => found
  | Raise _ => None
  end.

(** The per-entry rule in the words of the specification, section
    4.3: the extracted date, else the upload date under the fallback
    policy, else absent. *)
Definition recording_date_spec (cfg : config) (item : snippet)
    : option string :=
  match extracted cfg (Snippet.title item) with
  | Some d => Some (strftime_ymd d)
  | None =>
      if config_use_upload_date_fallback cfg
      then Some (String.substring 0 10 (Snippet.publishedAt item))
      else None
  end.

Definition assemble_spec (cfg : config) (item : snippet) : video :=
  VideoRecord.make (Snippet.videoId item) (Snippet.title item)
    (default "" (Snippet.description item))
    (String.substring 0 10 (Snippet.publishedAt item))
    (recording_date_spec cfg item)
    ("https://www.youtube.com/watch?v=" ++ Snippet.videoId item)
    (default "" (Snippet.thumbnail_high_url item)).

Definition retained (item : snippet) : bool :=
  negb (is_removed (Snippet.title item)).
End Ingestion.

(** ** Catalogue store ([utils.py:46-82], [utils.py:212-218]) *)

(** The values [json.load] produces and [json.dump] accepts.  A Python
    dictionary keeps its keys in insertion order; it is an association
    list here, read and updated through [dict_get] and [dict_set]. *)
Inductive json : Type :=
  | JNull
  | JBool (b : bool)
  | JInt (z : Z)
  | JStr (s : string)
  | JList (items : list json)
  | JDict (entries : list (string * json)).

(** [d.get(k)]. *)
Fixpoint dict_get (k : string) (d : list (string * json)) : option json :=
  match d with
  | [] => None
  | (k', v) :: d' => if String.eqb k k' then Some v else dict_get k d'
  end.

(** [d[k] = v]: an existing key keeps its place, a new key goes last. *)
Fixpoint dict_set (k : string) (v : json) (d : list (string * json))
    : list (string * json) :=
  match d with
  | [] => [(k, v)]
  | (k', v') :: d' =>
      if String.eqb k k' then (k, v) :: d' else (k', v') :: dict_set k v d'
  end.

(** The file system, as far as the store sees it: the regular files by
    path, each with its text.  [os.makedirs('data', exist_ok=True)]
    creates no regular file and so leaves this map as it is. *)
Abbreviation filesystem := (gmap string string).

(** [os.path.join('data', 'videos.json')]. *)
Definition db_path : string := "data/videos.json".

(** The structure [load_videos_db] returns when there is no file. *)
Definition empty_db : json :=
  JDict [ ("channel_info",
           JDict [ ("channel_id", JStr "");
                   ("channel_name", JStr "Adam The Woo");
                   ("channel_handle", JStr "@TheDailyWoo");
                   ("last_updated", JNull) ]);
          ("videos", JList []) ].

Section Store.
(** [json.dump(data, f, indent=2, ensure_ascii=False)]: the text
    written. *)
Variable json_dump : json -> string.
(** [json.load(f)] on a file with the given text. *)
Variable json_load : string -> result json.

Definition load_videos_db (fs : filesystem) : result json :=
  match fs !! db_path with
  | None => Ok empty_db
  | Some content =>
      match json_load content with
      | Ok data => Ok data
      | Raise e =>
          match isinstance_JSONDecodeError e with
          | Some msg =>
              Raise (Exception ("Error parsing videos database: " ++ msg))
          | None => Raise e
          end
      end
  end.

(** [data['channel_info']['last_updated'] = now]: subscripting
    anything but a dictionary is a [TypeError], a missing key a
    [KeyError]. *)
Definition set_last_updated (now : string) (data : json) : result json :=
  match data with
  | JDict entries =>
      match dict_get "channel_info" entries with
      | None => Raise (KeyError "channel_info")
      | Some (JDict channel_info) =>
          Ok (JDict (dict_set "channel_info"
                       (JDict (dict_set "last_updated" (JStr now)
                                 channel_info))
                       entries))
      | Some _ => Raise TypeError
      end
  | _ => Raise TypeError
  end.

(** [save_videos_db(data)] at the instant [now]: the dictionary as the
    call leaves it (it is updated in place) and the new file system. *)
Definition save_videos_db (now : string) (data : json) (fs : filesystem)
    : result (json * filesystem) :=
  let* data' := set_last_updated now data in
  Ok (data', <[db_path := json_dump data']> fs).

(** [create_backup(file_path)]. *)
Definition create_backup (file_path : string) (fs : filesystem)
    : filesystem :=
  match fs !! file_path with
  | Some content => <[file_path ++ ".backup" := content]> fs
  | None => fs
  end.

(** The dictionary literal of [fetch_videos.py:150-158] as a JSON
    value. *)
Definition video_to_json (v : video) : json :=
  JDict [ ("video_id", JStr (VideoRecord.video_id v));
          ("title", JStr (VideoRecord.title v));
          ("description", JStr (VideoRecord.description v));
          ("upload_date", JStr (VideoRecord.upload_date v));
          ("recording_date",
           match VideoRecord.recording_date v with
           | Some s => JStr s
           | None => JNull
           end);
          ("url", JStr (VideoRecord.url v));
          ("thumbnail", JStr (VideoRecord.thumbnail v)) ].

(** The end of [main], [fetch_videos.py:210-231]: back up the existing
    database, build the new one and save it.  [now_main] and [now] are
    the two readings of the clock. *)
Definition main_store (channel_id channel_title channel_handle
    uploads_playlist_id now_main now : string) (videos : list video)
    (fs : filesystem) : result (json * filesystem) :=
  let fs1 :=
    match fs !! db_path with
    | Some _ => create_backup db_path fs
    | None => fs
    end in
  let videos_db :=
    JDict [ ("channel_info",
             JDict [ ("channel_id", JStr channel_id);
                     ("channel_name", JStr channel_title);
                     ("channel_handle", JStr channel_handle);
                     ("uploads_playlist_id", JStr uploads_playlist_id);
                     ("total_videos", JInt (Z.of_nat (length videos)));
                     ("last_updated", JStr now_main) ]);
            ("videos", JList (map video_to_json videos)) ] in
  save_videos_db now videos_db fs1.

(** Backup-then-save as [main] does it, for an arbitrary dictionary. *)
Definition backup_and_save (now : string) (data : json) (fs : filesystem)
    : result (json * filesystem) :=
  save_videos_db now data (create_backup db_path fs).
End Store.

(** The sibling backup path of the database. *)
Definition backup_path : string := db_path ++ ".backup".

(** ** The matcher on the object heap

    [get_videos_for_date] receives a reference to the catalogue
    dictionary, builds a new list object, appends references to the
    matching video dictionaries and sorts the new list in place.  The
    heap below holds the objects involved, addressed by position; the
    stateful reading of the function works on it. *)
Inductive obj : Type :=
  | OVideo (v : video)
  | OList (refs : list nat)
  | OChannelInfo (channel_name : string) (last_updated : option string)
  | OCatalogue (channel_info : nat) (videos : option nat).

Abbreviation heap := (list obj).

(** [l.append(r)] for the list object at address [l]. *)
Definition heap_append (l r : nat) (h : heap) : result heap :=
  match h !! l with
  | Some (OList refs) => Ok (<[l := OList (refs ++ [r])]> h)
  | _ => Raise AttributeError
  end.

(** The key the sort reads through a reference. *)
Definition heap_sort_key (h : heap) (r : nat) : string :=
  match h !! r with
  | Some (OVideo v) => sort_key v
  | _ => ""
  end.

(** [l.sort(key=...)] for the list object at address [l]. *)
Definition heap_sort (l : nat) (h : heap) : result heap :=
  match h !! l with
  | Some (OList refs) =>
      Ok (<[l := OList (list_sort (heap_sort_key h) refs)]> h)
  | _ => Raise AttributeError
  end.

Section HeapMatcher.
Variable fromisoformat : string -> result datetime.t.

(** The [for] loop over the list object at [l], read at index [i] on
    every round as Python's list iterator does; [m] is the address of
    [matching_videos].  [None]: the fuel ran out. *)
Fixpoint heap_matching_loop (fuel : nat) (month day : Z) (l m i : nat)
    (h : heap) : option (result heap) :=
  match fuel with
  | O => None
  | S fuel' =>
      match h !! l with
      | Some (OList refs) =>
          match refs !! i with
          | None => Some (Ok h)
          | Some r =>
              match h !! r with
              | Some (OVideo video) =>
                  match VideoRecord.recording_date video with
                  | Some recording_date =>
                      if truthy recording_date then
                        match fromisoformat recording_date with
                        | Ok date_obj =>
                            if (datetime.month date_obj =? month)
                               && (datetime.day date_obj =? day)
                            then
                              match heap_append m r h with
                              | Ok h' =>
                                  heap_matching_loop fuel' month day l m
                                    (S i) h'
                              | Raise e => Some (Raise e)
                              end
                            else
                              heap_matching_loop fuel' month day l m (S i) h
                        | Raise e =>
                            if isinstance_ValueError e
                            then
                              heap_matching_loop fuel' month day l m (S i) h
                            else Some (Raise e)
                        end
                      else heap_matching_loop fuel' month day l m (S i) h
                  | None => heap_matching_loop fuel' month day l m (S i) h
                  end
              | _ => Some (Raise AttributeError)
              end
          end
      | _ => Some (Raise TypeError)
      end
  end.

(** The whole call: the address of the returned list and the heap
    after the call. *)
Definition heap_get_videos_for_date (h : heap) (videos_db : nat)
    (month day : Z) : option (result (nat * heap)) :=
  let m := length h in
  let h0 := (h ++ [OList []])%list in
  match h0 !! videos_db with
  | Some (OCatalogue _ videos) =>
      let looped :=
        match videos with
        | Some l =>
            match h0 !! l with
            | Some (OList refs) =>
                heap_matching_loop (S (length refs)) month day l m 0%nat h0
            | _ => Some (Raise TypeError)
            end
        | None => Some (Ok h0)
        end in
      match looped with
      | Some (Ok h1) =>
          match heap_sort m h1 with
          | Ok h2 => Some (Ok (m, h2))
          | Raise e => Some (Raise e)
          end
      | Some (Raise e) => Some (Raise e)
      | None => None
      end
  | _ => Some (Raise AttributeError)
  end.
End HeapMatcher.

(** Reading values back from the heap. *)
Fixpoint read_videos (h : heap) (refs : list nat) : option (list video) :=
  match refs with
  | [] => Some []
  | r :: refs' =>
      match h !! r, read_videos h refs' with
      | Some (OVideo v), Some vs => Some (v :: vs)
      | _, _ => None
      end
  end.

Definition read_list (h : heap) (l : nat) : option (list video) :=
  match h !! l with
  | Some (OList refs) => read_videos h refs
  | _ => None
  end.

Definition read_catalogue (h : heap) (videos_db : nat) : option catalogue :=
  match h !! videos_db with
  | Some (OCatalogue ci videos) =>
      match h !! ci with
      | Some (OChannelInfo name updated) =>
          match videos with
          | Some l =>
              match read_list h l with
              | Some vs => Some (Catalogue.make name updated vs)
              | None => None
              end
          | None => Some (Catalogue.make name updated [])
          end
      | _ => None
      end
  | _ => None
  end.

(** ** Executable instances of the library routines

    The routines below stand for the library calls when the code is run
    on concrete inputs.  Each covers a fragment of its library
    counterpart and agrees with it there: [Lib.fromisoformat] the
    date-only form [YYYY-MM-DD], and [Lib.fromisoformat_3_11] the week
    form [YYYY-Www-D] and the form with a time of day
    [YYYY-MM-DD?HH:MM:SS] as well; [Lib.strptime] the directives [%Y],
    [%m], [%d] in zero-padded form, [%%] and literal characters;
    [Lib.parser_parse_fuzzy] texts whose first recognisable date is an
    ISO date; [Lib.json_dump] and [Lib.json_load] documents without
    floating-point numbers. *)
Module Lib.

Definition digit_of (c : ascii) : option Z :=
  let n := Z.of_N (N_of_ascii c) in
  if (48 <=? n) && (n <=? 57) then Some (n - 48) else None.

Fixpoint digits_value (acc : Z) (s : string) : option Z :=
  match s with
  | EmptyString => Some acc
  | String c s' =>
      match digit_of c with
      | Some d => digits_value (10 * acc + d) s'
      | None => None
      end
  end.

Definition parse_digits (s : string) : option Z :=
  if truthy s then digits_value 0 s else None.

Definition is_leap (y : Z) : bool :=
  (y mod 4 =? 0) && (negb (y mod 100 =? 0) || (y mod 400 =? 0)).

Definition days_in_month (y m : Z) : Z :=
  if m =? 2 then (if is_leap y then 29 else 28)
  else if (m =? 4) || (m =? 6) || (m =? 9) || (m =? 11) then 30
  else 31.

(** The check the [datetime] constructor makes. *)
Definition valid_date (y m d : Z) : bool :=
  (1 <=? y) && (y <=? 9999) && (1 <=? m) && (m <=? 12)
  && (1 <=? d) && (d <=? days_in_month y m).

(** The date a string of the form [YYYY-MM-DD] denotes. *)
Definition iso_date (s : string) : option datetime.t :=
  if (String.length s =? 10)%nat then
    match parse_digits (String.substring 0 4 s), String.get 4 s,
          parse_digits (String.substring 5 2 s), String.get 7 s,
          parse_digits (String.substring 8 2 s) with
    | Some y, Some "-"%char, Some m, Some "-"%char, Some d =>
        if valid_date y m d then Some (datetime.make y m d) else None
    | _, _, _, _, _ => None
    end
  else None.

Definition fromisoformat (s : string) : result datetime.t :=
  match iso_date s with
  | Some d => Ok d
  | None => Raise ValueError
  end.

(** *** ISO week dates

    From Python 3.11 on, [datetime.fromisoformat] also reads the week
    form [YYYY-Www-D] of ISO 8601 (the form with a time of day it has
    read since Python 3.7).  The functions below follow the
    library's [_ymd2ord], [_ord2ymd], [_isoweek1monday] and
    [_isoweek_to_gregorian]. *)











(** The first [n] characters of [s] as a number, and the rest. *)
Definition take_digits (n : nat) (s : string) : option (Z * string) :=
  if (n <=? String.length s)%nat then
    match parse_digits (String.substring 0 n s) with
    | Some v => Some (v, String.substring n (String.length s - n) s)
    | None => None
    end
  else None.

Fixpoint strptime_scan (fmt s : string) (y m d : Z) {struct fmt}
    : option (Z * Z * Z) :=
  match fmt with
  | EmptyString => if truthy s then None else Some (y, m, d)
  | String "%" (String "Y" fmt') =>
      match take_digits 4 s with
      | Some (v, s') => strptime_scan fmt' s' v m d
      | None => None
      end
  | String "%" (String "m" fmt') =>
      match take_digits 2 s with
      | Some (v, s') => strptime_scan fmt' s' y v d
      | None => None
      end
  | String "%" (String "d" fmt') =>
      match take_digits 2 s with
      | Some (v, s') => strptime_scan fmt' s' y m v
      | None => None
      end
  | String "%" (String "%" fmt') =>
      match s with
      | String "%" s' => strptime_scan fmt' s' y m d
      | _ => None
      end
  | String "%" _ => None
  | String c fmt' =>
      match s with
      | String c' s' =>
          if Ascii.eqb c c' then strptime_scan fmt' s' y m d else None
      | EmptyString => None
      end
  end.

(** The directives of a format, in order; [None] for a directive
    outside the fragment or a stray [%]. *)
Fixpoint format_directives (fmt : string) : option (list ascii) :=
  match fmt with
  | EmptyString => Some []
  | String "%" (String c fmt') =>
      if Ascii.eqb c "%" then format_directives fmt'
      else if Ascii.eqb c "Y" || Ascii.eqb c "m" || Ascii.eqb c "d" then
        match format_directives fmt' with
        | Some ds => Some (c :: ds)
        | None => None
        end
      else None
  | String "%" EmptyString => None
  | String _ fmt' => format_directives fmt'
  end.

Fixpoint has_repeat (ds : list ascii) : bool :=
  match ds with
  | [] => false
  | c :: ds' => existsb (Ascii.eqb c) ds' || has_repeat ds'
  end.

(** [strptime] turns the format into a regular expression with one
    named group per directive.  A directive it does not know is a
    [ValueError]; a directive that occurs twice names a group twice,
    and compiling the expression raises [re.error], whatever the date
    string.  Fields the format does not mention default to
    1900-01-01. *)
Definition strptime (date_string format : string) : result datetime.t :=
  match format_directives format with
  | None => Raise ValueError
  | Some ds =>
      if has_repeat ds then Raise ReError
      else
        match strptime_scan format date_string 1900 1 1 with
        | Some (y, m, d) =>
            if valid_date y m d then Ok (datetime.make y m d)
            else Raise ValueError
        | None => Raise ValueError
        end
  end.

Fixpoint parser_parse_fuzzy (s : string) : result datetime.t :=
  match iso_date (String.substring 0 10 s) with
  | Some d => Ok d
  | None =>
      match s with
      | EmptyString => Raise ParserError
      | String _ s' => parser_parse_fuzzy s'
      end
  end.

Definition digit_char (d : Z) : ascii :=
  ascii_of_N (Z.to_N (48 + d mod 10)).

Definition pad2 (n : Z) : string :=
  String (digit_char (n / 10)) (String (digit_char n) EmptyString).

Definition pad4 (n : Z) : string :=
  String (digit_char (n / 1000)) (String (digit_char (n / 100)) (pad2 n)).

Definition strftime_ymd (d : datetime.t) : string :=
  pad4 (datetime.year d) ++ "-" ++ pad2 (datetime.month d) ++ "-"
  ++ pad2 (datetime.day d).

(** *** [json.dump(..., indent=2, ensure_ascii=False)] *)

(** The double-quote character. *)
Definition dquote : ascii := ascii_of_N 34.

Definition hex_char (d : Z) : ascii :=
  if d <? 10 then ascii_of_N (Z.to_N (48 + d))
  else ascii_of_N (Z.to_N (87 + d)).

(** One character of a string literal, escaped as the encoder does
    when [ensure_ascii] is off. *)
Definition escape_char (c : ascii) : string :=
  let n := Z.of_N (N_of_ascii c) in
  if n =? 34 then String "\" (String dquote "")
  else if n =? 92 then "\\"
  else if n =? 10 then "\n"
  else if n =? 13 then "\r"
  else if n =? 9 then "\t"
  else if n =? 8 then "\b"
  else if n =? 12 then "\f"
  else if n <? 32 then
    "\u00" ++ String (hex_char (n / 16)) (String (hex_char (n mod 16)) "")
  else String c "".

Fixpoint escape (s : string) : string :=
  match s with
  | EmptyString => ""
  | String c s' => escape_char c ++ escape s'
  end.

Definition quote (s : string) : string :=
  String dquote (escape s ++ String dquote "").

Definition newline : string := String (ascii_of_N 10) "".

Fixpoint indent (level : nat) : string :=
  match level with
  | O => ""
  | S l => "  " ++ indent l
  end.

Fixpoint join (sep : string) (parts : list string) : string :=
  match parts with
  | [] => ""
  | [p] => p
  | p :: rest => p ++ sep ++ join sep rest
  end.

Definition int_to_string (z : Z) : string :=
  DecimalString.NilZero.string_of_int (Z.to_int z).

Fixpoint json_dump_at (level : nat) (v : json) : string :=
  match v with
  | JNull => "null"
  | JBool true => "true"
  | JBool false => "false"
  | JInt z => int_to_string z
  | JStr s => quote s
  | JList [] => "[]"
  | JList items =>
      "[" ++ newline ++ indent (S level)
      ++ join ("," ++ newline ++ indent (S level))
           (map (json_dump_at (S level)) items)
      ++ newline ++ indent level ++ "]"
  | JDict [] => "{}"
  | JDict entries =>
      "{" ++ newline ++ indent (S level)
      ++ join ("," ++ newline ++ indent (S level))
           (map (fun kv => let '(k, x) := kv in
                           quote k ++ ": " ++ json_dump_at (S level) x)
              entries)
      ++ newline ++ indent level ++ "}"
  end.

Definition json_dump (v : json) : string := json_dump_at 0 v.

(** *** [json.load] *)

Definition is_ws (c : ascii) : bool :=
  let n := N_of_ascii c in
  (n =? 32)%N || (n =? 10)%N || (n =? 13)%N || (n =? 9)%N.

Fixpoint skip_ws (s : string) : string :=
  match s with
  | String c s' => if is_ws c then skip_ws s' else s
  | EmptyString => s
  end.

Definition hex_of (c : ascii) : option Z :=
  let n := Z.of_N (N_of_ascii c) in
  if (48 <=? n) && (n <=? 57) then Some (n - 48)
  else if (97 <=? n) && (n <=? 102) then Some (n - 87)
  else if (65 <=? n) && (n <=? 70) then Some (n - 55)
  else None.

Definition byte (n : Z) : ascii := ascii_of_N (Z.to_N n).

(** The UTF-8 bytes of a code point of the basic plane; surrogates
    are outside the fragment. *)
Definition utf8 (cp : Z) : option string :=
  if cp <? 128 then Some (String (byte cp) "")
  else if cp <? 2048 then
    Some (String (byte (192 + cp / 64)) (String (byte (128 + cp mod 64)) ""))
  else if (55296 <=? cp) && (cp <=? 57343) then None
  else
    Some (String (byte (224 + cp / 4096))
           (String (byte (128 + (cp / 64) mod 64))
             (String (byte (128 + cp mod 64)) ""))).

(** The body of a string literal, after the opening quote: the value
    and the text after the closing quote. *)
Fixpoint parse_string_body (s : string) : option (string * string) :=
  match s with
  | EmptyString => None
  | String "\" (String "u" (String h1 (String h2 (String h3 (String h4 rest))))) =>
      match hex_of h1, hex_of h2, hex_of h3, hex_of h4 with
      | Some a, Some b, Some c, Some d =>
          match utf8 (4096 * a + 256 * b + 16 * c + d),
                parse_string_body rest with
          | Some bytes, Some (str, rest') => Some (bytes ++ str, rest')
          | _, _ => None
          end
      | _, _, _, _ => None
      end
  | String "\" (String e rest) =>
      let unescaped :=
        match e with
        | "034"%char => Some dquote
        | "\"%char => Some "\"%char
        | "/"%char => Some "/"%char
        | "b"%char => Some (byte 8)
        | "f"%char => Some (byte 12)
        | "n"%char => Some (byte 10)
        | "r"%char => Some (byte 13)
        | "t"%char => Some (byte 9)
        | _ => None
        end in
      match unescaped, parse_string_body rest with
      | Some c, Some (str, rest') => Some (String c str, rest')
      | _, _ => None
      end
  | String c rest =>
      if Ascii.eqb c dquote then Some ("", rest)
      else if (N_of_ascii c <? 32)%N then None
      else
        match parse_string_body rest with
        | Some (str, rest') => Some (String c str, rest')
        | None => None
        end
  end.

Fixpoint span_digits (s : string) : string * string :=
  match s with
  | String c s' =>
      match digit_of c with
      | Some _ => let '(ds, rest) := span_digits s' in (String c ds, rest)
      | None => ("", s)
      end
  | EmptyString => ("", s)
  end.

(** An integer literal: an optional minus sign, then a single zero or
    a nonzero digit followed by digits; not followed by a fraction or
    an exponent. *)
Definition parse_int (s : string) : option (Z * string) :=
  let '(neg, s1) :=
    match s with
    | String "-" s' => (true, s')
    | _ => (false, s)
    end in
  let '(ds, rest) :=
    match s1 with
    | String "0" s' => ("0", s')
    | _ => span_digits s1
    end in
  match parse_digits ds with
  | Some n =>
      match rest with
      | String "." _ | String "e" _ | String "E" _ => None
      | _ => Some (if neg then - n else n, rest)
      end
  | None => None
  end.

Fixpoint dict_remove (k : string) (d : list (string * json))
    : list (string * json) :=
  match d with
  | [] => []
  | (k', v) :: d' =>
      if String.eqb k k' then dict_remove k d' else (k', v) :: dict_remove k d'
  end.

(** A repeated key keeps its first place and its last value. *)
Definition dict_cons (k : string) (v : json) (d : list (string * json))
    : list (string * json) :=
  match dict_get k d with
  | Some v' => (k, v') :: dict_remove k d
  | None => (k, v) :: d
  end.

(** The literal that starts with the given character, after that
    character: [null], [true] or [false]. *)
Definition parse_literal (c : ascii) (rest : string)
    : option (json * string) :=
  if Ascii.eqb c "n" then
    match rest with
    | String "u" (String "l" (String "l" rest')) => Some (JNull, rest')
    | _ => None
    end
  else if Ascii.eqb c "t" then
    match rest with
    | String "r" (String "u" (String "e" rest')) => Some (JBool true, rest')
    | _ => None
    end
  else if Ascii.eqb c "f" then
    match rest with
    | String "a" (String "l" (String "s" (String "e" rest'))) =>
        Some (JBool false, rest')
    | _ => None
    end
  else None.

Fixpoint parse_value (fuel : nat) (s : string) {struct fuel}
    : option (json * string) :=
  match fuel with
  | O => None
  | S fuel' =>
      match skip_ws s with
      | EmptyString => None
      | String c rest =>
          if Ascii.eqb c dquote then
            match parse_string_body rest with
            | Some (str, rest') => Some (JStr str, rest')
            | None => None
            end
          else if Ascii.eqb c "[" then
            match skip_ws rest with
            | EmptyString => None
            | String c' rest' =>
                if Ascii.eqb c' "]" then Some (JList [], rest')
                else
                  match parse_elements fuel' rest with
                  | Some (items, rest'') => Some (JList items, rest'')
                  | None => None
                  end
            end
          else if Ascii.eqb c "{" then
            match skip_ws rest with
            | EmptyString => None
            | String c' rest' =>
                if Ascii.eqb c' "}" then Some (JDict [], rest')
                else
                  match parse_members fuel' rest with
                  | Some (entries, rest'') => Some (JDict entries, rest'')
                  | None => None
                  end
            end
          else if Ascii.eqb c "n" || Ascii.eqb c "t" || Ascii.eqb c "f" then
            parse_literal c rest
          else
            match parse_int (String c rest) with
            | Some (n, rest') => Some (JInt n, rest')
            | None => None
            end
      end
  end
with parse_elements (fuel : nat) (s : string) {struct fuel}
    : option (list json * string) :=
  match fuel with
  | O => None
  | S fuel' =>
      match parse_value fuel' s with
      | Some (v, rest) =>
          match skip_ws rest with
          | EmptyString => None
          | String c rest' =>
              if Ascii.eqb c "," then
                match parse_elements fuel' rest' with
                | Some (vs, rest'') => Some (v :: vs, rest'')
                | None => None
                end
              else if Ascii.eqb c "]" then Some ([v], rest')
              else None
          end
      | None => None
      end
  end
with parse_members (fuel : nat) (s : string) {struct fuel}
    : option (list (string * json) * string) :=
  match fuel with
  | O => None
  | S fuel' =>
      match skip_ws s with
      | EmptyString => None
      | String c rest =>
          if Ascii.eqb c dquote then
            match parse_string_body rest with
            | Some (k, rest1) =>
                match skip_ws rest1 with
                | EmptyString => None
                | String c1 rest2 =>
                    if Ascii.eqb c1 ":" then
                      match parse_value fuel' rest2 with
                      | Some (v, rest3) =>
                          match skip_ws rest3 with
                          | EmptyString => None
                          | String c3 rest4 =>
                              if Ascii.eqb c3 "," then
                                match parse_members fuel' rest4 with
                                | Some (d, rest5) =>
                                    Some (dict_cons k v d, rest5)
                                | None => None
                                end
                              else if Ascii.eqb c3 "}" then
                                Some ([(k, v)], rest4)
                              else None
                          end
                      | None => None
                      end
                    else None
                end
            | None => None
            end
          else None
      end
  end.

Definition json_load (text : string) : result json :=
  match parse_value (2 * String.length text + 2) text with
  | Some (v, rest) =>
      if truthy (skip_ws rest) then Raise (JSONDecodeError "Extra data")
      else Ok v
  | None => Raise (JSONDecodeError "Expecting value")
  end.

End Lib.


(** ** Sample data *)

Definition sample_video (id : string) (recording_date : option string)
    : video :=
  VideoRecord.make id ("Video " ++ id) "" "2023-06-01" recording_date
    ("https://www.youtube.com/watch?v=" ++ id) "".

(** A catalogue in pagination order: dated, undated and ill-dated
    records, and two records with one and the same date. *)
Definition sample_db : catalogue :=
  Catalogue.make "Adam The Woo" None
    [ sample_video "a" (Some "2022-01-04");
      sample_video "b" (Some "2020-01-04");
      sample_video "c" (Some "2020-02-29");
      sample_video "d" (Some "2019-02-28");
      sample_video "e" (Some "2021-03-01");
      sample_video "f" None;
      sample_video "g" (Some "not a date");
      sample_video "h" (Some "");
      sample_video "i" (Some "2020-01-04");
      sample_video "j" (Some "2016-02-29") ].

(** A configuration whose first pattern names the year twice (as a
    pattern for a title with two dates would). *)
Definition sample_config_repeated : config :=
  Config.make
    (Some (DateParsing.make (Some ["%Y %Y"; "%Y-%m-%d"]) None)).

(** A configuration with two strict patterns and the fallback policy
    left at its default, and one with the fallback switched off. *)
Definition sample_config : config :=
  Config.make
    (Some (DateParsing.make (Some ["%m/%d/%Y"; "%Y-%m-%d"]) None)).

Definition sample_config_no_fallback : config :=
  Config.make
    (Some (DateParsing.make (Some ["%m/%d/%Y"; "%Y-%m-%d"]) (Some false))).

(** Two pages of raw entries: a dated title, a removed entry, an
    undated title, and a second page reached through a page token. *)
Definition sample_items_page1 : list snippet :=
  [ Snippet.make "2019-03-14" "v1" (Some "Pi day") "2019-03-20T10:00:00Z"
      (Some "https://img/v1.jpg");
    Snippet.make "Private video" "v2" None "2019-04-01T10:00:00Z" None;
    Snippet.make "Just a fun day!" "v3" None "2020-01-04T08:30:00Z" None ].

Definition sample_items_page2 : list snippet :=
  [ Snippet.make "Deleted video" "v4" None "2021-01-01T00:00:00Z" None;
    Snippet.make "Trip 2022-01-04" "v5" None "2022-01-09T12:00:00Z" None ].

Definition sample_youtube (page_token : option string) : api_response :=
  match page_token with
  | None => Response sample_items_page1 (Some "page2")
  | Some tok =>
      if String.eqb tok "page2" then Response sample_items_page2 None
      else HttpError
  end.

(** A catalogue dictionary as [main] builds it, for two sample videos,
    with a given [last_updated] stamp. *)
Definition sample_stamped (now : string) : json :=
  JDict [ ("channel_info",
           JDict [ ("channel_id", JStr "UC123");
                   ("channel_name", JStr "Adam The Woo");
                   ("channel_handle", JStr "@TheDailyWoo");
                   ("uploads_playlist_id", JStr "UU123");
                   ("total_videos", JInt 2);
                   ("last_updated", JStr now) ]);
          ("videos",
           JList [ video_to_json (sample_video "a" (Some "2022-01-04"));
                   video_to_json (sample_video "f" None) ]) ].

Definition sample_videos_db : json := sample_stamped "2024-01-03T09:00:00".

(** A file system with a database whose text is no JSON document. *)
Definition sample_corrupt_fs : filesystem :=
  {[ db_path := "{ this is not JSON" ]}.

(** A file system with a prior snapshot. *)
Definition sample_prior_fs : filesystem :=
  {[ db_path := "{}" ]}.

(** The video a reference denotes; a reference to anything else reads
    as a record without a recording date, whose sort key is the empty
    string as in [heap_sort_key]. *)
Definition no_video : video := VideoRecord.make "" "" "" "" None "" "".

Definition heap_video (h : heap) (r : nat) : video :=
  match h !! r with
  | Some (OVideo v) => v
  | _ => no_video
  end.

(** A heap with a catalogue of four videos: the channel record at 0,
    the videos at 1 to 4, the list of the catalogue at 5 and the
    catalogue dictionary at 6. *)
Definition sample_heap : heap :=
  [ OChannelInfo "Adam The Woo" (Some "2024-01-03T09:00:00");
    OVideo (sample_video "a" (Some "2022-01-04"));
    OVideo (sample_video "b" (Some "2020-01-04"));
    OVideo (sample_video "f" None);
    OVideo (sample_video "i" (Some "2020-01-04"));
    OList [1; 2; 3; 4]%nat;
    OCatalogue 0%nat (Some 5%nat) ].

Definition sample_heap_catalogue : catalogue :=
  Catalogue.make "Adam The Woo" (Some "2024-01-03T09:00:00")
    [ sample_video "a" (Some "2022-01-04");
      sample_video "b" (Some "2020-01-04");
      sample_video "f" None;
      sample_video "i" (Some "2020-01-04") ].

(** The year a stored date is written with: the value of its first
    four characters when these are digits ([YYYY-MM-DD] and every other
    ISO form that starts with the calendar year). *)
Definition year_digits (s : string) : option Z :=
  if (String.length (String.substring 0 4 s) =? 4)%nat
  then Lib.digits_value 0 (String.substring 0 4 s)
  else None.

(** The years two records are written with are in order. *)
Definition year_le (a b : video) : Prop :=
  forall ya yb,
    year_digits (sort_key a) = Some ya ->
    year_digits (sort_key b) = Some yb ->
    ya <= yb.

(** The playlist is exhausted, or the API fails, within [fuel] pages
    from the given page token. *)
Fixpoint playlist_ends (fuel : nat) (youtube : option string -> api_response)
    (next_page_token : option string) : bool :=
  match fuel with
  | O => false
  | S fuel' =>
      match youtube next_page_token with
      | HttpError => true
      | Response _ next =>
          match next with
          | Some tok =>
              if truthy tok then playlist_ends fuel' youtube (Some tok)
              else true
          | None => true
          end
      end
  end.

(** The documents on which the executable JSON routines are shown to
    round-trip: the keys of every dictionary are distinct (as in any
    Python dictionary). *)
Fixpoint distinct (keys : list string) : bool :=
  match keys with
  | [] => true
  | k :: keys' => negb (existsb (String.eqb k) keys') && distinct keys'
  end.

Fixpoint unique_keys (v : json) : bool :=
  match v with
  | JList items => forallb unique_keys items
  | JDict entries =>
      distinct (map fst entries)
      && forallb (fun kv => let '(_, x) := kv in unique_keys x) entries
  | _ => true
  end.

(** The number of values in a document, counting every element and
    entry twice: a bound on the parser's recursion depth. *)
Fixpoint jsize (v : json) : nat :=
  match v with
  | JList items => S (list_sum (map (fun x => S (jsize x)) items))
  | JDict entries =>
      S (list_sum (map (fun kv => let '(_, x) := kv in S (jsize x)) entries))
  | _ => 1%nat
  end.

(** A text after which an integer literal ends: it does not go on with
    a digit, a fraction or an exponent. *)
Definition int_end (rest : string) : bool :=
  match rest with
  | EmptyString => true
  | String c _ =>
      match Lib.digit_of c with
      | Some _ => false
      | None => negb (Ascii.eqb c "." || Ascii.eqb c "e" || Ascii.eqb c "E")
      end
  end.

(** Characters an integer literal, and any value, can start with. *)
Definition int_start (c : ascii) : bool :=
  match Lib.digit_of c with Some _ => true | None => Ascii.eqb c "-" end.

Definition value_start (c : ascii) : bool :=
  int_start c || Ascii.eqb c Lib.dquote || Ascii.eqb c "[" || Ascii.eqb c "{"
  || Ascii.eqb c "n" || Ascii.eqb c "t" || Ascii.eqb c "f".

(** The round-trip property of one document, at any nesting level and
    before any text that ends an integer literal, given enough fuel. *)
Definition roundtrips (v : json) : Prop :=
  forall level fuel rest,
    (jsize v <= fuel)%nat -> unique_keys v = true -> int_end rest = true ->
    Lib.parse_value fuel (Lib.json_dump_at level v ++ rest) = Some (v, rest).

(** Induction over documents, with the induction hypothesis for every
    element of a list and every value of a dictionary. *)
Section json_induction.
Variable P : json -> Prop.
Hypothesis HNull : P JNull.
Hypothesis HBool : forall b, P (JBool b).
Hypothesis HInt : forall z, P (JInt z).
Hypothesis HStr : forall s, P (JStr s).
Hypothesis HList : forall items, Forall P items -> P (JList items).
Hypothesis HDict :
  forall entries, Forall (fun kv => P (snd kv)) entries -> P (JDict entries).

Fixpoint json_nested_ind (v : json) : P v :=
  match v with
  | JNull => HNull
  | JBool b => HBool b
  | JInt z => HInt z
  | JStr s => HStr s
  | JList items =>
      HList items
        ((fix all (l : list json) : Forall P l :=
            match l with
            | [] => @List.Forall_nil _ P
            | x :: l' =>
                @List.Forall_cons _ P x l' (json_nested_ind x) (all l')
            end) items)
  | JDict entries =>
      HDict entries
        ((fix all (l : list (string * json))
            : Forall (fun kv => P (snd kv)) l :=
            match l with
            | [] => @List.Forall_nil _ _
            | (k, x) :: l' =>
                @List.Forall_cons _ (fun kv => P (snd kv)) (k, x) l'
                  (json_nested_ind x) (all l')
            end) entries)
  end.
End json_induction.

(** ** The video list of the Reddit post ([utils.py:167-189]) *)

(** Python truthiness of a value read from a dictionary. *)
Definition json_truthy (v : json) : bool :=
  match v with
  | JNull => false
  | JBool b => b
  | JInt z => negb (z =? 0)
  | JStr s => truthy s
  | JList items => match items with [] => false | _ :: _ => true end
  | JDict entries => match entries with [] => false | _ :: _ => true end
  end.

(** [d.get(k, default)]. *)
Definition dict_get_default (k : string) (d : list (string * json))
    (default : json) : json :=
  match dict_get k d with
  | Some v => v
  | None => default
  end.

Section RedditList.
Variable fromisoformat : string -> result datetime.t.
(** [format(value, '')]: the text an f-string puts in the place of
    [{value}]. *)
Variable format_value : json -> string.

(** The body of the [for video in videos] loop, lines 181-187: the
    line for one video.  [video.get] needs a dictionary, and
    [datetime.fromisoformat] a string. *)
Definition format_video (video : json) : result string :=
  match video with
  | JDict entries =>
      let recording_date :=
        dict_get_default "recording_date" entries (JStr "") in
      let* year :=
        if json_truthy recording_date then
          match recording_date with
          | JStr s =>
              let* date_obj := fromisoformat s in
              Ok (JInt (datetime.year date_obj))
          | _ => Raise TypeError
          end
        else Ok (JStr "Unknown") in
      let title := dict_get_default "title" entries (JStr "Untitled") in
      let url := dict_get_default "url" entries (JStr "") in
      Ok ("**" ++ format_value year ++ ":** [" ++ format_value title
          ++ "](" ++ format_value url ++ ")")
  | _ => Raise AttributeError
  end.

(** The loop, with the accumulator [lines]. *)
Fixpoint format_lines (videos : list json) (lines : list string)
    : result (list string) :=
  match videos with
  | [] => Ok lines
  | video :: rest =>
      let* line := format_video video in
      format_lines rest (lines ++ [line])
  end.

Definition format_video_list_for_reddit (videos : list json)
    : result string :=
  match videos with
  | [] => Ok "*No videos found for this date.*"
  | _ :: _ =>
      let* lines := format_lines videos [] in
      Ok (Lib.join (Lib.newline ++ Lib.newline) lines)
  end.

(** The line of a catalogue record whose date parses. *)
Definition reddit_line (v : video) : string :=
  "**"
  ++ match VideoRecord.recording_date v with
     | Some s =>
         match fromisoformat s with
         | Ok d => format_value (JInt (datetime.year d))
         | Raise _ => format_value (JStr "Unknown")
         end
     | None => format_value (JStr "Unknown")
     end
  ++ ":** [" ++ format_value (JStr (VideoRecord.title v))
  ++ "](" ++ format_value (JStr (VideoRecord.url v)) ++ ")".
End RedditList.

(** *** [str] and [repr] of the values a dictionary holds

    The text of a string is the string itself; its [repr] is quoted,
    with the quote chosen as Python does and the control characters
    escaped (characters outside ASCII are taken as printable). *)
Definition squote : ascii := ascii_of_N 39.
Definition backslash : ascii := ascii_of_N 92.

Fixpoint contains_char (c : ascii) (s : string) : bool :=
  match s with
  | EmptyString => false
  | String c' s' => Ascii.eqb c c' || contains_char c s'
  end.

Definition repr_char (quote c : ascii) : string :=
  let n := Z.of_N (N_of_ascii c) in
  if Ascii.eqb c backslash then String backslash (String backslash "")
  else if Ascii.eqb c quote then String backslash (String quote "")
  else if n =? 9 then String backslash "t"
  else if n =? 10 then String backslash "n"
  else if n =? 13 then String backslash "r"
  else if (n <? 32) || (n =? 127) then
    String backslash
      (String "x" (String (Lib.hex_char (n / 16))
                     (String (Lib.hex_char (n mod 16)) "")))
  else String c "".

Fixpoint repr_chars (quote : ascii) (s : string) : string :=
  match s with
  | EmptyString => ""
  | String c s' => repr_char quote c ++ repr_chars quote s'
  end.

Definition repr_str (s : string) : string :=
  let quote :=
    if contains_char squote s && negb (contains_char Lib.dquote s)
    then Lib.dquote else squote in
  String quote (repr_chars quote s ++ String quote "").

Fixpoint py_repr (v : json) : string :=
  match v with
  | JNull => "None"
  | JBool true => "True"
  | JBool false => "False"
  | JInt z => Lib.int_to_string z
  | JStr s => repr_str s
  | JList items => "[" ++ Lib.join ", " (map py_repr items) ++ "]"
  | JDict entries =>
      "{"
      ++ Lib.join ", "
           (map (fun kv => repr_str (fst kv) ++ ": " ++ py_repr (snd kv))
              entries)
      ++ "}"
  end.

(** [str(value)], which is also [format(value, '')]. *)
Definition py_str (v : json) : string :=
  match v with
  | JStr s => s
  | _ => py_repr v
  end.
(** ** Environment variables ([utils.py:191-210]) and the Reddit client
    ([post_to_reddit.py:24-48]) *)

(** Truthiness of a value that is a string or [None]. *)
Definition truthy_opt (value : option string) : bool :=
  match value with
  | Some s => truthy s
  | None => false
  end.

(** The process environment; [os.getenv(name)] is the lookup. *)
Abbreviation environ := (gmap string string).

Definition get_env_variable (env : environ) (var_name : string)
    (required : bool) : result (option string) :=
  let value := env !! var_name in
  if required && negb (truthy_opt value)
  then Raise (Exception
                ("Required environment variable not set: " ++ var_name))
  else Ok value.

(** The arguments [praw.Reddit] is built from. *)
Module Reddit.
Record t : Type := make {
  client_id : option string;
  client_secret : option string;
  username : option string;
  password : option string;
  user_agent : string
}.
End Reddit.

(** [value or default]. *)
Definition or_default (value : option string) (default : string) : string :=
  match value with
  | Some s => if truthy s then s else default
  | None => default
  end.

Definition get_reddit_client (env : environ) : result Reddit.t :=
  let* client_id := get_env_variable env "REDDIT_CLIENT_ID" true in
  let* client_secret := get_env_variable env "REDDIT_CLIENT_SECRET" true in
  let* username := get_env_variable env "REDDIT_USERNAME" true in
  let* password := get_env_variable env "REDDIT_PASSWORD" true in
  let* user_agent := get_env_variable env "REDDIT_USER_AGENT" false in
  Ok (Reddit.make client_id client_secret username password
        (or_default user_agent "adam-the-woo-on-this-day-bot/1.0")).

(** ** Calls of a remote service

    A request to the hosting service returns its response or raises:
    an [HttpError], which the code catches by name, or anything else.
    [reason] is the text [str(e)] of the error.  [IndexError] is the
    exception of reading a list past its end. *)
Module Api.
Inductive error : Type :=
  | HttpError (reason : string)
  | Error (e : exn)
  | IndexError.

Inductive result (A : Type) : Type :=
  | Ok (a : A)
  | Raise (e : error).
Arguments Ok {A} a.
Arguments Raise {A} e.
End Api.

(** ** Finding the channel ([fetch_videos.py:26-93]) *)

(** [item['snippet']] of a search result: [customUrl] may be absent. *)
Module SearchResult.
Record t : Type := make {
  customUrl : option string;
  channelId : string
}.
End SearchResult.

(** An item of a channel listing:
    [contentDetails.relatedPlaylists.uploads] and [snippet.title]. *)
Module Channel.
Record t : Type := make {
  uploads : string;
  title : string
}.
End Channel.

(** [handle.lstrip('@')]: every leading [@] is removed. *)
Fixpoint lstrip_at (handle : string) : string :=
  match handle with
  | String c rest => if Ascii.eqb c "@" then lstrip_at rest else handle
  | EmptyString => handle
  end.

Section ChannelLookup.
(** [youtube.search().list(part='snippet', q=q, type='channel',
    maxResults=5).execute().get('items', [])]. *)
Variable search_list : string -> Api.result (list SearchResult.t).
(** [youtube.channels().list(part='contentDetails,snippet',
    id=id).execute().get('items')]; no items and an absent key read
    alike. *)
Variable channels_list : string -> Api.result (list Channel.t).
(** [str.lower]. *)
Variable lower : string -> string.

(** The test of the exact match, line 52-53. *)
Definition is_exact_match (handle : string) (item : SearchResult.t)
    : bool :=
  String.eqb (lower (default "" (SearchResult.customUrl item)))
    ("@" ++ lower handle).

Definition get_channel_id_from_handle (handle : string)
    : Api.result string :=
  let handle := lstrip_at handle in
  match search_list handle with
  | Api.Ok items =>
      match List.find (is_exact_match handle) items with
      | Some item => Api.Ok (SearchResult.channelId item)
      | None =>
          match items with
          | first :: _ => Api.Ok (SearchResult.channelId first)
          | [] =>
              Api.Raise (Api.Error
                (Exception ("Channel not found: " ++ handle)))
          end
      end
  | Api.Raise (Api.HttpError e) =>
      Api.Raise (Api.Error (Exception ("Error finding channel: " ++ e)))
  | Api.Raise e => Api.Raise e
  end.

Definition get_channel_uploads_playlist (channel_id : string)
    : Api.result (string * string) :=
  match channels_list channel_id with
  | Api.Ok [] =>
      Api.Raise (Api.Error
        (Exception ("Channel not found: " ++ channel_id)))
  | Api.Ok (channel :: _) =>
      Api.Ok (Channel.uploads channel, Channel.title channel)
  | Api.Raise (Api.HttpError e) =>
      Api.Raise (Api.Error
        (Exception ("Error getting channel info: " ++ e)))
  | Api.Raise e => Api.Raise e
  end.
End ChannelLookup.

(** ** Code that talks to a service

    A computation that sends requests is a function of the requests
    sent so far: it gives its outcome and the requests sent once it is
    done.  The service answers a request knowing the requests sent
    before it. *)
Definition io (R A : Type) : Type := list R -> Api.result A * list R.

Definition io_ret {R A : Type} (a : A) : io R A :=
  fun sent => (Api.Ok a, sent).

Definition io_raise {R A : Type} (e : exn) : io R A :=
  fun sent => (Api.Raise (Api.Error e), sent).

Definition io_bind {R A B : Type} (m : io R A) (k : A -> io R B)
    : io R B :=
  fun sent =>
    match m sent with
    | (Api.Ok a, sent') => k a sent'
    | (Api.Raise e, sent') => (Api.Raise e, sent')
    end.

(** A computation that sends nothing. *)
Definition io_lift {R A : Type} (r : result A) : io R A :=
  fun sent =>
    (match r with
     | Ok a => Api.Ok a
     | Raise e => Api.Raise (Api.Error e)
     end, sent).

(** [request.execute()]. *)
Definition execute {R A : Type} (answer : list R -> Api.result A)
    (request : R) : io R A :=
  fun sent => (answer sent, (sent ++ [request])%list).

(** [try: m  except HttpError as e: handler]. *)
Definition except_HttpError {R A : Type} (m : io R A)
    (handler : string -> io R A) : io R A :=
  fun sent =>
    match m sent with
    | (Api.Raise (Api.HttpError e), sent') => handler e sent'
    | outcome => outcome
    end.

(** [try: m  except Exception as e: handler]. *)
Definition except_Exception {R A : Type} (m : io R A)
    (handler : Api.error -> io R A) : io R A :=
  fun sent =>
    match m sent with
    | (Api.Raise e, sent') => handler e sent'
    | outcome => outcome
    end.

Declare Scope io_scope.
Delimit Scope io_scope with io.
Notation "'let+' x ':=' m 'in' k" := (io_bind m (fun x => k))
  (at level 10, x name, m at level 100, k at level 200) : io_scope.
Local Open Scope io_scope.

(** ** The playlist of the day ([update_playlist.py:95-219])

    The calls of the logger return and leave no trace here. *)

(** The requests of the code to the playlist service. *)
Inductive request : Type :=
  | PlaylistsList
  | PlaylistsInsert (title description : string)
  | PlaylistItemsList (playlistId : string) (pageToken : option string)
  | PlaylistItemsDelete (id : string)
  | PlaylistItemsInsert (playlistId : string) (videoId : json).

(** An item of the listing of one's playlists: [item['id']] and
    [item['snippet']['title']]. *)
Module Playlist.
Record t : Type := make {
  id : string;
  title : string
}.
End Playlist.

(** [v[key]]: a dictionary is subscripted by its keys; a list or a
    text wants a number, and nothing else can be subscripted. *)
Definition subscript (key : string) (v : json) : result json :=
  match v with
  | JDict entries =>
      match dict_get key entries with
      | Some value => Ok value
      | None => Raise (KeyError key)
      end
  | _ => Raise TypeError
  end.

(** [[v['video_id'] for v in today_videos]], line 299. *)
Fixpoint video_ids_of (today_videos : list json) : result (list json) :=
  match today_videos with
  | [] => Ok []
  | v :: rest =>
      let* video_id := subscript "video_id" v in
      let* video_ids := video_ids_of rest in
      Ok (video_id :: video_ids)
  end.

Section PlaylistUpdate.
(** [youtube.playlists().list(part='snippet', mine=True,
    maxResults=50).execute().get('items', [])]. *)
Variable playlists_list : list request -> Api.result (list Playlist.t).
(** [youtube.playlists().insert(...).execute()['id']], the playlist
    being public. *)
Variable playlists_insert :
  list request -> string -> string -> Api.result string.
(** [youtube.playlistItems().list(part='id', playlistId=..., maxResults=50,
    pageToken=...).execute()]: the ids of the items and
    [nextPageToken]. *)
Variable playlist_items_list :
  list request -> string -> option string
  -> Api.result (list string * option string).
(** [youtube.playlistItems().delete(id=...).execute()]. *)
Variable playlist_items_delete : list request -> string -> Api.result unit.
(** [youtube.playlistItems().insert(...).execute()], for a playlist
    and the value given as [videoId]. *)
Variable playlist_items_insert :
  list request -> string -> json -> Api.result unit.

Definition find_or_create_playlist (title description : string)
    : io request string :=
  except_HttpError
    (let+ items := execute playlists_list PlaylistsList in
     match List.find (fun item => String.eqb (Playlist.title item) title)
             items with
     | Some item => io_ret (Playlist.id item)
     | None =>
         execute (fun sent => playlists_insert sent title description)
           (PlaylistsInsert title description)
     end)
    (fun e => io_raise (Exception ("Error managing playlist: " ++ e))).

(** The [while True] loop of [clear_playlist], lines 159-173, with the
    accumulator [item_ids]; [None]: [fuel] pages did not reach the end
    of the listing. *)
Fixpoint list_item_ids (fuel : nat) (playlist_id : string)
    (next_page_token : option string) (item_ids : list string)
    : io request (option (list string)) :=
  match fuel with
  | O => io_ret None
  | S fuel' =>
      let+ response :=
        execute
          (fun sent => playlist_items_list sent playlist_id next_page_token)
          (PlaylistItemsList playlist_id next_page_token) in
      let item_ids := (item_ids ++ fst response)%list in
      match snd response with
      | Some tok =>
          if truthy tok
          then list_item_ids fuel' playlist_id (Some tok) item_ids
          else io_ret (Some item_ids)
      | None => io_ret (Some item_ids)
      end
  end.

(** The [for item_id in item_ids] loop, lines 176-177. *)
Fixpoint delete_items (item_ids : list string) : io request unit :=
  match item_ids with
  | [] => io_ret tt
  | item_id :: rest =>
      let+ _ :=
        execute (fun sent => playlist_items_delete sent item_id)
          (PlaylistItemsDelete item_id) in
      delete_items rest
  end.

(** [clear_playlist]: [Some tt] is the return of the call. *)
Definition clear_playlist (fuel : nat) (playlist_id : string)
    : io request (option unit) :=
  except_HttpError
    (let+ listed := list_item_ids fuel playlist_id None [] in
     match listed with
     | Some item_ids =>
         let+ _ := delete_items item_ids in
         io_ret (Some tt)
     | None => io_ret None
     end)
    (fun e => io_ret (Some tt)).

(** The loop of [add_videos_to_playlist], with the counter [added]. *)
Fixpoint add_videos_loop (playlist_id : string) (video_ids : list json)
    (added : Z) : io request Z :=
  match video_ids with
  | [] => io_ret added
  | video_id :: rest =>
      let+ added' :=
        except_HttpError
          (let+ _ :=
             execute
               (fun sent => playlist_items_insert sent playlist_id video_id)
               (PlaylistItemsInsert playlist_id video_id) in
           io_ret (added + 1))
          (fun e => io_ret added) in
      add_videos_loop playlist_id rest added'
  end.

Definition add_videos_to_playlist (playlist_id : string)
    (video_ids : list json) : io request Z :=
  add_videos_loop playlist_id video_ids 0.

(** The end of [main], lines 289-315: find or create the playlist,
    clear it, add the videos of the day and return the URL of the
    playlist.  The videos are dictionaries of the catalogue. *)
Definition main_update_playlist (fuel : nat)
    (playlist_title playlist_description : string)
    (today_videos : list json) : io request (option string) :=
  let+ playlist_id :=
    find_or_create_playlist playlist_title playlist_description in
  let+ cleared := clear_playlist fuel playlist_id in
  match cleared with
  | Some _ =>
      let+ video_ids := io_lift (video_ids_of today_videos) in
      let+ added := add_videos_to_playlist playlist_id video_ids in
      let playlist_url :=
        "https://www.youtube.com/playlist?list=" ++ playlist_id in
      io_ret (Some playlist_url)
  | None => io_ret None
  end.

(** What the requests sent say: the items a [delete] was asked for and
    the videos an [insert] was asked for. *)
Definition deleted_id (r : request) : option string :=
  match r with
  | PlaylistItemsDelete id => Some id
  | _ => None
  end.

Definition inserted_id (r : request) : option json :=
  match r with
  | PlaylistItemsInsert _ video_id => Some video_id
  | _ => None
  end.
End PlaylistUpdate.

(** ** The Reddit post ([post_to_reddit.py:50-96]) *)

(** The requests of the code to Reddit. *)
Inductive reddit_request : Type :=
  | UserMe
  | Submit (subreddit title selftext : string)
  | FlairChoices (submission : string)
  | FlairSelect (submission flair_template_id : string).

(** A flair of [submission.flair.choices()]. *)
Module Flair.
Record t : Type := make {
  flair_text : string;
  flair_template_id : string
}.
End Flair.

(** A submission: its id and [submission.permalink]. *)
Module Submission.
Record t : Type := make {
  id : string;
  permalink : string
}.
End Submission.

(** The [logger] argument: a logger, or [None], the default. *)
Inductive logger : Type := Logger.

(** [logger.info(...)] and [logger.warning(...)]: a logger returns;
    [None] has no such attribute. *)
Definition logger_call {R : Type} (log : option logger) : io R unit :=
  match log with
  | Some _ => io_ret tt
  | None => io_raise AttributeError
  end.

Section RedditPost.
(** [reddit.subreddit(name).submit(title=..., selftext=...)]. *)
Variable submit :
  list reddit_request -> string -> string -> string
  -> Api.result Submission.t.
(** [list(submission.flair.choices())]. *)
Variable flair_choices :
  list reddit_request -> string -> Api.result (list Flair.t).
(** [submission.flair.select(flair_template_id)]. *)
Variable flair_select :
  list reddit_request -> string -> string -> Api.result unit.
(** [str(e)] of an exception. *)
Variable error_str : Api.error -> string.

(** The body of the inner [try], lines 78-86. *)
Definition select_flair (submission : Submission.t) (flair_text : string)
    (log : option logger) : io reddit_request unit :=
  let+ flair_choices' :=
    execute (fun sent => flair_choices sent (Submission.id submission))
      (FlairChoices (Submission.id submission)) in
  match List.find (fun flair => String.eqb (Flair.flair_text flair)
                                  flair_text) flair_choices' with
  | Some flair =>
      let+ _ :=
        execute
          (fun sent => flair_select sent (Submission.id submission)
                         (Flair.flair_template_id flair))
          (FlairSelect (Submission.id submission)
             (Flair.flair_template_id flair)) in
      logger_call log
  | None => io_ret tt
  end.

Definition create_reddit_post (subreddit_name title body : string)
    (flair_text : option string) (log : option logger)
    : io reddit_request string :=
  except_Exception
    (let+ submission :=
       execute (fun sent => submit sent subreddit_name title body)
         (Submit subreddit_name title body) in
     let+ _ :=
       match flair_text with
       | Some text =>
           if truthy text then
             except_Exception (select_flair submission text log)
               (fun e => logger_call log)
           else io_ret tt
       | None => io_ret tt
       end in
     let post_url :=
       "https://www.reddit.com" ++ Submission.permalink submission in
     let+ _ := logger_call log in
     io_ret post_url)
    (fun e =>
       io_raise (Exception ("Error creating Reddit post: " ++ error_str e))).

(** The requests for the flair, given the answer to the request for
    the choices: the choices are asked for, and the first flair with
    the wanted text, if there is one, is selected. *)
Definition flair_requests (sent : list reddit_request)
    (submission : Submission.t) (flair_text : option string)
    : list reddit_request :=
  match flair_text with
  | Some text =>
      if truthy text then
        FlairChoices (Submission.id submission)
        :: match flair_choices sent (Submission.id submission) with
           | Api.Ok choices =>
               match List.find (fun flair =>
                                  String.eqb (Flair.flair_text flair) text)
                       choices with
               | Some flair =>
                   [FlairSelect (Submission.id submission)
                      (Flair.flair_template_id flair)]
               | None => []
               end
           | Api.Raise _ => []
           end
      else []
  | None => []
  end.
End RedditPost.

(** ** The ingestion run ([fetch_videos.py:207-231]) *)
Section IngestionRun.
Variable strptime : string -> string -> result datetime.t.
Variable parser_parse_fuzzy : string -> result datetime.t.
Variable strftime_ymd : datetime.t -> string.
Variable json_dump : json -> string.

(** [main] from the fetch on: the videos are fetched, the existing
    database is backed up, and the new one is built and saved. *)
Definition main_fetch_and_store (fuel : nat)
    (youtube : option string -> api_response) (cfg : config)
    (channel_id channel_title channel_handle uploads_playlist_id
     now_main now : string) (fs : filesystem)
    : option (result (json * filesystem)) :=
  match fetch_all_videos_from_playlist strptime parser_parse_fuzzy
          strftime_ymd fuel youtube cfg with
  | Some (Ok videos) =>
      Some (main_store json_dump channel_id channel_title channel_handle
              uploads_playlist_id now_main now videos fs)
  | Some (Raise e) => Some (Raise e)
  | None => None
  end.
End IngestionRun.

(** The videos the service accepts when it is asked to insert each of
    [video_ids] in turn. *)
Fixpoint accepted
    (playlist_items_insert :
       list request -> string -> json -> Api.result unit)
    (playlist_id : string) (video_ids : list json) (sent : list request)
    : list json :=
  match video_ids with
  | [] => []
  | video_id :: rest =>
      let sent' :=
        (sent ++ [PlaylistItemsInsert playlist_id video_id])%list in
      match playlist_items_insert sent playlist_id video_id with
      | Api.Ok _ =>
          video_id :: accepted playlist_items_insert playlist_id rest sent'
      | Api.Raise _ =>
          accepted playlist_items_insert playlist_id rest sent'
      end
  end.

(** The variables [get_reddit_client] requires, in the order in which
    it reads them. *)
Definition reddit_variables : list string :=
  [ "REDDIT_CLIENT_ID"; "REDDIT_CLIENT_SECRET"; "REDDIT_USERNAME";
    "REDDIT_PASSWORD" ].

(** A playlist service for the examples: the account has the playlist
    of the day, which holds three items on two pages; the service
    refuses to delete the second item and to insert the video [b]. *)
Definition sample_playlists_list (sent : list request)
    : Api.result (list Playlist.t) :=
  Api.Ok [ Playlist.make "PL0" "Favourites";
           Playlist.make "PL1" "On This Day: January 04" ].

Definition sample_playlists_insert (sent : list request)
    (title description : string) : Api.result string :=
  Api.Ok "PL2".

Definition sample_playlist_items_list (sent : list request)
    (playlist_id : string) (page_token : option string)
    : Api.result (list string * option string) :=
  match page_token with
  | None => Api.Ok (["item1"; "item2"], Some "page2")
  | Some _ => Api.Ok (["item3"], None)
  end.

Definition sample_playlist_items_delete (sent : list request)
    (item_id : string) : Api.result unit :=
  if String.eqb item_id "item2" then Api.Raise (Api.HttpError "404")
  else Api.Ok tt.

Definition sample_playlist_items_insert (sent : list request)
    (playlist_id : string) (video_id : json) : Api.result unit :=
  match video_id with
  | JStr "b" => Api.Raise (Api.HttpError "403")
  | _ => Api.Ok tt
  end.

(** The same listing with a second page that fails. *)
Definition sample_playlist_items_list_failing (sent : list request)
    (playlist_id : string) (page_token : option string)
    : Api.result (list string * option string) :=
  match page_token with
  | None => Api.Ok (["item1"; "item2"], Some "page2")
  | Some _ => Api.Raise (Api.HttpError "500")
  end.

(** The videos of 4 January in the sample catalogue, oldest first. *)
Definition sample_today_videos : list video :=
  [ sample_video "b" (Some "2020-01-04");
    sample_video "i" (Some "2020-01-04");
    sample_video "a" (Some "2022-01-04") ].

(** ** The statistics of the ingestion run ([fetch_videos.py:240-248]) *)

(** [sum(1 for v in videos if v.get('recording_date'))]. *)
Definition videos_with_dates (videos : list video) : nat :=
  length (List.filter (fun v => truthy_opt (VideoRecord.recording_date v))
            videos).

(** What lines 245-248 do: nothing, the report of the two ends of the
    sorted list of dates, or the [IndexError] of reading the ends of
    an empty list. *)
Inductive range_report : Type :=
  | NoRange
  | Range (first last : string)
  | RaisesIndexError.

Definition date_range (videos : list video) : range_report :=
  if (0 <? videos_with_dates videos)%nat then
    let dates :=
      list_sort (fun date => date)
        (map sort_key
           (List.filter
              (fun v => truthy_opt (VideoRecord.recording_date v))
              videos)) in
    match dates with
    | [] => RaisesIndexError
    | first :: _ => Range first (List.last dates first)
    end
  else NoRange.


(** ** The matcher on loaded dictionaries ([utils.py:117-145])

    [load_videos_db] returns what [json.load] has read, and the
    scripts hand that to [get_videos_for_date].  The function is given
    here once more, on such values, whatever their shape. *)

(** What [for x in value] goes through: the items of a list, the
    characters of a text, the keys of a dictionary; other values are
    not iterable. *)
Definition iterate (value : json) : result (list json) :=
  match value with
  | JList items => Ok items
  | JStr s => Ok (map (fun c => JStr (String c "")) (list_ascii_of_string s))
  | JDict entries => Ok (map (fun kv => JStr (fst kv)) entries)
  | JNull | JBool _ | JInt _ => Raise TypeError
  end.

Section MatcherOnDictionaries.
Variable fromisoformat : string -> result datetime.t.

(** The loop of lines 131-140.  [video.get] needs a dictionary and
    [datetime.fromisoformat] a text: an [AttributeError] or a
    [TypeError] is no [ValueError] and leaves the loop. *)
Fixpoint matching_loop_dict (month day : Z) (videos : list json)
    (matching_videos : list json) : result (list json) :=
  match videos with
  | [] => Ok matching_videos
  | video :: rest =>
      match video with
      | JDict entries =>
          let recording_date :=
            dict_get_default "recording_date" entries JNull in
          if json_truthy recording_date then
            match recording_date with
            | JStr s =>
                match fromisoformat s with
                | Ok date_obj =>
                    if (datetime.month date_obj =? month)
                       && (datetime.day date_obj =? day)
                    then matching_loop_dict month day rest
                           (matching_videos ++ [video])
                    else matching_loop_dict month day rest matching_videos
                | Raise e =>
                    if isinstance_ValueError e
                    then matching_loop_dict month day rest matching_videos
                    else Raise e
                end
            | _ => Raise TypeError
            end
          else matching_loop_dict month day rest matching_videos
      | _ => Raise AttributeError
      end
  end.

(** The sort key [v.get('recording_date', '')] of a matching video,
    whose recording date is a text, [fromisoformat] having read it. *)
Definition sort_key_dict (v : json) : string :=
  match v with
  | JDict entries =>
      match dict_get_default "recording_date" entries (JStr "") with
      | JStr s => s
      | _ => ""
      end
  | _ => ""
  end.

Definition get_videos_for_date_dict (videos_db : json) (month day : Z)
    : result (list json) :=
  match videos_db with
  | JDict entries =>
      let* videos := iterate (dict_get_default "videos" entries (JList [])) in
      let* matching_videos := matching_loop_dict month day videos [] in
      Ok (list_sort sort_key_dict matching_videos)
  | _ => Raise AttributeError
  end.

(** A video the loop passes without raising: a dictionary whose
    recording date is absent or falsy, or a text that [fromisoformat]
    reads or rejects with a [ValueError]. *)
Definition passable (video : json) : Prop :=
  exists entries,
    video = JDict entries
    /\ (json_truthy (dict_get_default "recording_date" entries JNull) = false
        \/ exists s,
             dict_get "recording_date" entries = Some (JStr s)
             /\ forall e, fromisoformat s = Raise e ->
                          isinstance_ValueError e = true).

(** A video the matcher returns for a day: a dictionary whose
    recording date is a text that [fromisoformat] reads as a date
    with that month and day. *)
Definition recorded_on_dict (month day : Z) (video : json) : Prop :=
  exists entries s date_obj,
    video = JDict entries
    /\ dict_get "recording_date" entries = Some (JStr s)
    /\ fromisoformat s = Ok date_obj
    /\ datetime.month date_obj = month
    /\ datetime.day date_obj = day.
End MatcherOnDictionaries.

(** A catalogue as loaded from a file edited by hand: the second video
    has a number for its recording date, the third a text that is no
    date. *)
Definition sample_loaded_db : json :=
  JDict [ ("videos",
           JList [ video_to_json (sample_video "a" (Some "2022-01-04"));
                   JDict [ ("video_id", JStr "n");
                           ("recording_date", JInt 20200104) ];
                   video_to_json (sample_video "g" (Some "not a date")) ]) ].


(** ** The daily scripts ([update_playlist.py:221-315],
    [post_to_reddit.py:98-208], [utils.py:147-165])

    The keys of the configuration that the two scripts read besides
    those of the date extractor; an absent key is [None], and the
    [.get(key, default)] calls of the source supply the defaults. *)
Module Features.
Record t : Type := make {
  dry_run : option bool;
  create_playlist : option bool;
  post_to_reddit : option bool
}.
End Features.

Module PlaylistConfig.
Record t : Type := make {
  title_format : option string;
  description_format : option string
}.
End PlaylistConfig.

Module RedditConfig.
Record t : Type := make {
  post_title_format : option string;
  post_template : option string;
  subreddit : option string;
  flair_text : option string
}.
End RedditConfig.

(** [timezone] is the key of that name in the section
    ['date_parsing']. *)
Module Settings.
Record t : Type := make {
  features : option Features.t;
  timezone : option string;
  playlist : option PlaylistConfig.t;
  reddit : option RedditConfig.t
}.
End Settings.
Abbreviation settings := Settings.t.

(** [config.get('features', {}).get(key, default)]. *)
Definition feature (cfg : settings) (key : Features.t -> option bool)
    (default : bool) : bool :=
  match Settings.features cfg with
  | Some features =>
      match key features with
      | Some b => b
      | None => default
      end
  | None => default
  end.

(** [config.get('playlist', {}).get(key, default)] and the same for
    ['reddit']. *)
Definition playlist_setting (cfg : settings)
    (key : PlaylistConfig.t -> option string) (default : string) : string :=
  match Settings.playlist cfg with
  | Some playlist_config =>
      match key playlist_config with
      | Some s => s
      | None => default
      end
  | None => default
  end.

Definition reddit_setting (cfg : settings)
    (key : RedditConfig.t -> option string) : option string :=
  match Settings.reddit cfg with
  | Some reddit_config => key reddit_config
  | None => None
  end.

(** [str.split()]: the words between runs of white space (the white
    space of ASCII). *)
Definition is_space (c : ascii) : bool :=
  let n := Z.of_N (N_of_ascii c) in
  ((9 <=? n) && (n <=? 13)) || ((28 <=? n) && (n <=? 32)).

Fixpoint split_from (word s : string) : list string :=
  match s with
  | EmptyString => if truthy word then [word] else []
  | String c s' =>
      if is_space c then
        if truthy word then word :: split_from "" s' else split_from "" s'
      else split_from (word ++ String c "") s'
  end.

Definition str_split (s : string) : list string := split_from "" s.

(** [words[i]]. *)
Definition index {A : Type} (words : list A) (i : nat) : Api.result A :=
  match nth_error words i with
  | Some word => Api.Ok word
  | None => Api.Raise Api.IndexError
  end.

(** [value[:4]] in the loop that lists the videos, line 260: a text
    and a list can be sliced. *)
Definition slice4 (value : json) : result json :=
  match value with
  | JStr s => Ok (JStr (String.substring 0 4 s))
  | JList items => Ok (JList (take 4 items))
  | _ => Raise TypeError
  end.

(** Lines 259-261: [video.get('recording_date', '')[:4]] and
    [video.get('title')] for every video found. *)
Fixpoint list_videos (today_videos : list json) : result unit :=
  match today_videos with
  | [] => Ok tt
  | video :: rest =>
      match video with
      | JDict entries =>
          let* year :=
            slice4 (dict_get_default "recording_date" entries (JStr "")) in
          list_videos rest
      | _ => Raise AttributeError
      end
  end.

(** [videos_db.get('videos')]. *)
Definition get_videos (videos_db : json) : result json :=
  match videos_db with
  | JDict entries => Ok (dict_get_default "videos" entries JNull)
  | _ => Raise AttributeError
  end.

Section Today.
(** A time zone of [pytz], [pytz.timezone(name)], the reading
    [datetime.now(tz)] of the clock and [now.strftime('%B %d')]. *)
Variable tzinfo : Type.
Variable pytz_timezone : string -> Api.result tzinfo.
Variable datetime_now : option tzinfo -> datetime.t.
Variable strftime_B_d : datetime.t -> string.

Definition get_today_date (timezone_str : option string)
    : Api.result (Z * Z * string) :=
  let today (now : datetime.t) :=
    (datetime.month now, datetime.day now, strftime_B_d now) in
  match timezone_str with
  | Some name =>
      if truthy name then
        match pytz_timezone name with
        | Api.Ok tz => Api.Ok (today (datetime_now (Some tz)))
        | Api.Raise e => Api.Raise e
        end
      else Api.Ok (today (datetime_now None))
  | None => Api.Ok (today (datetime_now None))
  end.
End Today.

Section DailyScripts.
Variable json_load : string -> result json.
Variable fromisoformat : string -> result datetime.t.
Variable tzinfo : Type.
Variable pytz_timezone : string -> Api.result tzinfo.
Variable datetime_now : option tzinfo -> datetime.t.
Variable strftime_B_d : datetime.t -> string.
(** [template.format(...)] with the fields given by name. *)
Variable str_format : string -> list (string * string) -> Api.result string.

(** The part the two scripts share, [update_playlist.py:237-256] and
    [post_to_reddit.py:124-143]: the videos of today.  [None]: the
    script returns, the database or the day being empty. *)
Definition videos_of_today {R : Type} (cfg : settings) (fs : filesystem)
    : io R (option (string * list json)) :=
  let+ videos_db := io_lift (load_videos_db json_load fs) in
  let+ videos := io_lift (get_videos videos_db) in
  if negb (json_truthy videos) then io_ret None
  else
    let timezone :=
      match Settings.timezone cfg with
      | Some name => name
      | None => "America/New_York"
      end in
    let+ today :=
      (fun sent =>
         (get_today_date tzinfo pytz_timezone datetime_now strftime_B_d
            (Some timezone), sent)) in
    let+ today_videos :=
      io_lift (get_videos_for_date_dict fromisoformat videos_db
                 (fst (fst today)) (snd (fst today))) in
    match today_videos with
    | [] => io_ret None
    | _ :: _ => io_ret (Some (snd today, today_videos))
    end.

Section UpdatePlaylist.
Variable playlists_list : list request -> Api.result (list Playlist.t).
Variable playlists_insert :
  list request -> string -> string -> Api.result string.
Variable playlist_items_list :
  list request -> string -> option string
  -> Api.result (list string * option string).
Variable playlist_items_delete : list request -> string -> Api.result unit.
Variable playlist_items_insert :
  list request -> string -> json -> Api.result unit.
(** [get_authenticated_service()]: the client is there, or the call
    raises. *)
Variable get_authenticated_service : Api.result unit.

(** [main] of [update_playlist.py] from line 229 on, the configuration
    being loaded.  [Some r]: the script returns [r]; [None]: [fuel]
    pages did not reach the end of the listing of the playlist. *)
Definition update_playlist_main (fuel : nat) (cfg : settings)
    (fs : filesystem) : io request (option (option string)) :=
  let dry_run := feature cfg Features.dry_run false in
  let+ today := videos_of_today cfg fs in
  match today with
  | None => io_ret (Some None)
  | Some (formatted_date, today_videos) =>
      let+ _ := io_lift (list_videos today_videos) in
      if dry_run then io_ret (Some None)
      else if negb (feature cfg Features.create_playlist true)
      then io_ret (Some None)
      else
        let+ _ := (fun sent => (get_authenticated_service, sent)) in
        let title_format :=
          playlist_setting cfg PlaylistConfig.title_format
            "On This Day: {month} {day}" in
        let+ month := (fun sent => (index (str_split formatted_date) 0, sent)) in
        let+ day := (fun sent => (index (str_split formatted_date) 1, sent)) in
        let+ playlist_title :=
          (fun sent =>
             (str_format title_format [("month", month); ("day", day)],
              sent)) in
        let description_format :=
          playlist_setting cfg PlaylistConfig.description_format "" in
        let+ month := (fun sent => (index (str_split formatted_date) 0, sent)) in
        let+ day := (fun sent => (index (str_split formatted_date) 1, sent)) in
        let+ playlist_description :=
          (fun sent =>
             (str_format description_format
                [("month", month); ("day", day); ("date", formatted_date)],
              sent)) in
        let+ playlist_url :=
          main_update_playlist playlists_list playlists_insert
            playlist_items_list playlist_items_delete playlist_items_insert
            fuel playlist_title playlist_description today_videos in
        io_ret
          match playlist_url with
          | Some url => Some (Some url)
          | None => None
          end
  end.
End UpdatePlaylist.

Section PostToReddit.
Variable format_value : json -> string.
(** [reddit.user.me().name]. *)
Variable user_me : list reddit_request -> Api.result string.
Variable submit :
  list reddit_request -> string -> string -> string
  -> Api.result Submission.t.
Variable flair_choices :
  list reddit_request -> string -> Api.result (list Flair.t).
Variable flair_select :
  list reddit_request -> string -> string -> Api.result unit.
Variable error_str : Api.error -> string.

(** [main(playlist_url)] of [post_to_reddit.py] from line 111 on, the
    configuration being loaded, in the environment [env]. *)
Definition post_to_reddit_main (playlist_url : option string)
    (cfg : settings) (env : environ) (fs : filesystem)
    : io reddit_request unit :=
  let dry_run := feature cfg Features.dry_run false in
  if negb (feature cfg Features.post_to_reddit true) then io_ret tt
  else
    let+ today := videos_of_today cfg fs in
    match today with
    | None => io_ret tt
    | Some (formatted_date, today_videos) =>
        let post_title_format :=
          match reddit_setting cfg RedditConfig.post_title_format with
          | Some format => format
          | None => "On This Day - {month} {day}"
          end in
        let+ month := (fun sent => (index (str_split formatted_date) 0, sent)) in
        let+ day := (fun sent => (index (str_split formatted_date) 1, sent)) in
        let+ post_title :=
          (fun sent =>
             (str_format post_title_format
                [("month", month); ("day", day); ("date", formatted_date)],
              sent)) in
        let+ video_list :=
          io_lift (format_video_list_for_reddit fromisoformat format_value
                     today_videos) in
        let post_template :=
          match reddit_setting cfg RedditConfig.post_template with
          | Some template => template
          | None => ""
          end in
        let+ month := (fun sent => (index (str_split formatted_date) 0, sent)) in
        let+ day := (fun sent => (index (str_split formatted_date) 1, sent)) in
        let+ post_body :=
          (fun sent =>
             (str_format post_template
                [("month", month); ("day", day); ("date", formatted_date);
                 ("video_list", video_list);
                 ("playlist_url", or_default playlist_url "Coming soon!")],
              sent)) in
        if dry_run then io_ret tt
        else
          let+ reddit := io_lift (get_reddit_client env) in
          let+ name := execute user_me UserMe in
          let subreddit_name :=
            match reddit_setting cfg RedditConfig.subreddit with
            | Some name => name
            | None => "Adamthewoo"
            end in
          let flair_text := reddit_setting cfg RedditConfig.flair_text in
          let+ post_url :=
            create_reddit_post submit flair_choices flair_select error_str
              subreddit_name post_title post_body flair_text (Some Logger) in
          io_ret tt
    end.
End PostToReddit.
End DailyScripts.

(** *** The library routines of the scripts, for the examples *)

(** [now.strftime('%B %d')] in the C locale. *)
Definition month_name (month : Z) : string :=
  match month with
  | 1 => "January" | 2 => "February" | 3 => "March" | 4 => "April"
  | 5 => "May" | 6 => "June" | 7 => "July" | 8 => "August"
  | 9 => "September" | 10 => "October" | 11 => "November"
  | 12 => "December" | _ => ""
  end.

Definition sample_strftime_B_d (now : datetime.t) : string :=
  month_name (datetime.month now) ++ " " ++ Lib.pad2 (datetime.day now).

(** Two time zones are known; the clock shows 4 January 2024 in New
    York and elsewhere. *)
Definition sample_pytz_timezone (name : string) : Api.result string :=
  if String.eqb name "America/New_York" || String.eqb name "UTC"
  then Api.Ok name
  else Api.Raise (Api.Error (Exception ("UnknownTimeZoneError: " ++ name))).

Definition sample_datetime_now (tz : option string) : datetime.t :=
  datetime.make 2024 1 4.

(** [str.format] for templates whose fields are [{month}], [{day}]
    and the like, without format specifications and doubled braces: a
    field is replaced by its value, an unknown field is a [KeyError],
    a brace without its partner a [ValueError]. *)
Fixpoint field_value (name : string) (fields : list (string * string))
    : option string :=
  match fields with
  | [] => None
  | (k, v) :: rest => if String.eqb name k then Some v else field_value name rest
  end.

Fixpoint format_from (template : string) (field : option string)
    (fields : list (string * string)) : Api.result string :=
  match template with
  | EmptyString =>
      match field with
      | None => Api.Ok ""
      | Some _ => Api.Raise (Api.Error ValueError)
      end
  | String c rest =>
      match field with
      | None =>
          if Ascii.eqb c "{" then format_from rest (Some "") fields
          else if Ascii.eqb c "}" then Api.Raise (Api.Error ValueError)
          else
            match format_from rest None fields with
            | Api.Ok text => Api.Ok (String c text)
            | Api.Raise e => Api.Raise e
            end
      | Some name =>
          if Ascii.eqb c "}" then
            match field_value name fields with
            | Some value =>
                match format_from rest None fields with
                | Api.Ok text => Api.Ok (value ++ text)
                | Api.Raise e => Api.Raise e
                end
            | None => Api.Raise (Api.Error (KeyError name))
            end
          else format_from rest (Some (name ++ String c "")) fields
      end
  end.

Definition sample_str_format (template : string)
    (fields : list (string * string)) : Api.result string :=
  format_from template None fields.

(** The settings of a run in earnest and of a dry run. *)
Definition sample_settings : settings :=
  Settings.make (Some (Features.make None None None)) None None
    (Some (RedditConfig.make None (Some "{video_list}") None
             (Some "On This Day"))).

Definition sample_settings_dry_run : settings :=
  Settings.make (Some (Features.make (Some true) None None)) None None None.

(** The sample catalogue in the database file. *)
Definition sample_catalogue_dict : json :=
  JDict [ ("channel_info", JDict [ ("channel_name", JStr "Adam The Woo") ]);
          ("videos", JList (map video_to_json (Catalogue.videos sample_db))) ].

Definition sample_catalogue_fs : filesystem :=
  {[ db_path := Lib.json_dump sample_catalogue_dict ]}.


(** Reddit for the examples: the account is known, the post is
    accepted, the subreddit has three flairs, and selecting a flair is
    refused. *)
Definition sample_user_me (sent : list reddit_request) : Api.result string :=
  Api.Ok "on-this-day-bot".

Definition sample_submit (sent : list reddit_request)
    (subreddit title selftext : string) : Api.result Submission.t :=
  Api.Ok (Submission.make "t3_abc" "/r/Adamthewoo/comments/abc/").

Definition sample_flair_choices (sent : list reddit_request)
    (submission : string) : Api.result (list Flair.t) :=
  Api.Ok [ Flair.make "News" "f1"; Flair.make "On This Day" "f2";
           Flair.make "On This Day" "f3" ].

Definition sample_flair_select (sent : list reddit_request)
    (submission flair_template_id : string) : Api.result unit :=
  Api.Raise (Api.Error (Exception "403")).

Definition sample_error_str (e : Api.error) : string :=
  match e with
  | Api.HttpError reason => reason
  | Api.Error (Exception msg) => msg
  | Api.Error (KeyError key) => key
  | _ => "error"
  end.

Definition sample_environ : environ :=
  {[ "REDDIT_CLIENT_ID" := "id"; "REDDIT_CLIENT_SECRET" := "secret";
     "REDDIT_USERNAME" := "on-this-day-bot"; "REDDIT_PASSWORD" := "pw" ]}.

(** ** The dates read from the matcher's answer ([utils.py:142-143]) *)

(** The order of calendar dates, and their equality. *)
Definition date_le (a b : datetime.t) : Prop :=
  datetime.year a < datetime.year b
  \/ datetime.year a = datetime.year b
     /\ (datetime.month a < datetime.month b
         \/ datetime.month a = datetime.month b
            /\ datetime.day a <= datetime.day b).

Definition date_eqb (a b : datetime.t) : bool :=
  (datetime.year a =? datetime.year b)
  && (datetime.month a =? datetime.month b)
  && (datetime.day a =? datetime.day b).

Section DatesRead.
Variable fromisoformat : string -> result datetime.t.

(** The date that [fromisoformat] reads from the recording date of a
    video, if it reads one. *)
Definition recorded_date (v : video) : option datetime.t :=
  match VideoRecord.recording_date v with
  | Some s =>
      match fromisoformat s with
      | Ok d => Some d
      | Raise _ => None
      end
  | None => None
  end.

(** The videos recorded on the date [d]. *)
Definition has_date (d : datetime.t) (v : video) : bool :=
  match recorded_date v with
  | Some d' => date_eqb d' d
  | None => false
  end.

(** The recording date of [v] is stored in the form the fetch writes:
    if [fromisoformat] reads a date from the text, the text is
    [YYYY-MM-DD] for that date, as [strftime('%Y-%m-%d')] writes a
    date whose year has four digits. *)
Definition stored_as_ymd (v : video) : Prop :=
  forall s d,
    VideoRecord.recording_date v = Some s ->
    fromisoformat s = Ok d ->
    s = Lib.strftime_ymd d /\ 1 <= datetime.year d <= 9999.
End DatesRead.

(** * Properties *)

Local Open Scope list_scope.

(** ** The order on strings *)

Lemma ascii_compare_refl (c : ascii) : Ascii.compare c c = Eq.
Proof. unfold Ascii.compare. apply N.compare_refl. Qed.

Lemma string_compare_refl (s : string) : String.compare s s = Eq.
Proof.
  induction s as [|c s IH]; simpl; [reflexivity|].
  now rewrite ascii_compare_refl.
Qed.

Lemma ascii_compare_lt_trans (a b c : ascii) :
  Ascii.compare a b = Lt -> Ascii.compare b c = Lt -> Ascii.compare a c = Lt.
Proof.
  unfold Ascii.compare. rewrite !N.compare_lt_iff. lia.
Qed.

Lemma string_compare_lt_trans (s1 s2 s3 : string) :
  String.compare s1 s2 = Lt -> String.compare s2 s3 = Lt ->
  String.compare s1 s3 = Lt.
Proof.
  revert s2 s3.
  induction s1 as [|a s1 IH]; intros [|b s2] [|c s3]; simpl;
    try congruence.
  destruct (Ascii.compare a b) eqn:Hab; try discriminate;
    destruct (Ascii.compare b c) eqn:Hbc; try discriminate; intros H1 H2.
  - apply Ascii.compare_eq_iff in Hab, Hbc. subst.
    rewrite ascii_compare_refl. eauto.
  - apply Ascii.compare_eq_iff in Hab. subst. now rewrite Hbc.
  - apply Ascii.compare_eq_iff in Hbc. subst. now rewrite Hab.
  - now rewrite (ascii_compare_lt_trans a b c).
Qed.

Lemma str_le_refl (s : string) : str_le s s.
Proof. unfold str_le, String.leb. now rewrite string_compare_refl. Qed.

Lemma str_le_trans (a b c : string) : str_le a b -> str_le b c -> str_le a c.
Proof.
  unfold str_le, String.leb.
  destruct (String.compare a b) eqn:Hab; try discriminate;
    destruct (String.compare b c) eqn:Hbc; try discriminate; intros _ _.
  - apply String.compare_eq_iff in Hab, Hbc. subst.
    now rewrite string_compare_refl.
  - apply String.compare_eq_iff in Hab. subst. now rewrite Hbc.
  - apply String.compare_eq_iff in Hbc. subst. now rewrite Hab.
  - now rewrite (string_compare_lt_trans a b c).
Qed.

Lemma ltb_false_le (a b : string) : String.ltb a b = false -> str_le b a.
Proof.
  unfold str_le, String.ltb, String.leb.
  rewrite (String.compare_antisym b a).
  destruct (String.compare a b); simpl; congruence.
Qed.

Lemma ltb_true_le (a b : string) : String.ltb a b = true -> str_le a b.
Proof.
  unfold str_le, String.ltb, String.leb.
  destruct (String.compare a b); congruence.
Qed.

Lemma ltb_irrefl (a : string) : String.ltb a a = false.
Proof. unfold String.ltb. now rewrite string_compare_refl. Qed.

(** ** Years in stored dates: the order of the strings is the order of
    the years they start with *)

Lemma compare_substring_prefix (n : nat) (a b : string) :
  String.compare (String.substring 0 n a) (String.substring 0 n b) = Eq
  \/ String.compare (String.substring 0 n a) (String.substring 0 n b)
     = String.compare a b.
Proof.
  revert a b.
  induction n as [|n IH]; intros [|c a] [|c' b]; cbn; auto.
  destruct (Ascii.compare c c'); auto.
Qed.

Lemma str_le_substring (n : nat) (a b : string) :
  str_le a b -> str_le (String.substring 0 n a) (String.substring 0 n b).
Proof.
  unfold str_le, String.leb.
  destruct (compare_substring_prefix n a b) as [-> | ->]; auto.
Qed.

Lemma digit_of_range (c : ascii) (d : Z) :
  Lib.digit_of c = Some d ->
  0 <= d <= 9 /\ Z.of_N (N_of_ascii c) = d + 48.
Proof.
  unfold Lib.digit_of.
  destruct (Z.leb_spec 48 (Z.of_N (N_of_ascii c)));
    destruct (Z.leb_spec (Z.of_N (N_of_ascii c)) 57); cbn;
    try discriminate.
  intros [= <-]. lia.
Qed.

Lemma digits_value_bounds (s : string) (acc x : Z) :
  0 <= acc ->
  Lib.digits_value acc s = Some x ->
  acc * 10 ^ Z.of_nat (String.length s) <= x
  /\ x < (acc + 1) * 10 ^ Z.of_nat (String.length s).
Proof.
  revert acc x.
  induction s as [|c s IH]; intros acc x Hacc; cbn [Lib.digits_value].
  - intros [= <-]. cbn. lia.
  - destruct (Lib.digit_of c) as [d|] eqn:Hd; [|discriminate].
    apply digit_of_range in Hd. intros H.
    apply IH in H; [|lia].
    cbn [String.length]. rewrite Nat2Z.inj_succ, Z.pow_succ_r by lia.
    assert (0 < 10 ^ Z.of_nat (String.length s)) by (apply Z.pow_pos_nonneg; lia).
    nia.
Qed.

Lemma digits_value_le (a b : string) (acc x y : Z) :
  String.length a = String.length b ->
  0 <= acc ->
  Lib.digits_value acc a = Some x ->
  Lib.digits_value acc b = Some y ->
  str_le a b ->
  x <= y.
Proof.
  revert b acc x y.
  induction a as [|c a IH]; intros [|c' b] acc x y Hlen Hacc;
    try discriminate; cbn [Lib.digits_value].
  - intros [= <-] [= <-] _. lia.
  - destruct (Lib.digit_of c) as [d|] eqn:Hd; [|discriminate].
    destruct (Lib.digit_of c') as [d'|] eqn:Hd'; [|discriminate].
    apply digit_of_range in Hd, Hd'. intros Ha Hb.
    injection Hlen as Hlen.
    unfold str_le, String.leb. cbn [String.compare].
    destruct (Ascii.compare c c') eqn:Hc.
    + apply Ascii.compare_eq_iff in Hc. subst c'.
      assert (d' = d) by lia. subst d'.
      apply (IH b (10 * acc + d)); auto. lia.
    + intros _. unfold Ascii.compare in Hc. rewrite N.compare_lt_iff in Hc.
      apply digits_value_bounds in Ha, Hb; try lia.
      rewrite <- Hlen in Hb.
      assert (0 < 10 ^ Z.of_nat (String.length a))
        by (apply Z.pow_pos_nonneg; lia).
      nia.
    + discriminate.
Qed.

Lemma year_digits_le (a b : string) (ya yb : Z) :
  str_le a b ->
  year_digits a = Some ya -> year_digits b = Some yb -> ya <= yb.
Proof.
  unfold year_digits. intros Hle.
  destruct (Nat.eqb_spec (String.length (String.substring 0 4 a)) 4)
    as [Ha|]; [|discriminate].
  destruct (Nat.eqb_spec (String.length (String.substring 0 4 b)) 4)
    as [Hb|]; [|discriminate].
  intros Hya Hyb.
  apply (digits_value_le _ _ 0 ya yb (eq_trans Ha (eq_sym Hb))); auto.
  - lia.
  - now apply str_le_substring.
Qed.

Lemma StronglySorted_weaken {A : Type} (R R' : A -> A -> Prop)
    (l : list A) :
  (forall a b, R a b -> R' a b) ->
  StronglySorted R l -> StronglySorted R' l.
Proof.
  intros HR. induction 1 as [|x l _ IH Hx]; constructor; [exact IH|].
  revert Hx. apply List.Forall_impl. intros b. apply HR.
Qed.

Lemma key_le_year_le (a b : video) : key_le sort_key a b -> year_le a b.
Proof.
  intros Hle ya yb. now apply year_digits_le.
Qed.

(** The executable [fromisoformat] reads the year off the first four
    characters. *)
Lemma Lib_fromisoformat_year (s : string) (d : datetime.t) :
  Lib.fromisoformat s = Ok d -> year_digits s = Some (datetime.year d).
Proof.
  unfold Lib.fromisoformat, Lib.iso_date.
  destruct (Nat.eqb_spec (String.length s) 10) as [Hlen|]; [|discriminate].
  unfold Lib.parse_digits at 1.
  destruct (Lib.digits_value 0 (String.substring 0 4 s)) as [y|] eqn:Hy.
  2:{ now destruct (truthy (String.substring 0 4 s)). }
  assert (H4 : String.length (String.substring 0 4 s) = 4%nat).
  { destruct s as [|a [|b [|c [|e [|f s]]]]]; cbn in Hlen |- *;
      try discriminate; reflexivity. }
  unfold year_digits. rewrite H4, Hy. cbn [Nat.eqb].
  destruct (truthy (String.substring 0 4 s)); [|discriminate].
  destruct (String.get 4 s) as [c|]; [|discriminate].
  destruct (Ascii.eqb_spec c "-"%char) as [->|Hne].
  2:{ intros H. exfalso. revert H.
      destruct c as [[] [] [] [] [] [] [] []]; try discriminate;
        now destruct Hne. }
  destruct (Lib.parse_digits (String.substring 5 2 s)) as [m|];
    [|discriminate].
  destruct (String.get 7 s) as [c|]; [|discriminate].
  destruct (Ascii.eqb_spec c "-"%char) as [->|Hne].
  2:{ intros H. exfalso. revert H.
      destruct c as [[] [] [] [] [] [] [] []]; try discriminate;
        now destruct Hne. }
  destruct (Lib.parse_digits (String.substring 8 2 s)) as [dd|];
    [|discriminate].
  destruct (Lib.valid_date y m dd); [|discriminate].
  now intros [= <-].
Qed.

(** ** The sort: a sorted, stable permutation *)
Section SortFacts.
Context {A : Type} (key : A -> string).

Lemma insert_by_Permutation (x : A) (l : list A) :
  Permutation (insert_by key x l) (x :: l).
Proof.
  induction l as [|y l IH]; simpl; [reflexivity|].
  destruct (String.ltb (key y) (key x)); [|reflexivity].
  rewrite IH. apply perm_swap.
Qed.

Lemma list_sort_Permutation (l : list A) : Permutation (list_sort key l) l.
Proof.
  induction l as [|x l IH]; simpl; [reflexivity|].
  rewrite insert_by_Permutation. now constructor.
Qed.

Lemma insert_by_sorted (x : A) (l : list A) :
  StronglySorted (key_le key) l -> StronglySorted (key_le key) (insert_by key x l).
Proof.
  induction 1 as [|y l Hs IH Hy]; simpl.
  - repeat constructor.
  - destruct (String.ltb (key y) (key x)) eqn:Hlt.
    + constructor; [exact IH|].
      rewrite List.Forall_forall. intros z Hz.
      apply (Permutation_in _ (insert_by_Permutation x l)) in Hz.
      destruct Hz as [<-|Hz].
      * now apply ltb_true_le.
      * rewrite List.Forall_forall in Hy. now apply Hy.
    + apply ltb_false_le in Hlt.
      constructor; [now constructor|].
      constructor; [exact Hlt|].
      rewrite List.Forall_forall in Hy |- *. intros z Hz.
      eapply str_le_trans; [exact Hlt|]. now apply Hy.
Qed.

Lemma list_sort_sorted (l : list A) : StronglySorted (key_le key) (list_sort key l).
Proof.
  induction l as [|x l IH]; simpl; [constructor|].
  now apply insert_by_sorted.
Qed.

Lemma insert_by_stable (k : string) (x : A) (l : list A) :
  List.filter (has_key key k) (insert_by key x l)
  = List.filter (has_key key k) (x :: l).
Proof.
  induction l as [|y l IH]; [reflexivity|].
  cbn [insert_by].
  destruct (String.ltb (key y) (key x)) eqn:Hlt; [|reflexivity].
  cbn [List.filter] in *. rewrite IH.
  unfold has_key.
  destruct (String.eqb_spec (key y) k) as [Hy|Hy];
    destruct (String.eqb_spec (key x) k) as [Hx|Hx]; try reflexivity.
  rewrite Hy, Hx, ltb_irrefl in Hlt. discriminate.
Qed.

Lemma list_sort_stable (k : string) (l : list A) :
  List.filter (has_key key k) (list_sort key l) = List.filter (has_key key k) l.
Proof.
  induction l as [|x l IH]; [reflexivity|].
  cbn [list_sort]. rewrite insert_by_stable.
  cbn [List.filter]. now rewrite IH.
Qed.
End SortFacts.

(** ** The calendar matcher *)
Section MatcherFacts.
Variable fromisoformat : string -> result datetime.t.

(** [datetime.fromisoformat] signals an invalid string with a
    [ValueError], and the empty string is invalid. *)
Hypothesis fromisoformat_ValueError :
  forall s e, fromisoformat s = Raise e -> isinstance_ValueError e = true.
Hypothesis fromisoformat_empty : forall d, fromisoformat "" <> Ok d.

Lemma matching_loop_filter (month day : Z) (videos acc : list video) :
  matching_loop fromisoformat month day videos acc
  = Ok (acc ++ List.filter (recorded_on fromisoformat month day) videos).
Proof.
  revert acc.
  induction videos as [|v videos IH]; intros acc; cbn [matching_loop List.filter].
  - now rewrite app_nil_r.
  - unfold recorded_on at 1.
    destruct (VideoRecord.recording_date v) as [s|]; [|apply IH].
    destruct s as [|c s]; cbn [truthy].
    + destruct (fromisoformat "") as [d|e] eqn:E; [|apply IH].
      now destruct (fromisoformat_empty d).
    + destruct (fromisoformat (String c s)) as [d|e] eqn:E.
      * destruct ((datetime.month d =? month) && (datetime.day d =? day));
          [|apply IH].
        rewrite IH, <- app_assoc. reflexivity.
      * rewrite (fromisoformat_ValueError _ _ E). apply IH.
Qed.

Lemma get_videos_for_date_sorted_filter (videos_db : catalogue)
    (month day : Z) :
  get_videos_for_date fromisoformat videos_db month day
  = Ok (list_sort sort_key
          (List.filter (recorded_on fromisoformat month day)
             (Catalogue.videos videos_db))).
Proof.
  unfold get_videos_for_date. now rewrite matching_loop_filter.
Qed.

Lemma recorded_on_inv (month day : Z) (v : video) :
  recorded_on fromisoformat month day v = true ->
  exists s d, VideoRecord.recording_date v = Some s
    /\ fromisoformat s = Ok d
    /\ datetime.month d = month /\ datetime.day d = day.
Proof.
  unfold recorded_on.
  destruct (VideoRecord.recording_date v) as [s|]; [|discriminate].
  destruct (fromisoformat s) as [d|e] eqn:E; [|discriminate].
  rewrite andb_true_iff, !Z.eqb_eq. intros [Hm Hd]. now exists s, d.
Qed.

(** C1: the matcher returns, without raising, exactly the records of the
    catalogue whose recording date is present, parses, and has the
    query's month and day; a record whose date is absent or does not
    parse is never returned; and a query for 29 February returns no
    record dated 28 February or 1 March. *)
Theorem get_videos_for_date_exact (videos_db : catalogue) (month day : Z) :
  exists found,
    get_videos_for_date fromisoformat videos_db month day = Ok found
    /\ Permutation found
         (List.filter (recorded_on fromisoformat month day)
            (Catalogue.videos videos_db))
    /\ (forall v, In v found <->
          In v (Catalogue.videos videos_db)
          /\ exists s d, VideoRecord.recording_date v = Some s
               /\ fromisoformat s = Ok d
               /\ datetime.month d = month /\ datetime.day d = day)
    /\ (forall v, In v found ->
          VideoRecord.recording_date v <> None
          /\ forall s e, VideoRecord.recording_date v = Some s ->
               fromisoformat s <> Raise e)
    /\ (month = 2 -> day = 29 ->
        forall v s d, In v found ->
          VideoRecord.recording_date v = Some s -> fromisoformat s = Ok d ->
          ~ (datetime.month d = 2 /\ datetime.day d = 28)
          /\ ~ (datetime.month d = 3 /\ datetime.day d = 1)).
Proof.
  eexists. split; [apply get_videos_for_date_sorted_filter|].
  assert (Hin : forall v,
    In v (list_sort sort_key
            (List.filter (recorded_on fromisoformat month day)
               (Catalogue.videos videos_db))) <->
    In v (Catalogue.videos videos_db)
    /\ recorded_on fromisoformat month day v = true).
  { intros v. rewrite <- filter_In. split; apply Permutation_in;
      [|symmetry]; apply list_sort_Permutation. }
  split; [apply list_sort_Permutation|].
  split; [|split].
  - intros v. rewrite Hin. split; intros [Hv Hr]; split; trivial.
    + now apply recorded_on_inv.
    + destruct Hr as (s & d & Hs & Hd & <- & <-).
      unfold recorded_on. rewrite Hs, Hd, !Z.eqb_refl. reflexivity.
  - intros v Hv. apply Hin in Hv. destruct Hv as [_ Hr].
    apply recorded_on_inv in Hr. destruct Hr as (s & d & Hs & Hd & _).
    split; [congruence|]. intros s' e Hs'. congruence.
  - intros -> -> v s d Hv Hs Hd. apply Hin in Hv. destruct Hv as [_ Hr].
    apply recorded_on_inv in Hr. destruct Hr as (s' & d' & Hs' & Hd' & Hm & Hday).
    assert (d' = d) by congruence. subst d'. lia.
Qed.

End MatcherFacts.

(** The executable [fromisoformat] meets the two assumptions. *)
Lemma Lib_fromisoformat_ValueError (s : string) (e : exn) :
  Lib.fromisoformat s = Raise e -> isinstance_ValueError e = true.
Proof.
  unfold Lib.fromisoformat. destruct (Lib.iso_date s); [discriminate|].
  now intros [= <-].
Qed.

Lemma Lib_fromisoformat_empty (d : datetime.t) : Lib.fromisoformat "" <> Ok d.
Proof. discriminate. Qed.

(** On the sample catalogue: the query for 29 February finds the two
    leap-day records, oldest first, and nothing else. *)
Lemma get_videos_for_date_exact_witness :
  (exists found,
     get_videos_for_date Lib.fromisoformat sample_db 2 29 = Ok found
     /\ Permutation found
          (List.filter (recorded_on Lib.fromisoformat 2 29)
             (Catalogue.videos sample_db))
     /\ (forall v, In v found <->
           In v (Catalogue.videos sample_db)
           /\ exists s d, VideoRecord.recording_date v = Some s
                /\ Lib.fromisoformat s = Ok d
                /\ datetime.month d = 2 /\ datetime.day d = 29)
     /\ (forall v, In v found ->
           VideoRecord.recording_date v <> None
           /\ forall s e, VideoRecord.recording_date v = Some s ->
                Lib.fromisoformat s <> Raise e)
     /\ (2 = 2 -> 29 = 29 ->
         forall v s d, In v found ->
           VideoRecord.recording_date v = Some s ->
           Lib.fromisoformat s = Ok d ->
           ~ (datetime.month d = 2 /\ datetime.day d = 28)
           /\ ~ (datetime.month d = 3 /\ datetime.day d = 1)))
  /\ get_videos_for_date Lib.fromisoformat sample_db 2 29
     = Ok [ sample_video "j" (Some "2016-02-29");
            sample_video "c" (Some "2020-02-29") ].
Proof.
  split.
  - exact (get_videos_for_date_exact Lib.fromisoformat
             Lib_fromisoformat_ValueError Lib_fromisoformat_empty
             sample_db 2 29).
  - vm_compute. reflexivity.
Defined.

(** With the executable [fromisoformat], which reads dates of the form
    [YYYY-MM-DD], the years of the returned records' dates ascend. *)
Corollary get_videos_for_date_oldest_year_first (videos_db : catalogue)
    (month day : Z) :
  exists found,
    get_videos_for_date Lib.fromisoformat videos_db month day = Ok found
    /\ StronglySorted
         (fun a b => forall da db,
            Lib.fromisoformat (sort_key a) = Ok da ->
            Lib.fromisoformat (sort_key b) = Ok db ->
            datetime.year da <= datetime.year db)
         found.
Proof.
  eexists. split.
  - apply (get_videos_for_date_sorted_filter Lib.fromisoformat
             Lib_fromisoformat_ValueError Lib_fromisoformat_empty).
  - apply (StronglySorted_weaken (key_le sort_key)); [|apply list_sort_sorted].
    intros a b Hle da db Ha Hb.
    apply Lib_fromisoformat_year in Ha, Hb.
    exact (key_le_year_le a b Hle _ _ Ha Hb).
Qed.

(** ** The date extractor *)
Section ExtractorFacts.
Variable strptime : string -> string -> result datetime.t.
Variable parser_parse_fuzzy : string -> result datetime.t.

Lemma try_patterns_first_match (title : string) (patterns : list string) :
  Forall (usable_format strptime) patterns ->
  try_patterns strptime title patterns
  = Ok (first_strict_match strptime title patterns).
Proof.
  induction 1 as [|p ps Hp _ IH]; cbn [try_patterns first_strict_match].
  - reflexivity.
  - destruct (strptime title p) as [d|e] eqn:E; [reflexivity|].
    now rewrite (Hp _ _ E).
Qed.

Lemma parse_date_from_title_extract (title : string) (cfg : config) :
  Forall (usable_format strptime) (config_title_patterns cfg) ->
  parse_date_from_title strptime parser_parse_fuzzy title cfg
  = Ok (extract_spec strptime parser_parse_fuzzy title
          (config_title_patterns cfg) true).
Proof.
  intros Husable. unfold parse_date_from_title, extract_spec.
  rewrite try_patterns_first_match by assumption. cbn [bind].
  destruct (first_strict_match strptime title (config_title_patterns cfg));
    [reflexivity|].
  now destruct (parser_parse_fuzzy title).
Qed.

Lemma first_strict_match_app (title : string) (before : list string)
    (p : string) (after : list string) (d : datetime.t) :
  Forall (fun q => exists e, strptime title q = Raise e) before ->
  strptime title p = Ok d ->
  first_strict_match strptime title (before ++ p :: after) = Some d.
Proof.
  induction 1 as [|q qs [e Hq] _ IH]; intros Hp; cbn [app first_strict_match].
  - now rewrite Hp.
  - rewrite Hq. now apply IH.
Qed.

Lemma first_strict_match_none (title : string) (patterns : list string) :
  first_strict_match strptime title patterns = None <->
  Forall (fun q => exists e, strptime title q = Raise e) patterns.
Proof.
  induction patterns as [|p ps IH]; cbn [first_strict_match].
  - split; [constructor|reflexivity].
  - destruct (strptime title p) as [d|e] eqn:E.
    + split; [discriminate|]. intros H. inversion H as [|? ? [e He] _].
      congruence.
    + rewrite IH. split.
      * intros H. constructor; [now exists e|exact H].
      * intros H. now inversion H.
Qed.

(** The strict stage stops at the first pattern for which [strptime]
    raises something other than a [ValueError], and the extractor
    raises it; neither a later pattern nor the fuzzy scan is tried. *)
Lemma try_patterns_propagates (title : string) (before : list string)
    (p : string) (after : list string) (e : exn) :
  Forall (fun q => exists e', strptime title q = Raise e'
                     /\ isinstance_ValueError e' = true) before ->
  strptime title p = Raise e ->
  isinstance_ValueError e = false ->
  try_patterns strptime title (before ++ p :: after) = Raise e.
Proof.
  induction 1 as [|q qs (e' & Hq & He') _ IH]; intros Hp He;
    cbn [app try_patterns].
  - now rewrite Hp, He.
  - rewrite Hq, He'. now apply IH.
Qed.

Lemma parse_date_from_title_propagates (title : string) (cfg : config)
    (before : list string) (p : string) (after : list string) (e : exn) :
  config_title_patterns cfg = before ++ p :: after ->
  Forall (fun q => exists e', strptime title q = Raise e'
                     /\ isinstance_ValueError e' = true) before ->
  strptime title p = Raise e ->
  isinstance_ValueError e = false ->
  parse_date_from_title strptime parser_parse_fuzzy title cfg = Raise e.
Proof.
  intros Hcfg Hbefore Hp He. unfold parse_date_from_title.
  now rewrite Hcfg, (try_patterns_propagates _ _ _ _ _ Hbefore Hp He).
Qed.

(** With formats [strptime] can work with, the extractor returns: a
    date, or absent exactly when every strict pattern and the fuzzy
    scan have failed. *)
Lemma parse_date_from_title_returns (title : string) (cfg : config) :
  Forall (usable_format strptime) (config_title_patterns cfg) ->
  exists r,
    parse_date_from_title strptime parser_parse_fuzzy title cfg = Ok r
    /\ (r = None <->
        Forall (fun q => exists e, strptime title q = Raise e)
          (config_title_patterns cfg)
        /\ exists e, parser_parse_fuzzy title = Raise e).
Proof.
  intros Husable.
  eexists. split; [now apply parse_date_from_title_extract|].
  unfold extract_spec. rewrite <- first_strict_match_none.
  destruct (first_strict_match strptime title (config_title_patterns cfg))
    as [d|].
  - split; [discriminate|]. intros [H _]. discriminate.
  - destruct (parser_parse_fuzzy title) as [d|e].
    + split; [discriminate|]. intros [_ [e He]]. discriminate.
    + split; [|reflexivity]. intros _. split; [reflexivity|now exists e].
Qed.

(** C3 (as the code has it): with strict patterns that [strptime]
    parses or rejects with a [ValueError], the patterns are tried in
    the configured order and the first that parses gives the result; if
    none parses the fuzzy scan is run, whatever the configuration, and
    its date is the result; if that fails too the result is absent. *)
Theorem parse_date_from_title_strict_then_fuzzy (title : string)
    (cfg : config) :
  Forall (usable_format strptime) (config_title_patterns cfg) ->
  parse_date_from_title strptime parser_parse_fuzzy title cfg
  = Ok (extract_spec strptime parser_parse_fuzzy title
          (config_title_patterns cfg) true)
  /\ (forall before p after d,
        config_title_patterns cfg = before ++ p :: after ->
        Forall (fun q => exists e, strptime title q = Raise e) before ->
        strptime title p = Ok d ->
        parse_date_from_title strptime parser_parse_fuzzy title cfg
        = Ok (Some d))
  /\ (Forall (fun q => exists e, strptime title q = Raise e)
        (config_title_patterns cfg) ->
      parse_date_from_title strptime parser_parse_fuzzy title cfg
      = Ok match parser_parse_fuzzy title with
           | Ok d => Some d
           | Raise _ => None
           end).
Proof.
  intros Husable.
  split; [now apply parse_date_from_title_extract|]. split.
  - intros before p after d Hcfg Hbefore Hp.
    rewrite parse_date_from_title_extract by assumption. unfold extract_spec.
    now rewrite Hcfg, (first_strict_match_app _ _ _ _ d Hbefore Hp).
  - intros Hall. rewrite parse_date_from_title_extract by assumption.
    unfold extract_spec.
    apply first_strict_match_none in Hall. now rewrite Hall.
Qed.
End ExtractorFacts.

(** The executable [strptime] raises nothing but [ValueError] for a
    format that names no directive twice. *)
Lemma Lib_strptime_usable (f : string) :
  match Lib.format_directives f with
  | Some ds => Lib.has_repeat ds
  | None => false
  end = false ->
  usable_format Lib.strptime f.
Proof.
  intros Hf title e. unfold Lib.strptime.
  destruct (Lib.format_directives f) as [ds|]; [|now intros [= <-]].
  rewrite Hf.
  destruct (Lib.strptime_scan f title 1900 1 1) as [[[y m] d]|].
  - destruct (Lib.valid_date y m d); [discriminate|]. now intros [= <-].
  - now intros [= <-].
Qed.

Lemma sample_config_usable :
  Forall (usable_format Lib.strptime) (config_title_patterns sample_config).
Proof. repeat constructor; now apply Lib_strptime_usable. Qed.

Lemma sample_config_no_fallback_usable :
  Forall (usable_format Lib.strptime)
    (config_title_patterns sample_config_no_fallback).
Proof. repeat constructor; now apply Lib_strptime_usable. Qed.

(** C8, the code at the failing input: the first configured pattern
    names the year twice, [strptime] raises [re.error] for it, the
    [except ValueError] clause lets that through, and the extractor
    raises, for a title the second pattern would have parsed and for a
    title without any date alike. *)
Theorem parse_date_from_title_raises :
  parse_date_from_title Lib.strptime Lib.parser_parse_fuzzy "2019-03-14"
    sample_config_repeated = Raise ReError
  /\ parse_date_from_title Lib.strptime Lib.parser_parse_fuzzy
       "Just a fun day!" sample_config_repeated = Raise ReError
  /\ isinstance_ValueError ReError = false
  /\ Lib.strptime "2019-03-14" "%Y-%m-%d" = Ok (datetime.make 2019 3 14).
Proof. repeat split; vm_compute; reflexivity. Qed.

(** The title is an ISO date: the first pattern fails, the second
    parses and gives the result. *)
Lemma parse_date_from_title_strict_then_fuzzy_witness :
  (parse_date_from_title Lib.strptime Lib.parser_parse_fuzzy "2019-03-14"
     sample_config
   = Ok (extract_spec Lib.strptime Lib.parser_parse_fuzzy "2019-03-14"
           (config_title_patterns sample_config) true)
   /\ (forall before p after d,
         config_title_patterns sample_config = before ++ p :: after ->
         Forall (fun q => exists e, Lib.strptime "2019-03-14" q = Raise e)
           before ->
         Lib.strptime "2019-03-14" p = Ok d ->
         parse_date_from_title Lib.strptime Lib.parser_parse_fuzzy
           "2019-03-14" sample_config
         = Ok (Some d))
   /\ (Forall (fun q => exists e, Lib.strptime "2019-03-14" q = Raise e)
         (config_title_patterns sample_config) ->
       parse_date_from_title Lib.strptime Lib.parser_parse_fuzzy
         "2019-03-14" sample_config
       = Ok match Lib.parser_parse_fuzzy "2019-03-14" with
            | Ok d => Some d
            | Raise _ => None
            end))
  /\ parse_date_from_title Lib.strptime Lib.parser_parse_fuzzy "2019-03-14"
       sample_config
     = Ok (Some (datetime.make 2019 3 14)).
Proof.
  split.
  - exact (parse_date_from_title_strict_then_fuzzy Lib.strptime
             Lib.parser_parse_fuzzy "2019-03-14" sample_config
             sample_config_usable).
  - vm_compute. reflexivity.
Defined.

(** C3, the claim as stated fails: with the fuzzy scan disabled the
    specification gives absent for a title no strict pattern parses,
    but the code has no such switch, runs the scan and returns the date
    it finds in the text. *)
Lemma fuzzy_scan_cannot_be_disabled :
  parse_date_from_title Lib.strptime Lib.parser_parse_fuzzy
    "Trip 2019-03-14" sample_config
  = Ok (Some (datetime.make 2019 3 14))
  /\ extract_spec Lib.strptime Lib.parser_parse_fuzzy "Trip 2019-03-14"
       (config_title_patterns sample_config) false
     = None.
Proof. split; vm_compute; reflexivity. Qed.

(** ** Ingestion *)
Section IngestionFacts.
Variable strptime : string -> string -> result datetime.t.
Variable parser_parse_fuzzy : string -> result datetime.t.
Variable strftime_ymd : datetime.t -> string.

Lemma make_video_data_assemble (cfg : config) (item : snippet) :
  returns (parse_date_from_title strptime parser_parse_fuzzy
             (Snippet.title item) cfg) ->
  make_video_data strptime parser_parse_fuzzy strftime_ymd cfg item
  = Ok (assemble_spec strptime parser_parse_fuzzy strftime_ymd cfg item).
Proof.
  intros [found Hfound].
  unfold make_video_data, assemble_spec, recording_date_spec, extracted.
  rewrite Hfound. reflexivity.
Qed.

Lemma process_items_assemble (cfg : config) (items : list snippet)
    (videos : list video) :
  (forall item, In item items -> retained item = true ->
     returns (parse_date_from_title strptime parser_parse_fuzzy
                (Snippet.title item) cfg)) ->
  process_items strptime parser_parse_fuzzy strftime_ymd cfg videos items
  = Ok (videos
        ++ map (assemble_spec strptime parser_parse_fuzzy strftime_ymd cfg)
             (List.filter retained items)).
Proof.
  revert videos.
  induction items as [|item items IH]; intros videos Hreturns;
    cbn [process_items List.filter map].
  - now rewrite app_nil_r.
  - assert (Hrest : forall item', In item' items -> retained item' = true ->
        returns (parse_date_from_title strptime parser_parse_fuzzy
                   (Snippet.title item') cfg)).
    { intros item' Hin. apply Hreturns. now right. }
    pose proof (Hreturns item (or_introl eq_refl)) as Hitem.
    unfold retained in Hitem |- *.
    destruct (is_removed (Snippet.title item)); cbn [negb] in *;
      [now apply IH|].
    rewrite (make_video_data_assemble _ _ (Hitem eq_refl)). cbn [bind map].
    rewrite (IH _ Hrest), <- app_assoc. reflexivity.
Qed.

(** An entry on which the extractor raises ends the ingestion: the
    exception leaves the loop. *)
Lemma process_items_propagates (cfg : config) (videos : list video)
    (item : snippet) (items : list snippet) (e : exn) :
  retained item = true ->
  parse_date_from_title strptime parser_parse_fuzzy (Snippet.title item) cfg
  = Raise e ->
  process_items strptime parser_parse_fuzzy strftime_ymd cfg videos
    (item :: items) = Raise e.
Proof.
  intros Hkeep Hraise. cbn [process_items]. unfold retained in Hkeep.
  destruct (is_removed (Snippet.title item)); [discriminate|].
  unfold make_video_data. now rewrite Hraise.
Qed.

Lemma is_removed_false (title : string) :
  is_removed title = false ->
  title <> "Private video" /\ title <> "Deleted video".
Proof.
  unfold is_removed. rewrite orb_false_iff, !String.eqb_neq. tauto.
Qed.

Section EveryTitle.
Variable cfg : config.
Hypothesis extractor_returns :
  forall title,
    returns (parse_date_from_title strptime parser_parse_fuzzy title cfg).

Lemma fetch_loop_pages (fuel : nat) (youtube : option string -> api_response)
    (videos : list video) (tok : option string)
    (r : result (list video)) :
  fetch_loop strptime parser_parse_fuzzy strftime_ymd fuel youtube cfg
    videos tok = Some r ->
  r = Ok (videos
          ++ map (assemble_spec strptime parser_parse_fuzzy strftime_ymd cfg)
               (List.filter retained (pages_seen fuel youtube tok))).
Proof.
  revert videos tok.
  induction fuel as [|fuel IH]; intros videos tok; cbn [fetch_loop pages_seen];
    [discriminate|].
  destruct (youtube tok) as [|items next].
  - intros [= <-]. cbn. now rewrite app_nil_r.
  - rewrite process_items_assemble by (intros; apply extractor_returns).
    destruct next as [tok'|].
    + destruct (truthy tok').
      * intros H. apply IH in H. subst r.
        now rewrite List.filter_app, map_app, app_assoc.
      * intros [= <-]. now rewrite app_nil_r.
    + intros [= <-]. now rewrite app_nil_r.
Qed.

Lemma fetch_loop_returns (fuel : nat)
    (youtube : option string -> api_response)
    (videos : list video) (tok : option string) :
  playlist_ends fuel youtube tok = true ->
  fetch_loop strptime parser_parse_fuzzy strftime_ymd fuel youtube cfg
    videos tok
  = Some (Ok (videos
              ++ map (assemble_spec strptime parser_parse_fuzzy
                        strftime_ymd cfg)
                   (List.filter retained (pages_seen fuel youtube tok)))).
Proof.
  intros Hends.
  destruct (fetch_loop strptime parser_parse_fuzzy strftime_ymd fuel youtube
              cfg videos tok) as [r|] eqn:E.
  - now rewrite (fetch_loop_pages _ _ _ _ _ E).
  - exfalso. revert videos tok Hends E.
    induction fuel as [|fuel IH]; intros videos tok;
      cbn [playlist_ends fetch_loop]; [discriminate|].
    destruct (youtube tok) as [|items next]; [discriminate|].
    rewrite process_items_assemble by (intros; apply extractor_returns).
    destruct next as [tok'|]; [|discriminate].
    destruct (truthy tok'); [|discriminate].
    apply IH.
Qed.
End EveryTitle.

Lemma fetch_loop_more_fuel (fuel : nat)
    (youtube : option string -> api_response) (cfg : config)
    (videos : list video) (tok : option string) (r : result (list video)) :
  fetch_loop strptime parser_parse_fuzzy strftime_ymd fuel youtube cfg
    videos tok = Some r ->
  fetch_loop strptime parser_parse_fuzzy strftime_ymd (S fuel) youtube cfg
    videos tok = Some r.
Proof.
  revert videos tok.
  induction fuel as [|fuel IH]; intros videos tok; [discriminate|].
  intros H. cbn [fetch_loop] in H |- *.
  destruct (youtube tok) as [|items next]; [exact H|].
  destruct (process_items strptime parser_parse_fuzzy strftime_ymd cfg
              videos items) as [videos'|e]; [|exact H].
  destruct next as [tok'|]; [|exact H].
  destruct (truthy tok'); [|exact H].
  now apply IH.
Qed.

(** What [retained] tests, written out: the title is neither of the
    two placeholders. *)
Lemma retained_titles (item : snippet) :
  retained item
  = negb (String.eqb (Snippet.title item) "Private video")
    && negb (String.eqb (Snippet.title item) "Deleted video").
Proof. unfold retained, is_removed. apply negb_orb. Qed.

Lemma filter_retained_titles (items : list snippet) :
  List.filter retained items
  = List.filter
      (fun item =>
         negb (String.eqb (Snippet.title item) "Private video")
         && negb (String.eqb (Snippet.title item) "Deleted video"))
      items.
Proof. apply List.filter_ext. exact retained_titles. Qed.

(** X29: ingestion where the date extractor returns.  For a sequence
    of raw entries, added to the videos gathered so far, such that the
    date extractor returns for the title of every entry that is not
    titled "Private video" or "Deleted video": exactly the entries with
    one of these two titles are left out; every other entry yields one
    record, in input order, whose recording date is the date the
    extractor returns for the title if it returns one, else the upload
    date if the fallback policy is on, else absent.  Where the
    extractor returns for every title, the paginated fetch returns
    once the playlist ends, and has then applied this to the pages in
    the order they were received. *)
Theorem process_items_ingestion (cfg : config) (videos : list video)
    (items : list snippet) :
  (forall item, In item items ->
     Snippet.title item <> "Private video" ->
     Snippet.title item <> "Deleted video" ->
     returns (parse_date_from_title strptime parser_parse_fuzzy
                (Snippet.title item) cfg)) ->
  let assemble :=
    assemble_spec strptime parser_parse_fuzzy strftime_ymd cfg in
  let real_content := fun item : snippet =>
    negb (String.eqb (Snippet.title item) "Private video")
    && negb (String.eqb (Snippet.title item) "Deleted video") in
  process_items strptime parser_parse_fuzzy strftime_ymd cfg videos items
  = Ok (videos ++ map assemble (List.filter real_content items))
  /\ (forall item,
        In item (List.filter real_content items) <->
        In item items
        /\ Snippet.title item <> "Private video"
        /\ Snippet.title item <> "Deleted video")
  /\ (forall item extracted_date,
        parse_date_from_title strptime parser_parse_fuzzy
          (Snippet.title item) cfg = Ok extracted_date ->
        VideoRecord.title (assemble item) = Snippet.title item
        /\ VideoRecord.video_id (assemble item) = Snippet.videoId item
        /\ VideoRecord.upload_date (assemble item)
           = String.substring 0 10 (Snippet.publishedAt item)
        /\ VideoRecord.recording_date (assemble item)
           = match extracted_date with
             | Some d => Some (strftime_ymd d)
             | None =>
                 if config_use_upload_date_fallback cfg
                 then Some (VideoRecord.upload_date (assemble item))
                 else None
             end)
  /\ ((forall title,
         returns (parse_date_from_title strptime parser_parse_fuzzy
                    title cfg)) ->
      (forall fuel youtube r,
         fetch_all_videos_from_playlist strptime parser_parse_fuzzy
           strftime_ymd fuel youtube cfg = Some r ->
         r = Ok (map assemble
                   (List.filter real_content
                      (pages_seen fuel youtube None))))
      /\ (forall fuel youtube,
            playlist_ends fuel youtube None = true ->
            fetch_all_videos_from_playlist strptime parser_parse_fuzzy
              strftime_ymd fuel youtube cfg
            = Some (Ok (map assemble
                          (List.filter real_content
                             (pages_seen fuel youtube None)))))).
Proof.
  intros Hreturns assemble real_content.
  assert (Htitles : forall item,
    real_content item = true <->
    Snippet.title item <> "Private video"
    /\ Snippet.title item <> "Deleted video").
  { intros item. subst real_content. cbv beta.
    now rewrite andb_true_iff, !negb_true_iff, !String.eqb_neq. }
  split; [|split; [|split]].
  - subst real_content. rewrite <- filter_retained_titles.
    apply process_items_assemble. intros item Hitem Hkeep.
    rewrite retained_titles in Hkeep. apply Htitles in Hkeep.
    now apply Hreturns.
  - intros item. now rewrite filter_In, Htitles.
  - intros item found Hfound. repeat split.
    subst assemble.
    cbn [assemble_spec VideoRecord.recording_date VideoRecord.upload_date].
    unfold recording_date_spec, extracted. now rewrite Hfound.
  - intros Hall. subst real_content. split.
    + intros fuel youtube r H. rewrite <- filter_retained_titles.
      now apply (fetch_loop_pages cfg Hall) in H.
    + intros fuel youtube H. rewrite <- filter_retained_titles.
      now apply fetch_loop_returns.
Qed.
End IngestionFacts.

(** With the sample configuration the executable extractor returns for
    every title. *)
Lemma sample_config_returns (title : string) :
  returns (parse_date_from_title Lib.strptime Lib.parser_parse_fuzzy title
             sample_config).
Proof.
  destruct (parse_date_from_title_returns Lib.strptime Lib.parser_parse_fuzzy
              title sample_config sample_config_usable) as (r & Hr & _).
  now exists r.
Qed.

(** The two sample pages: the removed entries are gone, the dated title
    gives its date, the undated one falls back to the upload date, and
    the title with a date in running text gets the date the fuzzy scan
    finds; without the fallback policy the undated record has no
    recording date. *)
Lemma process_items_ingestion_witness :
  (let assemble :=
     assemble_spec Lib.strptime Lib.parser_parse_fuzzy Lib.strftime_ymd
       sample_config in
   let real_content := fun item : snippet =>
     negb (String.eqb (Snippet.title item) "Private video")
     && negb (String.eqb (Snippet.title item) "Deleted video") in
   process_items Lib.strptime Lib.parser_parse_fuzzy Lib.strftime_ymd
     sample_config [] sample_items_page1
   = Ok ([] ++ map assemble (List.filter real_content sample_items_page1))
   /\ (forall item,
         In item (List.filter real_content sample_items_page1) <->
         In item sample_items_page1
         /\ Snippet.title item <> "Private video"
         /\ Snippet.title item <> "Deleted video")
   /\ (forall item extracted_date,
         parse_date_from_title Lib.strptime Lib.parser_parse_fuzzy
           (Snippet.title item) sample_config = Ok extracted_date ->
         VideoRecord.title (assemble item) = Snippet.title item
         /\ VideoRecord.video_id (assemble item) = Snippet.videoId item
         /\ VideoRecord.upload_date (assemble item)
            = String.substring 0 10 (Snippet.publishedAt item)
         /\ VideoRecord.recording_date (assemble item)
            = match extracted_date with
              | Some d => Some (Lib.strftime_ymd d)
              | None =>
                  if config_use_upload_date_fallback sample_config
                  then Some (VideoRecord.upload_date (assemble item))
                  else None
              end)
   /\ ((forall title,
          returns (parse_date_from_title Lib.strptime Lib.parser_parse_fuzzy
                     title sample_config)) ->
       (forall fuel youtube r,
          fetch_all_videos_from_playlist Lib.strptime Lib.parser_parse_fuzzy
            Lib.strftime_ymd fuel youtube sample_config = Some r ->
          r = Ok (map assemble
                    (List.filter real_content
                       (pages_seen fuel youtube None))))
       /\ (forall fuel youtube,
             playlist_ends fuel youtube None = true ->
             fetch_all_videos_from_playlist Lib.strptime
               Lib.parser_parse_fuzzy Lib.strftime_ymd fuel youtube
               sample_config
             = Some (Ok (map assemble
                           (List.filter real_content
                              (pages_seen fuel youtube None)))))))
  /\ fetch_all_videos_from_playlist Lib.strptime Lib.parser_parse_fuzzy
       Lib.strftime_ymd 2 sample_youtube sample_config
     = Some (Ok
         [ VideoRecord.make "v1" "2019-03-14" "Pi day" "2019-03-20"
             (Some "2019-03-14") "https://www.youtube.com/watch?v=v1"
             "https://img/v1.jpg";
           VideoRecord.make "v3" "Just a fun day!" "" "2020-01-04"
             (Some "2020-01-04") "https://www.youtube.com/watch?v=v3" "";
           VideoRecord.make "v5" "Trip 2022-01-04" "" "2022-01-09"
             (Some "2022-01-04") "https://www.youtube.com/watch?v=v5" "" ])
  /\ map VideoRecord.recording_date
       (map (assemble_spec Lib.strptime Lib.parser_parse_fuzzy
               Lib.strftime_ymd sample_config_no_fallback)
          (List.filter retained sample_items_page1))
     = [Some "2019-03-14"; None].
Proof.
  split; [|split].
  - apply (process_items_ingestion Lib.strptime Lib.parser_parse_fuzzy
             Lib.strftime_ymd sample_config [] sample_items_page1).
    intros item _ _ _. apply sample_config_returns.
  - vm_compute. reflexivity.
  - vm_compute. reflexivity.
Defined.

(** C9, the code at the failing input: the configuration's first
    pattern names the year twice, [strptime] raises [re.error] for it
    on the first entry, the exception leaves the loop over the entries
    and the loop over the pages (whose handler catches [HttpError]
    only), and the fetch builds no catalogue.  The claim has a record
    for each of the three entries that are not removed: the first
    dated by the second pattern, which parses its title, the others
    by the fuzzy scan or, the fallback policy being on, by their
    upload date, as the fetch gives them under the same patterns
    without the repeated one. *)
Theorem fetch_all_videos_from_playlist_raises :
  process_items Lib.strptime Lib.parser_parse_fuzzy Lib.strftime_ymd
    sample_config_repeated [] sample_items_page1 = Raise ReError
  /\ fetch_all_videos_from_playlist Lib.strptime Lib.parser_parse_fuzzy
       Lib.strftime_ymd 2 sample_youtube sample_config_repeated
     = Some (Raise ReError)
  /\ config_title_patterns sample_config_repeated = ["%Y %Y"; "%Y-%m-%d"]
  /\ Lib.strptime "2019-03-14" "%Y-%m-%d" = Ok (datetime.make 2019 3 14)
  /\ config_use_upload_date_fallback sample_config_repeated = true
  /\ fetch_all_videos_from_playlist Lib.strptime Lib.parser_parse_fuzzy
       Lib.strftime_ymd 2 sample_youtube
       (Config.make (Some (DateParsing.make (Some ["%Y-%m-%d"]) None)))
     = Some (Ok
         [ VideoRecord.make "v1" "2019-03-14" "Pi day" "2019-03-20"
             (Some "2019-03-14") "https://www.youtube.com/watch?v=v1"
             "https://img/v1.jpg";
           VideoRecord.make "v3" "Just a fun day!" "" "2020-01-04"
             (Some "2020-01-04") "https://www.youtube.com/watch?v=v3" "";
           VideoRecord.make "v5" "Trip 2022-01-04" "" "2022-01-09"
             (Some "2022-01-04") "https://www.youtube.com/watch?v=v5" "" ]).
Proof. repeat split; vm_compute; reflexivity. Qed.

(** ** The catalogue store *)

Lemma dict_get_set_eq (k : string) (v : json) (d : list (string * json)) :
  dict_get k (dict_set k v d) = Some v.
Proof.
  induction d as [|[k' v'] d IH]; cbn [dict_set dict_get].
  - now rewrite String.eqb_refl.
  - destruct (String.eqb k k') eqn:E; cbn [dict_get]; rewrite ?E;
      [now rewrite String.eqb_refl|exact IH].
Qed.

Lemma dict_get_set_ne (k k' : string) (v : json) (d : list (string * json)) :
  k <> k' -> dict_get k (dict_set k' v d) = dict_get k d.
Proof.
  intros Hne.
  induction d as [|[k'' v''] d IH]; cbn [dict_set dict_get].
  - apply String.eqb_neq in Hne. now rewrite Hne.
  - destruct (String.eqb k' k'') eqn:E; cbn [dict_get].
    + apply String.eqb_eq in E. subst k''.
      apply String.eqb_neq in Hne. now rewrite Hne.
    + destruct (String.eqb k k''); [reflexivity|exact IH].
Qed.

Lemma db_path_ne_backup_path : db_path <> backup_path.
Proof. discriminate. Qed.

Section StoreFacts.
Variable json_dump : json -> string.
Variable json_load : string -> result json.

Lemma save_videos_db_inv (now : string) (data data' : json)
    (fs fs' : filesystem) :
  save_videos_db json_dump now data fs = Ok (data', fs') ->
  set_last_updated now data = Ok data'
  /\ fs' = <[db_path := json_dump data']> fs.
Proof.
  unfold save_videos_db.
  destruct (set_last_updated now data) as [d|e]; cbn [bind]; [|discriminate].
  now intros [= <- <-].
Qed.

Lemma set_last_updated_inv (now : string) (data data' : json) :
  set_last_updated now data = Ok data' ->
  exists entries channel_info,
    data = JDict entries
    /\ dict_get "channel_info" entries = Some (JDict channel_info)
    /\ data' = JDict (dict_set "channel_info"
                        (JDict (dict_set "last_updated" (JStr now)
                                  channel_info))
                        entries).
Proof.
  unfold set_last_updated.
  destruct data as [| | | | |entries]; try discriminate.
  destruct (dict_get "channel_info" entries) as [[| | | | |ci]|] eqn:E;
    try discriminate.
  intros [= <-]. now exists entries, ci.
Qed.

Lemma load_after_save (now : string) (data data' : json)
    (fs fs' : filesystem) :
  save_videos_db json_dump now data fs = Ok (data', fs') ->
  load_videos_db json_load fs' = 
    match json_load (json_dump data') with
    | Ok loaded => Ok loaded
    | Raise e =>
        match isinstance_JSONDecodeError e with
        | Some msg =>
            Raise (Exception ("Error parsing videos database: " ++ msg))
        | None => Raise e
        end
    end.
Proof.
  intros H. apply save_videos_db_inv in H. destruct H as [_ ->].
  unfold load_videos_db. now rewrite lookup_insert_eq.
Qed.

(** Saving writes the stamped dictionary to the database path and
    loading reads that path: what is loaded is what the decoder makes
    of the encoder's text. *)
Lemma save_load_same_path (fs : filesystem) (now : string)
    (entries channel_info : list (string * json)) :
  dict_get "channel_info" entries = Some (JDict channel_info) ->
  (forall doc, set_last_updated now (JDict entries) = Ok doc ->
               json_load (json_dump doc) = Ok doc) ->
  exists saved fs' loaded,
    save_videos_db json_dump now (JDict entries) fs = Ok (JDict saved, fs')
    /\ load_videos_db json_load fs' = Ok (JDict loaded)
    /\ loaded = saved
    /\ dict_get "videos" loaded = dict_get "videos" entries
    /\ (forall k, k <> "channel_info" ->
                  dict_get k loaded = dict_get k entries)
    /\ exists channel_info',
         dict_get "channel_info" loaded = Some (JDict channel_info')
         /\ dict_get "last_updated" channel_info' = Some (JStr now)
         /\ forall k, k <> "last_updated" ->
              dict_get k channel_info' = dict_get k channel_info.
Proof.
  intros Hci Hround.
  set (ci' := dict_set "last_updated" (JStr now) channel_info).
  set (saved := dict_set "channel_info" (JDict ci') entries).
  assert (Hset : set_last_updated now (JDict entries) = Ok (JDict saved)).
  { unfold set_last_updated. now rewrite Hci. }
  assert (Hsave : save_videos_db json_dump now (JDict entries) fs
                  = Ok (JDict saved, <[db_path := json_dump (JDict saved)]> fs)).
  { unfold save_videos_db. now rewrite Hset. }
  exists saved, (<[db_path := json_dump (JDict saved)]> fs), saved.
  split; [exact Hsave|]. split.
  { rewrite (load_after_save _ _ _ _ _ Hsave). now rewrite (Hround _ Hset). }
  split; [reflexivity|]. split; [|split].
  - now apply dict_get_set_ne.
  - intros k Hk. now apply dict_get_set_ne.
  - exists ci'. split; [apply dict_get_set_eq|]. split.
    + apply dict_get_set_eq.
    + intros k Hk. now apply dict_get_set_ne.
Qed.

(** C4: a catalogue dictionary (one whose [channel_info] is a
    dictionary) is saved without error, and loading afterwards yields
    the saved dictionary with the [last_updated] stamp of the save: its
    [videos] entry, and every entry other than [channel_info], is what
    was saved.  The JSON encoder and decoder are assumed to round-trip
    the saved document. *)
Theorem save_then_load (fs : filesystem) (now : string)
    (entries channel_info : list (string * json)) :
  dict_get "channel_info" entries = Some (JDict channel_info) ->
  (forall doc, set_last_updated now (JDict entries) = Ok doc ->
               json_load (json_dump doc) = Ok doc) ->
  exists saved fs' loaded,
    save_videos_db json_dump now (JDict entries) fs = Ok (JDict saved, fs')
    /\ load_videos_db json_load fs' = Ok (JDict loaded)
    /\ loaded = saved
    /\ dict_get "videos" loaded = dict_get "videos" entries
    /\ (forall k, k <> "channel_info" ->
                  dict_get k loaded = dict_get k entries)
    /\ exists channel_info',
         dict_get "channel_info" loaded = Some (JDict channel_info')
         /\ dict_get "last_updated" channel_info' = Some (JStr now)
         /\ forall k, k <> "last_updated" ->
              dict_get k channel_info' = dict_get k channel_info.
Proof.
  intros Hci Hround.
  exact (save_load_same_path fs now entries channel_info Hci Hround).
Qed.

(** C6: with no database file, [load_videos_db] returns the empty
    structure without raising: no videos, and the placeholder
    [channel_info]. *)
Theorem load_videos_db_no_file (fs : filesystem) :
  fs !! db_path = None ->
  load_videos_db json_load fs = Ok empty_db
  /\ exists entries,
       empty_db = JDict entries
       /\ dict_get "videos" entries = Some (JList [])
       /\ dict_get "channel_info" entries
          = Some (JDict [ ("channel_id", JStr "");
                          ("channel_name", JStr "Adam The Woo");
                          ("channel_handle", JStr "@TheDailyWoo");
                          ("last_updated", JNull) ]).
Proof.
  intros Hnone. unfold load_videos_db. rewrite Hnone.
  split; [reflexivity|]. eexists. split; [reflexivity|]. now split.
Qed.

(** C7: when the database file exists and its text cannot be parsed,
    [load_videos_db] raises (a [JSONDecodeError] is reported as an
    [Exception] with the store's message) and so returns no catalogue
    at all; with the file removed it returns the empty structure. *)
Theorem load_videos_db_corrupt (fs : filesystem) (content : string)
    (e : exn) :
  fs !! db_path = Some content ->
  json_load content = Raise e ->
  (exists e', load_videos_db json_load fs = Raise e'
     /\ forall msg, e = JSONDecodeError msg ->
          e' = Exception ("Error parsing videos database: " ++ msg))
  /\ (forall data, load_videos_db json_load fs <> Ok data)
  /\ load_videos_db json_load (delete db_path fs) = Ok empty_db.
Proof.
  intros Hfile Hload.
  assert (H : exists e', load_videos_db json_load fs = Raise e'
     /\ forall msg, e = JSONDecodeError msg ->
          e' = Exception ("Error parsing videos database: " ++ msg)%string).
  { unfold load_videos_db. rewrite Hfile, Hload.
    destruct (isinstance_JSONDecodeError e) as [msg|] eqn:E.
    - eexists. split; [reflexivity|]. intros msg' ->. cbn in E. congruence.
    - exists e. split; [reflexivity|]. intros msg' ->. discriminate. }
  split; [exact H|]. split.
  - destruct H as (e' & He' & _). intros data. rewrite He'. discriminate.
  - unfold load_videos_db. now rewrite lookup_delete_eq.
Qed.
End StoreFacts.

Section BackupFacts.
Variable json_dump : json -> string.

Lemma create_backup_primary (fs : filesystem) :
  create_backup db_path fs !! db_path = fs !! db_path.
Proof.
  unfold create_backup. destruct (fs !! db_path) as [c|] eqn:E; [|exact E].
  rewrite lookup_insert_ne; [exact E|]. apply not_eq_sym, db_path_ne_backup_path.
Qed.

Lemma create_backup_backup (fs : filesystem) (prior : string) :
  fs !! db_path = Some prior ->
  create_backup db_path fs !! backup_path = Some prior.
Proof.
  intros E. unfold create_backup. rewrite E. apply lookup_insert_eq.
Qed.

Lemma create_backup_other (fs : filesystem) (p : string) :
  p <> backup_path -> create_backup db_path fs !! p = fs !! p.
Proof.
  intros Hp. unfold create_backup. destruct (fs !! db_path); [|reflexivity].
  now rewrite lookup_insert_ne.
Qed.

(** [main] guards the call of [create_backup] with the test that
    [create_backup] makes itself. *)
Lemma main_store_backup_and_save (channel_id channel_title channel_handle
    uploads_playlist_id now_main now : string) (videos : list video)
    (fs : filesystem) :
  exists videos_db,
    main_store json_dump channel_id channel_title channel_handle
      uploads_playlist_id now_main now videos fs
    = backup_and_save json_dump now (JDict videos_db) fs
    /\ dict_get "videos" videos_db
       = Some (JList (map video_to_json videos)).
Proof.
  eexists. unfold main_store, backup_and_save. split.
  - unfold create_backup at 2.
    destruct (fs !! db_path) as [c|] eqn:E; [|reflexivity].
    unfold create_backup. now rewrite E.
  - reflexivity.
Qed.

Lemma save_videos_db_other (now : string) (data data' : json)
    (fs fs' : filesystem) (p : string) :
  save_videos_db json_dump now data fs = Ok (data', fs') ->
  p <> db_path -> fs' !! p = fs !! p.
Proof.
  intros H Hp. apply save_videos_db_inv in H. destruct H as [_ ->].
  now rewrite lookup_insert_ne.
Qed.

Lemma save_videos_db_primary (now : string) (data data' : json)
    (fs fs' : filesystem) :
  save_videos_db json_dump now data fs = Ok (data', fs') ->
  fs' !! db_path = Some (json_dump data').
Proof.
  intros H. apply save_videos_db_inv in H. destruct H as [_ ->].
  apply lookup_insert_eq.
Qed.

(** C5 (as the code has it): the backup is made by the ingestion run,
    which calls [create_backup] on the database path and then
    [save_videos_db].  Such a run copies a prior snapshot to the backup
    path before it overwrites the primary file; two runs in succession
    leave the first run's text in the backup file and the second run's
    text in the primary file, and touch no other file. *)
Theorem backup_and_save_twice (fs fs1 fs2 : filesystem)
    (now1 now2 : string) (data1 data2 saved1 saved2 : json) :
  backup_and_save json_dump now1 data1 fs = Ok (saved1, fs1) ->
  backup_and_save json_dump now2 data2 fs1 = Ok (saved2, fs2) ->
  fs1 !! db_path = Some (json_dump saved1)
  /\ (forall prior, fs !! db_path = Some prior ->
                    fs1 !! backup_path = Some prior)
  /\ fs2 !! db_path = Some (json_dump saved2)
  /\ fs2 !! backup_path = Some (json_dump saved1)
  /\ (forall p, p <> db_path -> p <> backup_path -> fs2 !! p = fs !! p).
Proof.
  unfold backup_and_save. intros H1 H2.
  pose proof (save_videos_db_primary _ _ _ _ _ H1) as P1.
  pose proof (save_videos_db_primary _ _ _ _ _ H2) as P2.
  split; [exact P1|]. split; [|split; [exact P2|split]].
  - intros prior Hprior.
    rewrite (save_videos_db_other _ _ _ _ _ _ H1);
      [|apply not_eq_sym, db_path_ne_backup_path].
    now apply create_backup_backup.
  - rewrite (save_videos_db_other _ _ _ _ _ _ H2);
      [|apply not_eq_sym, db_path_ne_backup_path].
    now apply create_backup_backup.
  - intros p Hp Hb.
    rewrite (save_videos_db_other _ _ _ _ _ _ H2 Hp).
    rewrite (create_backup_other _ _ Hb).
    rewrite (save_videos_db_other _ _ _ _ _ _ H1 Hp).
    now apply create_backup_other.
Qed.
End BackupFacts.

(** Saving the sample catalogue to an empty file system and loading it
    again, with the executable JSON routines. *)
Lemma save_then_load_witness :
  exists saved fs' loaded,
    save_videos_db Lib.json_dump "2024-01-04T09:00:00"
      sample_videos_db ∅ = Ok (JDict saved, fs')
    /\ load_videos_db Lib.json_load fs' = Ok (JDict loaded)
    /\ loaded = saved
    /\ dict_get "videos" loaded
       = Some (JList [ video_to_json (sample_video "a" (Some "2022-01-04"));
                       video_to_json (sample_video "f" None) ])
    /\ (forall k, k <> "channel_info" ->
          dict_get k loaded
          = dict_get k
              [ ("channel_info",
                 JDict [ ("channel_id", JStr "UC123");
                         ("channel_name", JStr "Adam The Woo");
                         ("channel_handle", JStr "@TheDailyWoo");
                         ("uploads_playlist_id", JStr "UU123");
                         ("total_videos", JInt 2);
                         ("last_updated", JStr "2024-01-03T09:00:00") ]);
                ("videos",
                 JList [ video_to_json (sample_video "a" (Some "2022-01-04"));
                         video_to_json (sample_video "f" None) ]) ])
    /\ exists channel_info',
         dict_get "channel_info" loaded = Some (JDict channel_info')
         /\ dict_get "last_updated" channel_info'
            = Some (JStr "2024-01-04T09:00:00")
         /\ forall k, k <> "last_updated" ->
              dict_get k channel_info'
              = dict_get k
                  [ ("channel_id", JStr "UC123");
                    ("channel_name", JStr "Adam The Woo");
                    ("channel_handle", JStr "@TheDailyWoo");
                    ("uploads_playlist_id", JStr "UU123");
                    ("total_videos", JInt 2);
                    ("last_updated", JStr "2024-01-03T09:00:00") ].
Proof.
  apply (save_then_load Lib.json_dump Lib.json_load ∅ "2024-01-04T09:00:00").
  - reflexivity.
  - intros doc [= <-]. vm_compute. reflexivity.
Defined.

(** Loading from the empty file system. *)
Lemma load_videos_db_no_file_witness :
  load_videos_db Lib.json_load ∅ = Ok empty_db
  /\ exists entries,
       empty_db = JDict entries
       /\ dict_get "videos" entries = Some (JList [])
       /\ dict_get "channel_info" entries
          = Some (JDict [ ("channel_id", JStr "");
                          ("channel_name", JStr "Adam The Woo");
                          ("channel_handle", JStr "@TheDailyWoo");
                          ("last_updated", JNull) ]).
Proof.
  apply (load_videos_db_no_file Lib.json_load ∅). reflexivity.
Defined.

(** Loading a database file whose text is no JSON document. *)
Lemma load_videos_db_corrupt_witness :
  (exists e', load_videos_db Lib.json_load sample_corrupt_fs = Raise e'
     /\ forall msg, JSONDecodeError "Expecting value" = JSONDecodeError msg ->
          e' = Exception ("Error parsing videos database: " ++ msg)%string)
  /\ (forall data, load_videos_db Lib.json_load sample_corrupt_fs <> Ok data)
  /\ load_videos_db Lib.json_load (delete db_path sample_corrupt_fs)
     = Ok empty_db.
Proof.
  apply (load_videos_db_corrupt Lib.json_load sample_corrupt_fs
           "{ this is not JSON" (JSONDecodeError "Expecting value")).
  - reflexivity.
  - vm_compute. reflexivity.
Defined.

(** C5, the claim as stated fails: [save_videos_db] on a file system
    with a prior snapshot overwrites the primary file and leaves no
    backup file, and a second save changes nothing about that. *)
Lemma save_videos_db_makes_no_backup :
  let saved1 := sample_stamped "2024-01-04T09:00:00" in
  let fs1 : filesystem :=
    <[db_path := Lib.json_dump saved1]> sample_prior_fs in
  let saved2 := sample_stamped "2024-01-05T09:00:00" in
  let fs2 : filesystem := <[db_path := Lib.json_dump saved2]> fs1 in
  sample_prior_fs !! db_path = Some "{}"
  /\ save_videos_db Lib.json_dump "2024-01-04T09:00:00" sample_videos_db
       sample_prior_fs = Ok (saved1, fs1)
  /\ fs1 !! db_path = Some (Lib.json_dump saved1)
  /\ fs1 !! backup_path = None
  /\ save_videos_db Lib.json_dump "2024-01-05T09:00:00" saved1 fs1
     = Ok (saved2, fs2)
  /\ fs2 !! db_path = Some (Lib.json_dump saved2)
  /\ fs2 !! backup_path = None.
Proof.
  cbv zeta. repeat (split; [reflexivity|]). reflexivity.
Qed.

(** Two ingestion runs on the sample catalogue. *)
Lemma backup_and_save_twice_witness :
  let saved1 := sample_stamped "2024-01-04T09:00:00" in
  let fs1 : filesystem :=
    <[db_path := Lib.json_dump saved1]>
      (create_backup db_path sample_prior_fs) in
  let saved2 := sample_stamped "2024-01-05T09:00:00" in
  let fs2 : filesystem :=
    <[db_path := Lib.json_dump saved2]> (create_backup db_path fs1) in
  fs1 !! db_path = Some (Lib.json_dump saved1)
  /\ (forall prior, sample_prior_fs !! db_path = Some prior ->
                    fs1 !! backup_path = Some prior)
  /\ fs2 !! db_path = Some (Lib.json_dump saved2)
  /\ fs2 !! backup_path = Some (Lib.json_dump saved1)
  /\ (forall p, p <> db_path -> p <> backup_path ->
                fs2 !! p = sample_prior_fs !! p).
Proof.
  cbv zeta.
  apply (backup_and_save_twice Lib.json_dump sample_prior_fs _ _
           "2024-01-04T09:00:00" "2024-01-05T09:00:00"
           sample_videos_db (sample_stamped "2024-01-04T09:00:00")
           (sample_stamped "2024-01-04T09:00:00")
           (sample_stamped "2024-01-05T09:00:00")); reflexivity.
Defined.

(** ** The matcher on the heap: what it writes *)

Lemma heap_append_fresh (h : heap) (ms : list nat) (r : nat) :
  heap_append (length h) r (h ++ [OList ms]) = Ok (h ++ [OList (ms ++ [r])]).
Proof.
  unfold heap_append.
  rewrite (list_lookup_middle h [] (OList ms) (length h) eq_refl).
  f_equal. rewrite <- (Nat.add_0_r (length h)) at 1.
  now rewrite insert_app_r.
Qed.

Lemma heap_sort_fresh (h : heap) (ms : list nat) :
  heap_sort (length h) (h ++ [OList ms])
  = Ok (h ++ [OList (list_sort (heap_sort_key (h ++ [OList ms])) ms)]).
Proof.
  unfold heap_sort.
  rewrite (list_lookup_middle h [] (OList ms) (length h) eq_refl).
  f_equal. rewrite <- (Nat.add_0_r (length h)) at 1.
  now rewrite insert_app_r.
Qed.

Lemma heap_sort_key_video (h : heap) (r : nat) :
  heap_sort_key h r = sort_key (heap_video h r).
Proof.
  unfold heap_sort_key, heap_video.
  now destruct (h !! r) as [[v| | |]|].
Qed.

Lemma heap_video_app (h : heap) (o : obj) (r : nat) (v : video) :
  h !! r = Some (OVideo v) -> heap_video (h ++ [o]) r = v.
Proof.
  intros H. unfold heap_video. now rewrite (lookup_app_l_Some _ _ _ _ H).
Qed.

Lemma list_sort_map {A B : Type} (key : B -> string) (f : A -> B)
    (l : list A) :
  map f (list_sort (fun a => key (f a)) l) = list_sort key (map f l).
Proof.
  assert (Hins : forall x l',
    map f (insert_by (fun a => key (f a)) x l')
    = insert_by key (f x) (map f l')).
  { intros x l'. induction l' as [|y l' IH]; cbn [insert_by map];
      [reflexivity|].
    destruct (String.ltb (key (f y)) (key (f x))); cbn [map];
      [now rewrite IH|reflexivity]. }
  induction l as [|x l IH]; cbn [list_sort map]; [reflexivity|].
  now rewrite Hins, IH.
Qed.

Lemma list_sort_ext {A : Type} (key key' : A -> string) (l : list A) :
  Forall (fun a => key a = key' a) l ->
  list_sort key l = list_sort key' l.
Proof.
  assert (Hperm : forall l', Forall (fun a => key a = key' a) l' ->
                             Forall (fun a => key a = key' a)
                               (list_sort key' l')).
  { intros l' H. rewrite List.Forall_forall in H |- *. intros a Ha.
    apply H. revert Ha. apply Permutation_in, list_sort_Permutation. }
  assert (Hins : forall x l', key x = key' x ->
    Forall (fun a => key a = key' a) l' ->
    insert_by key x l' = insert_by key' x l').
  { intros x l' Hx H. induction H as [|y l' Hy _ IH]; cbn [insert_by];
      [reflexivity|].
    rewrite Hx, Hy, IH. reflexivity. }
  induction 1 as [|x l Hx Hl IH]; cbn [list_sort]; [reflexivity|].
  rewrite IH. apply Hins; [exact Hx|]. now apply Hperm.
Qed.

Lemma read_videos_map (h : heap) (refs : list nat) (vs : list video) :
  read_videos h refs = Some vs <->
  Forall2 (fun r v => h !! r = Some (OVideo v)) refs vs.
Proof.
  revert vs. induction refs as [|r refs IH]; intros vs; cbn [read_videos].
  - split; [intros [= <-]; constructor|]. intros H. now inversion H.
  - destruct (h !! r) as [[v| | |]|] eqn:E;
      try (split; [discriminate|intros H; inversion H; congruence]).
    destruct (read_videos h refs) as [vs'|] eqn:E'.
    + split.
      * intros [= <-]. constructor; [exact E|]. now apply IH.
      * intros H. inversion H as [|? v' ? vs'' Hv Hrest]; subst.
        apply IH in Hrest. congruence.
    + split; [discriminate|].
      intros H. inversion H as [|? v' ? vs'' Hv Hrest]; subst.
      apply IH in Hrest. discriminate.
Qed.

Lemma read_videos_app (h : heap) (o : obj) (refs : list nat)
    (vs : list video) :
  read_videos h refs = Some vs -> read_videos (h ++ [o]) refs = Some vs.
Proof.
  rewrite !read_videos_map. induction 1; constructor; trivial.
  now apply lookup_app_l_Some.
Qed.

Section HeapFacts.
Variable fromisoformat : string -> result datetime.t.

(** Whatever the heap holds, a run of the loop that ends normally has
    changed nothing but the list under construction. *)
Lemma heap_matching_loop_shape (h : heap) (month day : Z) (l : nat)
    (fuel i : nat) (ms : list nat) (h1 : heap) :
  heap_matching_loop fromisoformat fuel month day l (length h) i
    (h ++ [OList ms]) = Some (Ok h1) ->
  exists ms', h1 = h ++ [OList ms'].
Proof.
  revert i ms.
  induction fuel as [|fuel IH]; intros i ms; cbn [heap_matching_loop];
    [discriminate|].
  destruct ((h ++ [OList ms]) !! l) as [[|refs| |]|]; try discriminate.
  destruct (refs !! i) as [r|]; [|intros [= <-]; now exists ms].
  destruct ((h ++ [OList ms]) !! r) as [[v| | |]|]; try discriminate.
  destruct (VideoRecord.recording_date v) as [s|]; [|apply IH].
  destruct (truthy s); [|apply IH].
  destruct (fromisoformat s) as [d|e].
  - destruct ((datetime.month d =? month) && (datetime.day d =? day));
      [|apply IH].
    rewrite heap_append_fresh. apply IH.
  - destruct (isinstance_ValueError e); [apply IH|discriminate].
Qed.

(** The frame of the call, for any heap and any argument: a call that
    returns has left every object of the heap as it was and returns a
    list object that did not exist before. *)
Lemma heap_get_videos_for_date_old_objects (h h' : heap)
    (videos_db m : nat) (month day : Z) :
  heap_get_videos_for_date fromisoformat h videos_db month day
  = Some (Ok (m, h')) ->
  m = length h /\ exists ms, h' = h ++ [OList ms].
Proof.
  unfold heap_get_videos_for_date.
  destruct ((h ++ [OList []]) !! videos_db) as [[| | |ci videos]|];
    try discriminate.
  assert (Hloop : exists ms,
    match videos with
    | Some l =>
        match (h ++ [OList []]) !! l with
        | Some (OList refs) =>
            heap_matching_loop fromisoformat (S (length refs)) month day l
              (length h) 0%nat (h ++ [OList []])
        | _ => Some (Raise TypeError)
        end
    | None => Some (Ok (h ++ [OList []]))
    end = Some (Ok (h ++ [OList ms]))
    \/ forall h1,
    match videos with
    | Some l =>
        match (h ++ [OList []]) !! l with
        | Some (OList refs) =>
            heap_matching_loop fromisoformat (S (length refs)) month day l
              (length h) 0%nat (h ++ [OList []])
        | _ => Some (Raise TypeError)
        end
    | None => Some (Ok (h ++ [OList []]))
    end <> Some (Ok h1)).
  { destruct videos as [l|]; [|exists []; now left].
    destruct ((h ++ [OList []]) !! l) as [[|refs| |]|];
      try (exists []; right; discriminate).
    destruct (heap_matching_loop fromisoformat (S (length refs)) month day l
                (length h) 0%nat (h ++ [OList []])) as [[h1|e]|] eqn:E;
      try (exists []; right; discriminate).
    apply heap_matching_loop_shape in E. destruct E as [ms ->].
    exists ms. now left. }
  destruct Hloop as [ms [-> | Hnone]].
  - rewrite heap_sort_fresh. intros [= <- <-]. split; [reflexivity|].
    now eexists.
  - match goal with
    | |- context [match ?x with _ => _ end] => destruct x as [[h1|e]|]
    end; try discriminate.
    now destruct (Hnone h1).
Qed.

Hypothesis fromisoformat_ValueError :
  forall s e, fromisoformat s = Raise e -> isinstance_ValueError e = true.
Hypothesis fromisoformat_empty : forall d, fromisoformat "" <> Ok d.

Lemma heap_matching_loop_filter (h : heap) (month day : Z) (l : nat)
    (refs : list nat) (vs : list video) :
  h !! l = Some (OList refs) ->
  Forall2 (fun r v => h !! r = Some (OVideo v)) refs vs ->
  forall (fuel i : nat) (ms : list nat),
    (length refs - i < fuel)%nat ->
    heap_matching_loop fromisoformat fuel month day l (length h) i
      (h ++ [OList ms])
    = Some (Ok (h ++ [OList
         (ms ++ List.filter
                  (fun r => recorded_on fromisoformat month day
                              (heap_video h r))
                  (drop i refs))])).
Proof.
  intros Hl Hrefs.
  induction fuel as [|fuel IH]; intros i ms Hfuel; [lia|].
  cbn [heap_matching_loop].
  rewrite (lookup_app_l_Some _ _ _ _ Hl).
  destruct (refs !! i) as [r|] eqn:Hi.
  2:{ apply lookup_ge_None_1 in Hi. rewrite (drop_ge _ _ Hi).
      cbn [List.filter]. now rewrite app_nil_r. }
  rewrite (drop_S _ _ _ Hi). cbn [List.filter].
  pose proof (lookup_lt_Some _ _ _ Hi) as Hlt.
  destruct (Forall2_lookup_l _ _ _ _ _ Hrefs Hi) as (v & _ & Hv).
  rewrite (lookup_app_l_Some _ _ _ _ Hv).
  unfold heap_video at 1. rewrite Hv. unfold recorded_on at 1.
  assert (Hnext : (length refs - S i < fuel)%nat) by lia.
  destruct (VideoRecord.recording_date v) as [s|]; [|now apply IH].
  destruct s as [|c s]; cbn [truthy].
  - destruct (fromisoformat "") as [d|e] eqn:E; [|now apply IH].
    now destruct (fromisoformat_empty d).
  - destruct (fromisoformat (String c s)) as [d|e] eqn:E.
    + destruct ((datetime.month d =? month) && (datetime.day d =? day)).
      * rewrite heap_append_fresh, (IH _ _ Hnext), <- app_assoc. reflexivity.
      * now apply IH.
    + rewrite (fromisoformat_ValueError _ _ E). now apply IH.
Qed.

Lemma filter_map_video (h : heap) (month day : Z) (refs : list nat)
    (vs : list video) :
  Forall2 (fun r v => h !! r = Some (OVideo v)) refs vs ->
  Forall2 (fun r v => h !! r = Some (OVideo v))
    (List.filter (fun r => recorded_on fromisoformat month day
                             (heap_video h r)) refs)
    (List.filter (recorded_on fromisoformat month day) vs).
Proof.
  induction 1 as [|r v refs vs Hv _ IH]; cbn [List.filter]; [constructor|].
  unfold heap_video at 1. rewrite Hv.
  destruct (recorded_on fromisoformat month day v); [constructor|]; trivial.
Qed.

Lemma Forall2_video_map (h : heap) (refs : list nat) (vs : list video) :
  Forall2 (fun r v => h !! r = Some (OVideo v)) refs vs ->
  vs = map (heap_video h) refs.
Proof.
  induction 1 as [|r v refs vs Hv _ IH]; cbn [map]; [reflexivity|].
  unfold heap_video at 1. now rewrite Hv, IH.
Qed.

Lemma Forall2_map_video (h : heap) (refs : list nat) :
  Forall (fun r => exists v, h !! r = Some (OVideo v)) refs ->
  Forall2 (fun r v => h !! r = Some (OVideo v)) refs
    (map (heap_video h) refs).
Proof.
  induction 1 as [|r rs [v Hv] _ IH]; cbn [map]; constructor; [|exact IH].
  unfold heap_video. now rewrite Hv.
Qed.

Lemma Forall2_video_valid (h : heap) (refs : list nat) (vs : list video) :
  Forall2 (fun r v => h !! r = Some (OVideo v)) refs vs ->
  Forall (fun r => exists v, h !! r = Some (OVideo v)) refs.
Proof. induction 1; constructor; eauto. Qed.

Lemma Forall2_video_sorted (h : heap) (o : obj) (refs : list nat)
    (vs : list video) :
  Forall2 (fun r v => h !! r = Some (OVideo v)) refs vs ->
  Forall2 (fun r v => h !! r = Some (OVideo v))
    (list_sort (heap_sort_key (h ++ [o])) refs) (list_sort sort_key vs).
Proof.
  intros H.
  pose proof (Forall2_video_valid _ _ _ H) as Hvalid.
  assert (Hkeys : list_sort (heap_sort_key (h ++ [o])) refs
                  = list_sort (fun r => sort_key (heap_video h r)) refs).
  { apply list_sort_ext. clear - Hvalid.
    induction Hvalid as [|r refs [v Hv] _ IH]; constructor; [|exact IH].
    rewrite heap_sort_key_video, (heap_video_app _ _ _ _ Hv).
    unfold heap_video. now rewrite Hv. }
  rewrite Hkeys, (Forall2_video_map _ _ _ H), <- list_sort_map.
  apply Forall2_map_video.
  rewrite List.Forall_forall in Hvalid |- *. intros r Hr.
  apply Hvalid. revert Hr. apply Permutation_in, list_sort_Permutation.
Qed.
(** C10: the matcher is a pure query.  Called on a heap that holds the
    catalogue, it returns a list object that did not exist before;
    every object that did exist (the catalogue dictionary, its channel
    record, its list of videos and each video dictionary) is as it was,
    so the catalogue reads exactly as before the call: the same
    channel information and the same videos in the same order.  The
    returned list holds what the value-level function computes. *)
Theorem heap_get_videos_for_date_frame (h : heap) (videos_db : nat)
    (cat : catalogue) (month day : Z) :
  read_catalogue h videos_db = Some cat ->
  exists m h' found,
    heap_get_videos_for_date fromisoformat h videos_db month day
    = Some (Ok (m, h'))
    /\ (forall a o, h !! a = Some o -> h' !! a = Some o)
    /\ read_catalogue h' videos_db = Some cat
    /\ h !! m = None
    /\ read_list h' m = Some found
    /\ get_videos_for_date fromisoformat cat month day = Ok found.
Proof.
  unfold read_catalogue.
  destruct (h !! videos_db) as [[| | |ci videos]|] eqn:Hdb; try discriminate.
  destruct (h !! ci) as [[| |name updated|]|] eqn:Hci; try discriminate.
  intros Hcat.
  assert (Hvs : exists refs,
    match videos with
    | Some l => h !! l = Some (OList refs)
    | None => refs = []
    end
    /\ Forall2 (fun r v => h !! r = Some (OVideo v)) refs
         (Catalogue.videos cat)
    /\ cat = Catalogue.make name updated (Catalogue.videos cat)).
  { destruct videos as [l|].
    - unfold read_list in Hcat.
      destruct (h !! l) as [[|refs| |]|] eqn:Hl; try discriminate.
      destruct (read_videos h refs) as [vs|] eqn:Hrefs; [|discriminate].
      injection Hcat as <-. exists refs. split; [reflexivity|].
      split; [|reflexivity]. now apply read_videos_map.
    - injection Hcat as <-. exists []. split; [reflexivity|].
      split; [constructor|reflexivity]. }
  destruct Hvs as (refs & Hl & Hrefs & Hcat').
  set (ms := List.filter
               (fun r => recorded_on fromisoformat month day (heap_video h r))
               refs).
  set (sorted := list_sort (heap_sort_key (h ++ [OList ms])) ms).
  set (found := list_sort sort_key
                  (List.filter (recorded_on fromisoformat month day)
                     (Catalogue.videos cat))).
  assert (Hfound : Forall2 (fun r v => h !! r = Some (OVideo v)) sorted found).
  { apply Forall2_video_sorted, filter_map_video, Hrefs. }
  exists (length h), (h ++ [OList sorted]), found.
  split; [|split; [|split; [|split; [|split]]]].
  - unfold heap_get_videos_for_date.
    rewrite (lookup_app_l_Some _ _ _ _ Hdb).
    destruct videos as [l|].
    + rewrite (lookup_app_l_Some _ _ _ _ Hl).
      rewrite (heap_matching_loop_filter h month day l refs
                 (Catalogue.videos cat) Hl Hrefs (S (length refs)) 0%nat [])
        by lia.
      cbn [drop app]. fold ms. now rewrite heap_sort_fresh.
    + subst refs. now rewrite heap_sort_fresh.
  - intros a o. apply lookup_app_l_Some.
  - rewrite (lookup_app_l_Some _ _ _ _ Hdb), (lookup_app_l_Some _ _ _ _ Hci).
    destruct videos as [l|].
    + unfold read_list. rewrite (lookup_app_l_Some _ _ _ _ Hl).
      apply read_videos_map in Hrefs.
      rewrite (read_videos_app _ _ _ _ Hrefs). now rewrite <- Hcat'.
    + subst refs. apply Forall2_nil_inv_l in Hrefs. rewrite Hcat'.
      now rewrite Hrefs.
  - now apply lookup_ge_None_2.
  - unfold read_list.
    rewrite (list_lookup_middle h [] (OList sorted) (length h) eq_refl).
    apply read_videos_app. now apply read_videos_map.
  - apply (get_videos_for_date_sorted_filter fromisoformat
             fromisoformat_ValueError fromisoformat_empty).
Qed.
End HeapFacts.

(** The query for 4 January on the sample heap: the answer is the new
    list at address 7, which refers to the videos at 2, 4 and 1, and
    the seven objects of the heap are untouched. *)
Lemma heap_get_videos_for_date_frame_witness :
  (exists m h' found,
     heap_get_videos_for_date Lib.fromisoformat sample_heap 6%nat 1 4
     = Some (Ok (m, h'))
     /\ (forall a o, sample_heap !! a = Some o -> h' !! a = Some o)
     /\ read_catalogue h' 6%nat = Some sample_heap_catalogue
     /\ sample_heap !! m = None
     /\ read_list h' m = Some found
     /\ get_videos_for_date Lib.fromisoformat sample_heap_catalogue 1 4
        = Ok found)
  /\ heap_get_videos_for_date Lib.fromisoformat sample_heap 6%nat 1 4
     = Some (Ok (7%nat, sample_heap ++ [OList [2; 4; 1]%nat])).
Proof.
  split.
  - apply (heap_get_videos_for_date_frame Lib.fromisoformat
             Lib_fromisoformat_ValueError Lib_fromisoformat_empty
             sample_heap 6%nat sample_heap_catalogue 1 4).
    reflexivity.
  - vm_compute. reflexivity.
Defined.

(** ** The executable JSON routines round-trip

    [Lib.json_load (Lib.json_dump v) = Ok v] for every document whose
    dictionaries have distinct keys. *)

Local Arguments String.append !_ _ / : simpl nomatch.
Local Open Scope string_scope.
Local Open Scope Z_scope.

Lemma parse_string_body_char (c : ascii) (tail : string) :
  Lib.parse_string_body (Lib.escape_char c ++ tail)
  = match Lib.parse_string_body tail with
    | Some (str, rest) => Some (String c str, rest)
    | None => None
    end.
Proof.
  destruct c as [[] [] [] [] [] [] [] []];
  match goal with
  | |- context [Lib.escape_char ?c] =>
      let e := eval vm_compute in (Lib.escape_char c) in
      change (Lib.escape_char c) with e
  end;
  cbn [String.append Lib.parse_string_body];
  try reflexivity.
  all: try (destruct (Lib.parse_string_body tail) as [[str rest]|]; reflexivity).
Qed.

Lemma append_assoc (a b c : string) : ((a ++ b) ++ c = a ++ (b ++ c))%string.
Proof. induction a as [|x a IH]; cbn [String.append]; [reflexivity|now rewrite IH]. Qed.

Lemma length_append (a b : string) :
  String.length (a ++ b) = (String.length a + String.length b)%nat.
Proof. induction a as [|x a IH]; simpl; [reflexivity|now rewrite IH]. Qed.

Lemma parse_string_body_escape (s rest : string) :
  Lib.parse_string_body (Lib.escape s ++ String Lib.dquote rest) = Some (s, rest).
Proof.
  induction s as [|c s IH]; cbn [Lib.escape].
  - reflexivity.
  - rewrite append_assoc, parse_string_body_char, IH. reflexivity.
Qed.

Lemma digits_value_uint_acc (d : Decimal.uint) (acc : positive) :
  Lib.digits_value (Zpos acc) (NilEmpty.string_of_uint d)
  = Some (Zpos (Pos.of_uint_acc d acc)).
Proof.
  revert acc. induction d; intros acc; cbn [NilEmpty.string_of_uint Lib.digits_value Pos.of_uint_acc];
    try reflexivity;
    match goal with
    | |- context [Lib.digit_of ?c] =>
        let e := eval vm_compute in (Lib.digit_of c) in
        change (Lib.digit_of c) with e
    end; cbv beta iota;
    match goal with
    | |- Lib.digits_value ?a _ = _ =>
        match type of (IHd) with _ => idtac end
    end.
  all: try (rewrite <- IHd; f_equal; lia).
Qed.

Lemma digits_value_uint (d : Decimal.uint) :
  Lib.digits_value 0 (NilEmpty.string_of_uint d)
  = Some (Z.of_N (Pos.of_uint d)).
Proof.
  induction d; cbn [NilEmpty.string_of_uint Lib.digits_value Pos.of_uint];
    try reflexivity;
    match goal with
    | |- context [Lib.digit_of ?c] =>
        let e := eval vm_compute in (Lib.digit_of c) in
        change (Lib.digit_of c) with e
    end; cbv beta iota.
  1: exact IHd.
  all: match goal with
       | |- Lib.digits_value ?a _ = _ =>
           let a' := eval vm_compute in a in change a with a'
       end; apply digits_value_uint_acc.
Qed.

Lemma span_digits_uint (d : Decimal.uint) (rest : string) :
  int_end rest = true ->
  Lib.span_digits (NilEmpty.string_of_uint d ++ rest)
  = (NilEmpty.string_of_uint d, rest).
Proof.
  intros Hrest.
  induction d; cbn [NilEmpty.string_of_uint String.append Lib.span_digits];
    try (match goal with
         | |- context [Lib.digit_of ?c] =>
             let e := eval vm_compute in (Lib.digit_of c) in
             change (Lib.digit_of c) with e
         end; cbv beta iota; now rewrite IHd).
  destruct rest as [|c rest]; [reflexivity|].
  cbn [Lib.span_digits]. cbn [int_end] in Hrest.
  now destruct (Lib.digit_of c).
Qed.

Lemma to_uint_head (p : positive) :
  exists c s, NilEmpty.string_of_uint (Pos.to_uint p) = String c s
    /\ c <> "-"%char /\ c <> "0"%char /\ c <> "034"%char
    /\ Lib.is_ws c = false.
Proof.
  pose proof (DecimalPos.Unsigned.to_of (Pos.to_uint p)) as Hnorm.
  rewrite DecimalPos.Unsigned.of_to in Hnorm. cbn [N.to_uint] in Hnorm.
  pose proof (DecimalPos.Unsigned.to_uint_nonnil p) as Hnil.
  pose proof (DecimalPos.Unsigned.to_uint_nonzero p) as Hzero.
  destruct (Pos.to_uint p) as [|d|d|d|d|d|d|d|d|d|d] eqn:E;
    try (cbn [NilEmpty.string_of_uint]; do 2 eexists;
         split; [reflexivity|]; repeat split; discriminate).
  - now destruct Hnil.
  - exfalso. unfold Decimal.unorm in Hnorm. cbn [Decimal.nzhead] in Hnorm.
    pose proof (DecimalFacts.nb_digits_nzhead d) as Hlen.
    destruct (Decimal.nzhead d) eqn:Hd;
      try (rewrite <- Hnorm in Hlen; cbn [Decimal.nb_digits] in Hlen; lia).
    injection Hnorm as Hd'. subst d. now destruct Hzero.
Qed.

Lemma parse_int_to_string (z : Z) (rest : string) :
  int_end rest = true ->
  Lib.parse_int (Lib.int_to_string z ++ rest) = Some (z, rest).
Proof.
  intros Hrest.
  assert (Hend : forall n : Z,
    match rest with
    | String "." _ | String "e" _ | String "E" _ => None
    | _ => Some (n, rest)
    end = Some (n, rest)).
  { intros n. destruct rest as [|c rest]; [reflexivity|].
    cbn [int_end] in Hrest.
    destruct (Lib.digit_of c); [discriminate|].
    destruct c as [[] [] [] [] [] [] [] []]; try reflexivity; discriminate. }
  assert (Hpos : forall p,
    (let '(ds, rest') :=
       match NilEmpty.string_of_uint (Pos.to_uint p) ++ rest with
       | String "0" s' => ("0", s')
       | _ => Lib.span_digits
                (NilEmpty.string_of_uint (Pos.to_uint p) ++ rest)
       end in
     (Lib.parse_digits ds, rest')) = (Some (Zpos p), rest)
    /\ forall s', NilEmpty.string_of_uint (Pos.to_uint p) ++ rest
                  <> String "-" s').
  { intros p.
    destruct (to_uint_head p) as (c & s & Hs & Hminus & Hzero & _).
    pose proof (span_digits_uint (Pos.to_uint p) rest Hrest) as Hspan.
    pose proof (digits_value_uint (Pos.to_uint p)) as Hval.
    rewrite DecimalPos.Unsigned.of_to in Hval.
    rewrite Hs in *. cbn [String.append] in *. split.
    - destruct c as [[] [] [] [] [] [] [] []];
        try (now destruct Hzero);
        rewrite Hspan; unfold Lib.parse_digits; cbn [truthy];
        now rewrite Hval.
    - intros s' [= -> _]. now destruct Hminus. }
  unfold Lib.int_to_string, Lib.parse_int.
  destruct z as [|p|p]; cbn [Z.to_int NilZero.string_of_int].
  - cbn. apply Hend.
  - unfold NilZero.string_of_uint.
    destruct (Hpos p) as [Hp Hminus].
    destruct (Pos.to_uint p) eqn:E;
      [now destruct (DecimalPos.Unsigned.to_uint_nonnil p)|..].
    all: destruct (NilEmpty.string_of_uint _ ++ rest) as [|c s] eqn:Es;
      [discriminate|];
      destruct (Ascii.eqb_spec c "-"%char) as [->|Hc];
      [now destruct (Hminus s)|];
      match goal with
      | |- (let '(neg, s1) := ?m in _) = _ =>
          replace m with (false, String c s)
            by (destruct c as [[] [] [] [] [] [] [] []];
                try reflexivity; now destruct Hc)
      end;
      cbv beta iota;
      match type of Hp with
      | (let '(ds, rest') := ?m in _) = _ =>
          destruct m as [ds rest']
      end;
      injection Hp as -> ->; apply Hend.
  - unfold NilZero.string_of_uint.
    destruct (Hpos p) as [Hp _].
    destruct (Pos.to_uint p) eqn:E;
      [now destruct (DecimalPos.Unsigned.to_uint_nonnil p)|..].
    all: cbn [String.append]; cbv beta iota;
      match type of Hp with
      | (let '(ds, rest') := ?m in _) = _ =>
          destruct m as [ds rest']
      end;
      injection Hp as -> ->; apply Hend.
Qed.

(** Whitespace *)
Lemma skip_ws_idem (s : string) : Lib.skip_ws (Lib.skip_ws s) = Lib.skip_ws s.
Proof.
  induction s as [|c s IH]; cbn [Lib.skip_ws]; [reflexivity|].
  destruct (Lib.is_ws c) eqn:E; [exact IH|].
  cbn [Lib.skip_ws]. now rewrite E.
Qed.

Lemma skip_ws_indent (n : nat) (s : string) :
  Lib.skip_ws (Lib.indent n ++ s) = Lib.skip_ws s.
Proof.
  induction n as [|n IH]; cbn [Lib.indent String.append]; [reflexivity|].
  cbn [String.append Lib.skip_ws]. exact IH.
Qed.

Lemma skip_ws_newline_indent (n : nat) (s : string) :
  Lib.skip_ws (Lib.newline ++ Lib.indent n ++ s) = Lib.skip_ws s.
Proof. cbn [Lib.newline String.append Lib.skip_ws]. apply skip_ws_indent. Qed.

Lemma parse_value_skip_ws (fuel : nat) (s : string) :
  Lib.parse_value fuel (Lib.skip_ws s) = Lib.parse_value fuel s.
Proof. destruct fuel; cbn [Lib.parse_value]; [reflexivity|]. now rewrite skip_ws_idem. Qed.

Lemma parse_elements_skip_ws (fuel : nat) (s : string) :
  Lib.parse_elements fuel (Lib.skip_ws s) = Lib.parse_elements fuel s.
Proof. destruct fuel; cbn [Lib.parse_elements]; [reflexivity|]. now rewrite parse_value_skip_ws. Qed.

Lemma parse_members_skip_ws (fuel : nat) (s : string) :
  Lib.parse_members fuel (Lib.skip_ws s) = Lib.parse_members fuel s.
Proof. destruct fuel; cbn [Lib.parse_members]; [reflexivity|]. now rewrite skip_ws_idem. Qed.

Lemma int_start_spec (c : ascii) :
  int_start c = true ->
  Lib.is_ws c = false /\ Ascii.eqb c Lib.dquote = false
  /\ Ascii.eqb c "[" = false /\ Ascii.eqb c "{" = false
  /\ Ascii.eqb c "n" || Ascii.eqb c "t" || Ascii.eqb c "f" = false.
Proof.
  destruct c as [[] [] [] [] [] [] [] []]; vm_compute; intros H;
    try discriminate H; repeat split.
Qed.

Lemma value_start_spec (c : ascii) :
  value_start c = true ->
  Lib.is_ws c = false /\ Ascii.eqb c "]" = false /\ Ascii.eqb c "}" = false.
Proof.
  destruct c as [[] [] [] [] [] [] [] []]; vm_compute; intros H;
    try discriminate H; repeat split.
Qed.

Lemma int_to_string_head (z : Z) :
  exists c s, Lib.int_to_string z = String c s /\ int_start c = true.
Proof.
  unfold Lib.int_to_string.
  destruct z as [|p|p]; cbn [Z.to_int NilZero.string_of_int].
  - now exists "0"%char, EmptyString.
  - unfold NilZero.string_of_uint.
    pose proof (DecimalPos.Unsigned.to_uint_nonnil p) as Hnil.
    destruct (Pos.to_uint p); [now destruct Hnil|..];
      cbn [NilEmpty.string_of_uint]; do 2 eexists; split; reflexivity.
  - do 2 eexists; split; reflexivity.
Qed.

Lemma json_dump_at_head (v : json) (level : nat) :
  exists c s, Lib.json_dump_at level v = String c s /\ value_start c = true.
Proof.
  destruct v as [|[]|z|s|[|x items]|[|kv entries]];
    try (cbn; do 2 eexists; split; reflexivity).
  cbn [Lib.json_dump_at].
  destruct (int_to_string_head z) as (c & s & -> & Hc).
  exists c, s. split; [reflexivity|]. unfold value_start. now rewrite Hc.
Qed.

Lemma skip_ws_start (c : ascii) (s : string) :
  Lib.is_ws c = false -> Lib.skip_ws (String c s) = String c s.
Proof. intros H. cbn [Lib.skip_ws]. now rewrite H. Qed.

Lemma append_nil_r (s : string) : (s ++ "")%string = s.
Proof. induction s as [|c s IH]; cbn [String.append]; [reflexivity|now rewrite IH]. Qed.

Lemma dict_get_distinct (k : string) (d : list (string * json)) :
  existsb (String.eqb k) (map fst d) = false -> dict_get k d = None.
Proof.
  induction d as [|[k' v] d IH]; cbn [map fst existsb dict_get]; [reflexivity|].
  rewrite orb_false_iff. intros [-> H]. now apply IH.
Qed.

Lemma parse_elements_newline_indent (fuel n : nat) (s : string) :
  Lib.parse_elements fuel (Lib.newline ++ Lib.indent n ++ s)
  = Lib.parse_elements fuel s.
Proof.
  now rewrite <- parse_elements_skip_ws, skip_ws_newline_indent,
    parse_elements_skip_ws.
Qed.

Lemma parse_members_newline_indent (fuel n : nat) (s : string) :
  Lib.parse_members fuel (Lib.newline ++ Lib.indent n ++ s)
  = Lib.parse_members fuel s.
Proof.
  now rewrite <- parse_members_skip_ws, skip_ws_newline_indent,
    parse_members_skip_ws.
Qed.

Lemma join_cons (sep a : string) (l : list string) :
  l <> [] -> Lib.join sep (a :: l) = (a ++ sep ++ Lib.join sep l)%string.
Proof. destruct l; [congruence|reflexivity]. Qed.

Lemma char_append (c : ascii) (s : string) :
  (String c "" ++ s)%string = String c s.
Proof. reflexivity. Qed.

Lemma map_nonempty {A B : Type} (f : A -> B) (l : list A) :
  l <> [] -> map f l <> [].
Proof. destruct l; [congruence|discriminate]. Qed.

Lemma elements_roundtrip (level : nat) (items : list json) :
  Forall roundtrips items -> items <> [] ->
  forall fuel rest,
    (list_sum (map (fun x => S (jsize x)) items) <= fuel)%nat ->
    forallb unique_keys items = true ->
    Lib.parse_elements fuel
      (Lib.join ("," ++ Lib.newline ++ Lib.indent (S level))
         (map (Lib.json_dump_at (S level)) items)
       ++ Lib.newline ++ Lib.indent level ++ String "]" rest)
    = Some (items, rest).
Proof.
  induction 1 as [|x items Hx Hitems IH]; [congruence|].
  intros _ fuel rest Hfuel Hwf.
  cbn [map forallb] in Hfuel, Hwf.
  change (list_sum (?a :: ?l)) with (a + list_sum l)%nat in Hfuel.
  apply andb_true_iff in Hwf. destruct Hwf as [Hwx Hwitems].
  destruct fuel as [|fuel]; [lia|]. cbn [Lib.parse_elements map].
  destruct (list_eq_nil_dec items) as [->|Hmore].
  - cbn [map Lib.join].
    rewrite (Hx (S level) fuel); [|lia|assumption|reflexivity].
    rewrite skip_ws_newline_indent. reflexivity.
  - specialize (IH Hmore fuel rest ltac:(lia) Hwitems).
    rewrite join_cons by now apply map_nonempty.
    rewrite !append_assoc, char_append.
    rewrite (Hx (S level) fuel); [|lia|assumption|reflexivity].
    rewrite skip_ws_start by reflexivity.
    change (Ascii.eqb "," ",") with true. cbv iota.
    rewrite parse_elements_newline_indent, IH. reflexivity.
Qed.

Lemma entry_append (k d r : string) :
  ((Lib.quote k ++ ": " ++ d) ++ r)%string
  = String Lib.dquote
      (Lib.escape k ++ String Lib.dquote (String ":" (String " " (d ++ r)))).
Proof.
  unfold Lib.quote. cbn [String.append]. now rewrite !append_assoc.
Qed.

Lemma parse_value_space (fuel : nat) (s : string) :
  Lib.parse_value fuel (String " " s) = Lib.parse_value fuel s.
Proof.
  rewrite <- parse_value_skip_ws. cbn [Lib.skip_ws].
  change (Lib.is_ws " ") with true. cbv iota. apply parse_value_skip_ws.
Qed.

Lemma members_roundtrip (level : nat) (entries : list (string * json)) :
  Forall (fun kv => roundtrips (snd kv)) entries -> entries <> [] ->
  forall fuel rest,
    (list_sum (map (fun kv => let '(_, x) := kv in S (jsize x)) entries)
     <= fuel)%nat ->
    distinct (map fst entries) = true ->
    forallb (fun kv => let '(_, x) := kv in unique_keys x) entries = true ->
    Lib.parse_members fuel
      (Lib.join ("," ++ Lib.newline ++ Lib.indent (S level))
         (map (fun kv => let '(k, x) := kv in
                 Lib.quote k ++ ": " ++ Lib.json_dump_at (S level) x)
            entries)
       ++ Lib.newline ++ Lib.indent level ++ String "}" rest)
    = Some (entries, rest).
Proof.
  induction 1 as [|[k x] entries Hx Hentries IH]; [congruence|].
  intros _ fuel rest Hfuel Hkeys Hwf.
  cbn [map forallb fst snd distinct] in Hfuel, Hkeys, Hwf, Hx.
  change (list_sum (?a :: ?l)) with (a + list_sum l)%nat in Hfuel.
  apply andb_true_iff in Hwf. destruct Hwf as [Hwx Hwentries].
  apply andb_true_iff in Hkeys. destruct Hkeys as [Hk Hkeys].
  apply negb_true_iff in Hk.
  destruct fuel as [|fuel]; [lia|]. cbn [Lib.parse_members map].
  destruct (list_eq_nil_dec entries) as [->|Hmore].
  - cbn [map Lib.join]. rewrite entry_append.
    rewrite skip_ws_start by reflexivity.
    change (Ascii.eqb Lib.dquote Lib.dquote) with true. cbv iota.
    rewrite parse_string_body_escape.
    rewrite skip_ws_start by reflexivity.
    change (Ascii.eqb ":" ":") with true. cbv iota.
    rewrite parse_value_space.
    rewrite (Hx (S level) fuel); [|lia|assumption|reflexivity].
    rewrite skip_ws_newline_indent. reflexivity.
  - specialize (IH Hmore fuel rest ltac:(lia) Hkeys Hwentries).
    rewrite join_cons by now apply map_nonempty.
    rewrite append_assoc, entry_append, !append_assoc, char_append.
    rewrite skip_ws_start by reflexivity.
    change (Ascii.eqb Lib.dquote Lib.dquote) with true. cbv iota.
    rewrite parse_string_body_escape.
    rewrite skip_ws_start by reflexivity.
    change (Ascii.eqb ":" ":") with true. cbv iota.
    rewrite parse_value_space.
    rewrite (Hx (S level) fuel); [|lia|assumption|reflexivity].
    rewrite skip_ws_start by reflexivity.
    change (Ascii.eqb "," ",") with true. cbv iota.
    rewrite parse_members_newline_indent, IH.
    unfold Lib.dict_cons. now rewrite (dict_get_distinct _ _ Hk).
Qed.

Lemma json_roundtrips (v : json) : roundtrips v.
Proof.
  induction v as [|b|z|s|items IH|entries IH] using json_nested_ind;
    intros level fuel rest Hfuel Hwf Hrest;
    (destruct fuel as [|fuel]; [cbn [jsize] in Hfuel; lia|]).
  - reflexivity.
  - destruct b; reflexivity.
  - cbn [Lib.json_dump_at Lib.parse_value].
    destruct (int_to_string_head z) as (c & s & Hs & Hc).
    pose proof (parse_int_to_string z rest Hrest) as Hparse.
    rewrite Hs in *. cbn [String.append] in *.
    destruct (int_start_spec c Hc) as (Hws & Hq & Hl & Hd & Hlit).
    rewrite skip_ws_start by assumption.
    now rewrite Hq, Hl, Hd, Hlit, Hparse.
  - cbn [Lib.json_dump_at Lib.parse_value]. unfold Lib.quote.
    cbn [String.append]. rewrite skip_ws_start by reflexivity.
    change (Ascii.eqb Lib.dquote Lib.dquote) with true. cbv iota.
    rewrite append_assoc. cbn [String.append].
    now rewrite parse_string_body_escape.
  - destruct (list_eq_nil_dec items) as [->|Hmore]; [reflexivity|].
    cbn [jsize] in Hfuel. cbn [unique_keys] in Hwf.
    pose proof (elements_roundtrip level items IH Hmore fuel rest
                  ltac:(lia) Hwf) as Hitems.
    destruct items as [|x items]; [congruence|].
    destruct (json_dump_at_head x (S level)) as (c & s & Hs & Hc).
    destruct (value_start_spec c Hc) as (Hws & Hclose & _).
    remember (x :: items) as all eqn:Hall.
    assert (Hdump : Lib.json_dump_at level (JList all)
      = ("[" ++ Lib.newline ++ Lib.indent (S level)
         ++ Lib.join ("," ++ Lib.newline ++ Lib.indent (S level))
              (map (Lib.json_dump_at (S level)) all)
         ++ Lib.newline ++ Lib.indent level ++ "]")%string).
    { subst all. reflexivity. }
    rewrite Hdump. clear Hdump.
    assert (Hjoin : exists s',
      Lib.join ("," ++ Lib.newline ++ Lib.indent (S level))
        (map (Lib.json_dump_at (S level)) all) = String c s').
    { subst all. cbn [map]. destruct items as [|y items].
      - exists s. exact Hs.
      - rewrite join_cons by discriminate. rewrite Hs. now eexists. }
    destruct Hjoin as [s' Hjoin].
    rewrite !append_assoc, char_append. cbn [Lib.parse_value].
    rewrite skip_ws_start by reflexivity.
    change (Ascii.eqb "[" Lib.dquote) with false.
    change (Ascii.eqb "[" "[") with true. cbv iota.
    rewrite skip_ws_newline_indent.
    rewrite Hjoin at 1. cbn [String.append].
    rewrite skip_ws_start by assumption. rewrite Hclose.
    rewrite parse_elements_newline_indent.
    rewrite char_append in Hitems. now rewrite Hitems.
  - destruct (list_eq_nil_dec entries) as [->|Hmore]; [reflexivity|].
    cbn [jsize] in Hfuel. cbn [unique_keys] in Hwf.
    apply andb_true_iff in Hwf. destruct Hwf as [Hkeys Hwf].
    pose proof (members_roundtrip level entries IH Hmore fuel rest
                  ltac:(lia) Hkeys Hwf) as Hentries.
    remember (fun kv : string * json => let '(k, x) := kv in
                (Lib.quote k ++ ": " ++ Lib.json_dump_at (S level) x)%string)
      as entry eqn:Hentry.
    assert (Hdump : Lib.json_dump_at level (JDict entries)
      = ("{" ++ Lib.newline ++ Lib.indent (S level)
         ++ Lib.join ("," ++ Lib.newline ++ Lib.indent (S level))
              (map entry entries)
         ++ Lib.newline ++ Lib.indent level ++ "}")%string).
    { subst entry. destruct entries; [congruence|reflexivity]. }
    rewrite Hdump. clear Hdump.
    assert (Hjoin : exists s',
      Lib.join ("," ++ Lib.newline ++ Lib.indent (S level))
        (map entry entries) = String Lib.dquote s').
    { destruct entries as [|[k x] entries]; [congruence|]. cbn [map].
      destruct entries as [|kv entries].
      - subst entry. unfold Lib.quote. cbn [Lib.join String.append].
        now eexists.
      - rewrite join_cons by discriminate. subst entry. unfold Lib.quote.
        cbn [String.append]. now eexists. }
    destruct Hjoin as [s' Hjoin].
    rewrite !append_assoc, char_append. cbn [Lib.parse_value].
    rewrite skip_ws_start by reflexivity.
    change (Ascii.eqb "{" Lib.dquote) with false.
    change (Ascii.eqb "{" "[") with false.
    change (Ascii.eqb "{" "{") with true. cbv iota.
    rewrite skip_ws_newline_indent.
    rewrite Hjoin at 1. cbn [String.append].
    rewrite skip_ws_start by reflexivity.
    change (Ascii.eqb Lib.dquote "}") with false. cbv iota.
    rewrite parse_members_newline_indent.
    rewrite char_append in Hentries. now rewrite Hentries.
Qed.

Lemma join_length (sep : string) (parts : list string) (sizes : list nat) :
  (1 <= String.length sep)%nat ->
  Forall2 (fun n p => (n <= String.length p)%nat) sizes parts ->
  (list_sum (map S sizes) <= String.length (Lib.join sep parts) + 1)%nat.
Proof.
  intros Hsep. induction 1 as [|n p sizes parts Hp Hrest IH]; [cbn; lia|].
  cbn [map]. change (list_sum (?a :: ?l)) with (a + list_sum l)%nat.
  destruct Hrest as [|n' p' sizes parts Hp' Hrest].
  - cbn [Lib.join map list_sum fold_right]. cbn. lia.
  - rewrite join_cons by discriminate. rewrite !length_append. lia.
Qed.

Lemma jsize_le_length (v : json) (level : nat) :
  (jsize v <= String.length (Lib.json_dump_at level v))%nat.
Proof.
  revert level.
  induction v as [|b|z|s|items IH|entries IH] using json_nested_ind;
    intros level.
  - cbn. lia.
  - destruct b; cbn; lia.
  - cbn [jsize Lib.json_dump_at].
    destruct (int_to_string_head z) as (c & s & -> & _). cbn. lia.
  - cbn [jsize Lib.json_dump_at]. unfold Lib.quote. cbn. lia.
  - destruct (list_eq_nil_dec items) as [->|Hmore]; [cbn; lia|].
    assert (Hdump : Lib.json_dump_at level (JList items)
      = ("[" ++ Lib.newline ++ Lib.indent (S level)
         ++ Lib.join ("," ++ Lib.newline ++ Lib.indent (S level))
              (map (Lib.json_dump_at (S level)) items)
         ++ Lib.newline ++ Lib.indent level ++ "]")%string).
    { destruct items; [congruence|reflexivity]. }
    rewrite Hdump, !length_append. cbn [jsize].
    pose proof (join_length ("," ++ Lib.newline ++ Lib.indent (S level))
                  (map (Lib.json_dump_at (S level)) items)
                  (map jsize items)) as Hjoin.
    rewrite map_map in Hjoin.
    cbn [String.length Lib.newline] in *.
    enough (list_sum (map (fun x => S (jsize x)) items)
            <= String.length
                 (Lib.join ("," ++ Lib.newline ++ Lib.indent (S level))
                    (map (Lib.json_dump_at (S level)) items)) + 1)%nat by lia.
    apply Hjoin; [rewrite !length_append; cbn; lia|].
    clear - IH. induction IH; cbn [map]; constructor; auto.
  - destruct (list_eq_nil_dec entries) as [->|Hmore]; [cbn; lia|].
    remember (fun kv : string * json => let '(k, x) := kv in
                (Lib.quote k ++ ": " ++ Lib.json_dump_at (S level) x)%string)
      as entry eqn:Hentry.
    assert (Hdump : Lib.json_dump_at level (JDict entries)
      = ("{" ++ Lib.newline ++ Lib.indent (S level)
         ++ Lib.join ("," ++ Lib.newline ++ Lib.indent (S level))
              (map entry entries)
         ++ Lib.newline ++ Lib.indent level ++ "}")%string).
    { subst entry. destruct entries; [congruence|reflexivity]. }
    rewrite Hdump, !length_append. cbn [jsize].
    pose proof (join_length ("," ++ Lib.newline ++ Lib.indent (S level))
                  (map entry entries)
                  (map (fun kv => jsize (snd kv)) entries)) as Hjoin.
    rewrite map_map in Hjoin.
    cbn [String.length Lib.newline] in *.
    assert (Hsame :
      map (fun kv : string * json => let '(_, x) := kv in S (jsize x)) entries
      = map (fun kv => S (jsize (snd kv))) entries).
    { apply map_ext. now intros [k x]. }
    rewrite Hsame.
    enough (list_sum (map (fun kv => S (jsize (snd kv))) entries)
            <= String.length
                 (Lib.join ("," ++ Lib.newline ++ Lib.indent (S level))
                    (map entry entries)) + 1)%nat by lia.
    apply Hjoin; [rewrite !length_append; cbn; lia|].
    subst entry. clear - IH.
    induction IH as [|[k x] entries Hx _ IH']; cbn [map snd]; constructor; auto.
    rewrite !length_append. specialize (Hx (S level)). cbn [snd] in Hx. lia.
Qed.

Theorem Lib_json_roundtrip (v : json) :
  unique_keys v = true -> Lib.json_load (Lib.json_dump v) = Ok v.
Proof.
  intros Hwf. unfold Lib.json_load, Lib.json_dump.
  pose proof (json_roundtrips v 0%nat
                (2 * String.length (Lib.json_dump_at 0 v) + 2)%nat ""
                ltac:(pose proof (jsize_le_length v 0); lia) Hwf eq_refl) as H.
  rewrite append_nil_r in H. now rewrite H.
Qed.

(** *** Saving and loading with the executable JSON routines *)

Local Open Scope list_scope.

Lemma existsb_keys_dict_set (k k' : string) (v : json)
    (d : list (string * json)) :
  existsb (String.eqb k) (map fst (dict_set k' v d))
  = existsb (String.eqb k) (map fst d) || String.eqb k k'.
Proof.
  induction d as [|[k'' v''] d IH]; cbn [dict_set map fst existsb].
  - now rewrite orb_false_r.
  - destruct (String.eqb_spec k' k'') as [->|Hne]; cbn [map fst existsb].
    + now destruct (String.eqb k k''), (existsb (String.eqb k) (map fst d)).
    + rewrite IH.
      now destruct (String.eqb k k''), (existsb (String.eqb k) (map fst d)).
Qed.

Lemma distinct_dict_set (k : string) (v : json) (d : list (string * json)) :
  distinct (map fst d) = true -> distinct (map fst (dict_set k v d)) = true.
Proof.
  induction d as [|[k' v'] d IH]; cbn [dict_set map fst distinct];
    [reflexivity|].
  rewrite andb_true_iff. intros [Hk Hd].
  destruct (String.eqb_spec k k') as [->|Hne]; cbn [map fst distinct].
  - now rewrite Hk, Hd.
  - rewrite existsb_keys_dict_set, (IH Hd).
    apply not_eq_sym in Hne. apply String.eqb_neq in Hne.
    rewrite Hne, orb_false_r. now rewrite Hk.
Qed.

Lemma forallb_dict_set (k : string) (v : json) (d : list (string * json)) :
  unique_keys v = true ->
  forallb (fun kv => let '(_, x) := kv in unique_keys x) d = true ->
  forallb (fun kv => let '(_, x) := kv in unique_keys x) (dict_set k v d)
  = true.
Proof.
  intros Hv.
  induction d as [|[k' v'] d IH]; cbn [dict_set forallb].
  - now rewrite Hv.
  - rewrite andb_true_iff. intros [Hv' Hd].
    destruct (String.eqb k k'); cbn [forallb].
    + now rewrite Hv, Hd.
    + now rewrite Hv', (IH Hd).
Qed.

Lemma forallb_dict_get (k : string) (v : json) (d : list (string * json)) :
  forallb (fun kv => let '(_, x) := kv in unique_keys x) d = true ->
  dict_get k d = Some v -> unique_keys v = true.
Proof.
  induction d as [|[k' v'] d IH]; cbn [dict_get forallb]; [discriminate|].
  rewrite andb_true_iff. intros [Hv' Hd].
  destruct (String.eqb k k'); [now intros [= <-]|now apply IH].
Qed.

Lemma set_last_updated_unique_keys (now : string) (data data' : json) :
  unique_keys data = true ->
  set_last_updated now data = Ok data' ->
  unique_keys data' = true.
Proof.
  intros Hwf Hset. apply set_last_updated_inv in Hset.
  destruct Hset as (entries & ci & -> & Hci & ->).
  cbn [unique_keys] in Hwf |- *. apply andb_true_iff in Hwf.
  destruct Hwf as [Hkeys Hall].
  pose proof (forallb_dict_get _ _ _ Hall Hci) as Hwci.
  cbn [unique_keys] in Hwci. apply andb_true_iff in Hwci.
  destruct Hwci as [Hcikeys Hciall].
  rewrite distinct_dict_set by assumption.
  apply forallb_dict_set; [|assumption].
  cbn [unique_keys]. rewrite distinct_dict_set by assumption.
  now apply forallb_dict_set.
Qed.

(** With the executable JSON routines nothing is assumed: every
    catalogue dictionary is saved, and loads back as the dictionary
    that was saved, with the same [videos] entry. *)
Theorem save_then_load_executable (fs : filesystem) (now : string)
    (entries channel_info : list (string * json)) :
  dict_get "channel_info" entries = Some (JDict channel_info) ->
  unique_keys (JDict entries) = true ->
  exists saved fs',
    save_videos_db Lib.json_dump now (JDict entries) fs
    = Ok (JDict saved, fs')
    /\ load_videos_db Lib.json_load fs' = Ok (JDict saved)
    /\ dict_get "videos" saved = dict_get "videos" entries.
Proof.
  intros Hci Hwf.
  destruct (save_load_same_path Lib.json_dump Lib.json_load fs now entries
              channel_info Hci) as (saved & fs' & loaded & Hsave & Hload
                                      & -> & Hvideos & _).
  - intros doc Hdoc. apply Lib_json_roundtrip.
    now apply (set_last_updated_unique_keys now (JDict entries)).
  - now exists saved, fs'.
Qed.

Lemma video_to_json_unique_keys (v : video) :
  unique_keys (video_to_json v) = true.
Proof. now destruct (VideoRecord.recording_date v) eqn:E; cbn; rewrite ?E. Qed.

Lemma video_to_json_inj (v w : video) :
  video_to_json v = video_to_json w -> v = w.
Proof.
  destruct v as [a b c d e f g], w as [a' b' c' d' e' f' g'].
  unfold video_to_json. cbn.
  destruct e, e'; intros H; injection H; intros; subst; try reflexivity;
    discriminate.
Qed.

Lemma map_injective {A B : Type} (f : A -> B) :
  (forall a b, f a = f b -> a = b) ->
  forall l l', map f l = map f l' -> l = l'.
Proof.
  intros Hf. induction l as [|a l IH]; intros [|b l']; cbn [map];
    try discriminate; [reflexivity|].
  intros [= Ha Hl]. now rewrite (Hf _ _ Ha), (IH _ Hl).
Qed.

(** X1: the ingestion run end to end, with the executable JSON
    routines: after [main] has stored the fetched videos, loading the
    database returns these videos, record for record, in the same
    order. *)
Theorem main_store_then_load (channel_id channel_title channel_handle
    uploads_playlist_id now_main now : string) (videos : list video)
    (fs : filesystem) :
  exists saved fs',
    main_store Lib.json_dump channel_id channel_title channel_handle
      uploads_playlist_id now_main now videos fs = Ok (JDict saved, fs')
    /\ load_videos_db Lib.json_load fs' = Ok (JDict saved)
    /\ dict_get "videos" saved = Some (JList (map video_to_json videos))
    /\ forall loaded_videos,
         dict_get "videos" saved
         = Some (JList (map video_to_json loaded_videos)) ->
         loaded_videos = videos.
Proof.
  unfold main_store.
  match goal with
  | |- context [save_videos_db _ _ (JDict ?e) ?f] =>
      destruct (save_then_load_executable f now e
                  [ ("channel_id", JStr channel_id);
                    ("channel_name", JStr channel_title);
                    ("channel_handle", JStr channel_handle);
                    ("uploads_playlist_id", JStr uploads_playlist_id);
                    ("total_videos", JInt (Z.of_nat (length videos)));
                    ("last_updated", JStr now_main) ] eq_refl)
        as (saved & fs' & Hsave & Hload & Hvideos)
  end.
  - cbn [unique_keys map fst distinct forallb existsb]. cbn.
    clear. induction videos as [|v videos IH]; cbn [map forallb];
      [reflexivity|].
    now rewrite video_to_json_unique_keys.
  - exists saved, fs'. split; [exact Hsave|]. split; [exact Hload|].
    split; [exact Hvideos|].
    rewrite Hvideos. intros loaded [= H].
    symmetry. revert H. apply map_injective, video_to_json_inj.
Qed.

(** ** The video list of the Reddit post *)
Section RedditListFacts.
Variable fromisoformat : string -> result datetime.t.
Variable format_value : json -> string.

Lemma format_lines_app (videos : list json) (lines : list string) :
  format_lines fromisoformat format_value videos lines
  = let* more := format_lines fromisoformat format_value videos [] in
    Ok (lines ++ more).
Proof.
  revert lines.
  induction videos as [|video rest IH]; intros lines; cbn [format_lines bind].
  - now rewrite app_nil_r.
  - destruct (format_video fromisoformat format_value video) as [line|e];
      cbn [bind]; [|reflexivity].
    rewrite (IH (lines ++ [line])), (IH ([] ++ [line])).
    destruct (format_lines fromisoformat format_value rest []) as [more|e];
      cbn [bind]; [|reflexivity].
    now rewrite <- app_assoc.
Qed.

Lemma format_lines_cons (video : json) (rest : list json) :
  format_lines fromisoformat format_value (video :: rest) []
  = let* line := format_video fromisoformat format_value video in
    let* more := format_lines fromisoformat format_value rest [] in
    Ok (line :: more).
Proof.
  cbn [format_lines].
  destruct (format_video fromisoformat format_value video) as [line|e];
    cbn [bind]; [|reflexivity].
  now rewrite format_lines_app.
Qed.

(** A video before which every video has its line, and whose own
    recording date is a text [fromisoformat] rejects, ends the loop
    with the exception of [fromisoformat]. *)
Lemma format_lines_raises (before after : list json) (video : json)
    (e : exn) :
  Forall (fun v => returns (format_video fromisoformat format_value v))
    before ->
  format_video fromisoformat format_value video = Raise e ->
  format_lines fromisoformat format_value (before ++ video :: after) []
  = Raise e.
Proof.
  intros Hbefore Hvideo.
  induction Hbefore as [|v before [line Hline] _ IH];
    cbn [app]; rewrite format_lines_cons.
  - now rewrite Hvideo.
  - rewrite Hline. cbn [bind]. now rewrite IH.
Qed.

(** X2: the formatter has no guard of its own against a recording date
    that does not parse.  If the first video that has no line is a
    dictionary whose recording date is a non-empty text that
    [fromisoformat] rejects, the call raises the exception of
    [fromisoformat] and gives no list at all. *)
Theorem format_video_list_for_reddit_unparsed_date
    (before after : list json) (entries : list (string * json))
    (s : string) (e : exn) :
  Forall (fun v => returns (format_video fromisoformat format_value v))
    before ->
  dict_get "recording_date" entries = Some (JStr s) ->
  truthy s = true ->
  fromisoformat s = Raise e ->
  format_video_list_for_reddit fromisoformat format_value
    (before ++ JDict entries :: after) = Raise e.
Proof.
  intros Hbefore Hdate Hs He.
  assert (Hvideo : format_video fromisoformat format_value (JDict entries)
                   = Raise e).
  { unfold format_video, dict_get_default. rewrite Hdate.
    cbn [json_truthy]. rewrite Hs, He. reflexivity. }
  unfold format_video_list_for_reddit.
  rewrite (format_lines_raises _ after _ _ Hbefore Hvideo).
  now destruct before.
Qed.

Hypothesis fromisoformat_ValueError :
  forall s e, fromisoformat s = Raise e -> isinstance_ValueError e = true.
Hypothesis fromisoformat_empty : forall d, fromisoformat "" <> Ok d.

(** The line of a catalogue record, as ingestion builds it. *)
Lemma format_video_record (v : video) :
  format_video fromisoformat format_value (video_to_json v)
  = let* year :=
      match VideoRecord.recording_date v with
      | Some s =>
          if truthy s then
            let* date_obj := fromisoformat s in
            Ok (JInt (datetime.year date_obj))
          else Ok (JStr "Unknown")
      | None => Ok (JStr "Unknown")
      end in
    Ok ("**" ++ format_value year ++ ":** ["
        ++ format_value (JStr (VideoRecord.title v)) ++ "]("
        ++ format_value (JStr (VideoRecord.url v)) ++ ")")%string.
Proof. destruct v as [i t d u [s|] l th]; reflexivity. Qed.

Lemma format_video_recorded_on (month day : Z) (v : video) :
  recorded_on fromisoformat month day v = true ->
  format_video fromisoformat format_value (video_to_json v)
  = Ok (reddit_line fromisoformat format_value v).
Proof.
  rewrite format_video_record. unfold recorded_on, reddit_line.
  destruct (VideoRecord.recording_date v) as [s|]; [|discriminate].
  destruct (fromisoformat s) as [d|e] eqn:E; [|discriminate].
  intros _.
  destruct s as [|c s]; [now destruct (fromisoformat_empty d)|].
  reflexivity.
Qed.

Lemma format_lines_recorded_on (month day : Z) (found : list video) :
  Forall (fun v => recorded_on fromisoformat month day v = true) found ->
  format_lines fromisoformat format_value (map video_to_json found) []
  = Ok (map (reddit_line fromisoformat format_value) found).
Proof.
  induction 1 as [|v found Hv _ IH]; [reflexivity|].
  cbn [map]. rewrite format_lines_cons, (format_video_recorded_on _ _ _ Hv).
  cbn [bind]. now rewrite IH.
Qed.

(** X3: the formatter on what the matcher returns.  The matcher returns
    for every catalogue and every day; the formatter then returns as
    well: the fixed sentence if no video was found, else one line
    [**year:** [title](url)] per video found, in the matcher's order
    (oldest first), with an empty line between two lines; the year is
    the one of the video's recording date. *)
Theorem format_video_list_for_reddit_of_matches (videos_db : catalogue)
    (month day : Z) :
  exists found,
    get_videos_for_date fromisoformat videos_db month day = Ok found
    /\ format_video_list_for_reddit fromisoformat format_value
         (map video_to_json found)
       = Ok match found with
            | [] => "*No videos found for this date.*"
            | _ :: _ =>
                Lib.join (Lib.newline ++ Lib.newline)%string
                  (map (reddit_line fromisoformat format_value) found)
            end
    /\ Forall (fun v =>
         exists s d,
           VideoRecord.recording_date v = Some s
           /\ fromisoformat s = Ok d
           /\ reddit_line fromisoformat format_value v
              = ("**" ++ format_value (JInt (datetime.year d)) ++ ":** ["
                 ++ format_value (JStr (VideoRecord.title v)) ++ "]("
                 ++ format_value (JStr (VideoRecord.url v)) ++ ")")%string)
         found.
Proof.
  eexists. split.
  { apply (get_videos_for_date_sorted_filter fromisoformat
             fromisoformat_ValueError fromisoformat_empty). }
  set (found := list_sort sort_key _).
  assert (Hfound : Forall (fun v => recorded_on fromisoformat month day v
                                    = true) found).
  { rewrite List.Forall_forall. intros v Hv.
    apply (Permutation_in _ (list_sort_Permutation sort_key _)) in Hv.
    now apply filter_In in Hv. }
  split.
  - unfold format_video_list_for_reddit.
    rewrite (format_lines_recorded_on _ _ _ Hfound).
    now destruct found.
  - eapply List.Forall_impl; [|exact Hfound]. intros v Hv.
    unfold recorded_on in Hv. unfold reddit_line.
    destruct (VideoRecord.recording_date v) as [s|]; [|discriminate].
    destruct (fromisoformat s) as [d|e] eqn:E; [|discriminate].
    now exists s, d.
Qed.
End RedditListFacts.

(** The query for 4 January on the sample catalogue, formatted: three
    lines, 2020 twice and then 2022. *)
Lemma format_video_list_for_reddit_of_matches_witness :
  (exists found,
     get_videos_for_date Lib.fromisoformat sample_db 1 4 = Ok found
     /\ format_video_list_for_reddit Lib.fromisoformat py_str
          (map video_to_json found)
        = Ok match found with
             | [] => "*No videos found for this date.*"
             | _ :: _ =>
                 Lib.join (Lib.newline ++ Lib.newline)%string
                   (map (reddit_line Lib.fromisoformat py_str) found)
             end
     /\ Forall (fun v =>
          exists s d,
            VideoRecord.recording_date v = Some s
            /\ Lib.fromisoformat s = Ok d
            /\ reddit_line Lib.fromisoformat py_str v
               = ("**" ++ py_str (JInt (datetime.year d)) ++ ":** ["
                  ++ py_str (JStr (VideoRecord.title v)) ++ "]("
                  ++ py_str (JStr (VideoRecord.url v)) ++ ")")%string)
          found)
  /\ (let* found := get_videos_for_date Lib.fromisoformat sample_db 1 4 in
      format_video_list_for_reddit Lib.fromisoformat py_str
        (map video_to_json found))
     = Ok ("**2020:** [Video b](https://www.youtube.com/watch?v=b)"
           ++ Lib.newline ++ Lib.newline
           ++ "**2020:** [Video i](https://www.youtube.com/watch?v=i)"
           ++ Lib.newline ++ Lib.newline
           ++ "**2022:** [Video a](https://www.youtube.com/watch?v=a)")%string
  /\ (let* found := get_videos_for_date Lib.fromisoformat sample_db 7 7 in
      format_video_list_for_reddit Lib.fromisoformat py_str
        (map video_to_json found))
     = Ok "*No videos found for this date.*".
Proof.
  split; [|split].
  - exact (format_video_list_for_reddit_of_matches Lib.fromisoformat py_str
             Lib_fromisoformat_ValueError Lib_fromisoformat_empty
             sample_db 1 4).
  - vm_compute. reflexivity.
  - vm_compute. reflexivity.
Defined.

(** The whole sample catalogue, which holds a record dated
    "not a date", has no list: the call raises [ValueError], while the
    matcher passes over that record. *)
Lemma format_video_list_for_reddit_unparsed_date_witness :
  (Forall (fun v => returns (format_video Lib.fromisoformat py_str v))
     (map video_to_json (take 6 (Catalogue.videos sample_db)))
   /\ dict_get "recording_date"
        [ ("video_id", JStr "g"); ("title", JStr "Video g");
          ("description", JStr ""); ("upload_date", JStr "2023-06-01");
          ("recording_date", JStr "not a date");
          ("url", JStr "https://www.youtube.com/watch?v=g");
          ("thumbnail", JStr "") ]
      = Some (JStr "not a date")
   /\ truthy "not a date" = true
   /\ Lib.fromisoformat "not a date" = Raise ValueError)
  /\ format_video_list_for_reddit Lib.fromisoformat py_str
       (map video_to_json (Catalogue.videos sample_db))
     = Raise ValueError
  /\ exists found,
       get_videos_for_date Lib.fromisoformat sample_db 1 4 = Ok found.
Proof.
  assert (H : Forall (fun v => returns (format_video Lib.fromisoformat
                                          py_str v))
                (map video_to_json (take 6 (Catalogue.videos sample_db)))).
  { repeat constructor; eexists; vm_compute; reflexivity. }
  split; [repeat split; (exact H || reflexivity)|].
  split; [|eexists; vm_compute; reflexivity].
  exact (format_video_list_for_reddit_unparsed_date Lib.fromisoformat py_str
           (map video_to_json (take 6 (Catalogue.videos sample_db)))
           (map video_to_json (drop 7 (Catalogue.videos sample_db)))
           [ ("video_id", JStr "g"); ("title", JStr "Video g");
             ("description", JStr ""); ("upload_date", JStr "2023-06-01");
             ("recording_date", JStr "not a date");
             ("url", JStr "https://www.youtube.com/watch?v=g");
             ("thumbnail", JStr "") ]
           "not a date" ValueError H eq_refl eq_refl eq_refl).
Defined.
(** ** Environment variables and the Reddit client *)

Lemma truthy_opt_true (value : option string) :
  truthy_opt value = true <-> exists s, value = Some s /\ s <> "".
Proof.
  destruct value as [[|c s]|]; cbn; split; try discriminate.
  - intros (s & [= <-] & H). now destruct H.
  - intros _. now eexists.
  - reflexivity.
  - intros (s & H & _). discriminate.
Qed.

Lemma get_env_variable_required (env : environ) (var_name : string) :
  get_env_variable env var_name true
  = if truthy_opt (env !! var_name) then Ok (env !! var_name)
    else Raise (Exception
                  ("Required environment variable not set: " ++ var_name)%string).
Proof.
  unfold get_env_variable. cbn [andb].
  now destruct (truthy_opt (env !! var_name)).
Qed.

(** X4: the credentials of the Reddit client.  [get_reddit_client]
    returns exactly when the four required variables are set to
    non-empty texts, and the client then holds these texts; the user
    agent is the variable's text if set and non-empty, else the fixed
    default.  Otherwise it raises, naming the first of the four, in
    reading order, that is unset or empty: an empty text counts as
    unset. *)
Theorem get_reddit_client_credentials (env : environ) :
  match get_reddit_client env with
  | Ok reddit =>
      Forall (fun name => exists s, env !! name = Some s /\ s <> "")
        reddit_variables
      /\ reddit
         = Reddit.make (env !! "REDDIT_CLIENT_ID")
             (env !! "REDDIT_CLIENT_SECRET") (env !! "REDDIT_USERNAME")
             (env !! "REDDIT_PASSWORD")
             (match env !! "REDDIT_USER_AGENT" with
              | Some (String c s) => String c s
              | _ => "adam-the-woo-on-this-day-bot/1.0"
              end)
  | Raise e =>
      exists before name after,
        reddit_variables = before ++ name :: after
        /\ Forall (fun name => exists s, env !! name = Some s /\ s <> "")
             before
        /\ (env !! name = None \/ env !! name = Some "")
        /\ e = Exception
                 ("Required environment variable not set: " ++ name)%string
  end.
Proof.
  unfold get_reddit_client. rewrite !get_env_variable_required.
  unfold get_env_variable. cbn [andb].
  assert (Hunset : forall name, truthy_opt (env !! name) = false ->
            env !! name = None \/ env !! name = Some "").
  { intros name. destruct (env !! name) as [[|c s]|]; cbn; auto.
    discriminate. }
  destruct (truthy_opt (env !! "REDDIT_CLIENT_ID")) eqn:E1; cbn [bind].
  2:{ exists [], "REDDIT_CLIENT_ID", (tl reddit_variables).
      repeat split; auto. }
  destruct (truthy_opt (env !! "REDDIT_CLIENT_SECRET")) eqn:E2; cbn [bind].
  2:{ exists ["REDDIT_CLIENT_ID"], "REDDIT_CLIENT_SECRET",
        ["REDDIT_USERNAME"; "REDDIT_PASSWORD"].
      repeat split; auto. repeat constructor. now apply truthy_opt_true. }
  destruct (truthy_opt (env !! "REDDIT_USERNAME")) eqn:E3; cbn [bind].
  2:{ exists ["REDDIT_CLIENT_ID"; "REDDIT_CLIENT_SECRET"], "REDDIT_USERNAME",
        ["REDDIT_PASSWORD"].
      repeat split; auto. repeat constructor; now apply truthy_opt_true. }
  destruct (truthy_opt (env !! "REDDIT_PASSWORD")) eqn:E4; cbn [bind].
  2:{ exists ["REDDIT_CLIENT_ID"; "REDDIT_CLIENT_SECRET"; "REDDIT_USERNAME"],
        "REDDIT_PASSWORD", [].
      repeat split; auto. repeat constructor; now apply truthy_opt_true. }
  split.
  - repeat constructor; now apply truthy_opt_true.
  - unfold or_default.
    now destruct (env !! "REDDIT_USER_AGENT") as [[|c s]|].
Qed.

(** ** Finding the channel *)
Section ChannelLookupFacts.
Variable search_list : string -> Api.result (list SearchResult.t).
Variable channels_list : string -> Api.result (list Channel.t).
Variable lower : string -> string.

Lemma lstrip_at_at (handle : string) :
  lstrip_at (String "@" handle) = lstrip_at handle.
Proof. reflexivity. Qed.

Lemma lstrip_at_idempotent (handle : string) :
  lstrip_at (lstrip_at handle) = lstrip_at handle.
Proof.
  induction handle as [|c handle IH]; [reflexivity|].
  cbn [lstrip_at]. destruct (Ascii.eqb c "@") eqn:E; [exact IH|].
  cbn [lstrip_at]. now rewrite E.
Qed.

Lemma find_first {A : Type} (p : A -> bool) (l : list A) :
  match List.find p l with
  | Some x =>
      exists before after,
        l = before ++ x :: after
        /\ Forall (fun y => p y = false) before /\ p x = true
  | None => Forall (fun y => p y = false) l
  end.
Proof.
  induction l as [|y l IH]; cbn [List.find]; [constructor|].
  destruct (p y) eqn:E.
  - exists [], l. now repeat split.
  - destruct (List.find p l) as [x|].
    + destruct IH as (before & after & -> & Hb & Hx).
      exists (y :: before), after. repeat split; trivial. now constructor.
    + now constructor.
Qed.

(** X5: which channel the lookup returns.  The search is made for the
    handle without its leading [@] signs, so that a handle gives the
    same outcome with and without them.  The outcome is never an
    [HttpError].  If the search returns items, the outcome is the
    channel of the first item whose custom URL is, letter case apart,
    [@] and the handle; if no item is such, the channel of the first
    item; without items the call raises. *)
Theorem get_channel_id_from_handle_choice (handle : string) :
  get_channel_id_from_handle search_list lower (String "@" handle)
  = get_channel_id_from_handle search_list lower handle
  /\ (forall reason,
        get_channel_id_from_handle search_list lower handle
        <> Api.Raise (Api.HttpError reason))
  /\ match search_list (lstrip_at handle) with
     | Api.Ok [] =>
         get_channel_id_from_handle search_list lower handle
         = Api.Raise (Api.Error
             (Exception ("Channel not found: " ++ lstrip_at handle)%string))
     | Api.Ok (first :: rest) =>
         exists before item after,
           first :: rest = before ++ item :: after
           /\ get_channel_id_from_handle search_list lower handle
              = Api.Ok (SearchResult.channelId item)
           /\ Forall (fun other =>
                is_exact_match lower (lstrip_at handle) other = false)
                before
           /\ (is_exact_match lower (lstrip_at handle) item = true
               \/ before = []
                  /\ Forall (fun other =>
                       is_exact_match lower (lstrip_at handle) other = false)
                       (first :: rest))
     | Api.Raise (Api.HttpError reason) =>
         get_channel_id_from_handle search_list lower handle
         = Api.Raise (Api.Error
             (Exception ("Error finding channel: " ++ reason)%string))
     | Api.Raise e =>
         get_channel_id_from_handle search_list lower handle = Api.Raise e
     end.
Proof.
  split; [reflexivity|].
  unfold get_channel_id_from_handle.
  destruct (search_list (lstrip_at handle)) as [items|[reason|e|]].
  2,3,4: split; [discriminate|reflexivity].
  pose proof (find_first (is_exact_match lower (lstrip_at handle)) items)
    as Hfind.
  destruct (List.find (is_exact_match lower (lstrip_at handle)) items)
    as [item|].
  - split; [discriminate|].
    destruct Hfind as (before & after & -> & Hb & Hx).
    destruct before as [|b before]; cbn [app].
    + exists [], item, after. repeat split; auto.
    + exists (b :: before), item, after. repeat split; auto.
  - destruct items as [|first rest]; [split; [discriminate|reflexivity]|].
    split; [discriminate|].
    exists [], first, rest. repeat split; auto.
Qed.
End ChannelLookupFacts.
(** ** The playlist of the day *)
Section PlaylistFacts.
Variable playlists_list : list request -> Api.result (list Playlist.t).
Variable playlists_insert :
  list request -> string -> string -> Api.result string.
Variable playlist_items_list :
  list request -> string -> option string
  -> Api.result (list string * option string).
Variable playlist_items_delete : list request -> string -> Api.result unit.
Variable playlist_items_insert :
  list request -> string -> json -> Api.result unit.

Lemma accepted_sublist (playlist_id : string) (video_ids : list json)
    (sent : list request) :
  sublist (accepted playlist_items_insert playlist_id video_ids sent)
    video_ids.
Proof.
  revert sent. induction video_ids as [|video_id rest IH]; intros sent;
    cbn [accepted]; [constructor|].
  destruct (playlist_items_insert sent playlist_id video_id);
    [apply sublist_skip|apply sublist_cons]; apply IH.
Qed.

Lemma add_videos_loop_outcome (playlist_id : string)
    (video_ids : list json) (added : Z) (sent : list request) :
  exists attempted rest,
    video_ids = attempted ++ rest
    /\ snd (add_videos_loop playlist_items_insert playlist_id video_ids
              added sent)
       = sent ++ map (PlaylistItemsInsert playlist_id) attempted
    /\ match fst (add_videos_loop playlist_items_insert playlist_id
                    video_ids added sent) with
       | Api.Ok n =>
           rest = []
           /\ n = added
                  + Z.of_nat
                      (length (accepted playlist_items_insert playlist_id
                                 video_ids sent))
       | Api.Raise (Api.HttpError _) => False
       | Api.Raise e =>
           exists before video_id,
             attempted = before ++ [video_id]
             /\ playlist_items_insert
                  (sent ++ map (PlaylistItemsInsert playlist_id) before)
                  playlist_id video_id
                = Api.Raise e
       end.
Proof.
  revert added sent.
  induction video_ids as [|video_id rest IH]; intros added sent.
  - exists [], []. cbn. rewrite app_nil_r. repeat split. lia.
  - cbn [add_videos_loop accepted].
    unfold io_bind at 1, except_HttpError, io_bind, execute, io_ret.
    destruct (playlist_items_insert sent playlist_id video_id)
      as [[]|e0] eqn:E; [|destruct e0 as [reason|e|]].
    + destruct (IH (added + 1)
                  (sent ++ [PlaylistItemsInsert playlist_id video_id]))
        as (attempted & rest' & -> & Hsent & Hout).
      exists (video_id :: attempted), rest'. split; [reflexivity|].
      split; [rewrite Hsent; cbn [map]; now rewrite <- app_assoc|].
      destruct (fst (add_videos_loop _ _ _ _ _)) as [n|[r|e|]];
        [| exact Hout | |].
      * destruct Hout as [-> ->]. split; [reflexivity|]. cbn [length]. lia.
      * destruct Hout as (before & v & -> & Hv).
        exists (video_id :: before), v. split; [reflexivity|].
        cbn [map]. now rewrite <- app_assoc in Hv.
      * destruct Hout as (before & v & -> & Hv).
        exists (video_id :: before), v. split; [reflexivity|].
        cbn [map]. now rewrite <- app_assoc in Hv.
    + destruct (IH added
                  (sent ++ [PlaylistItemsInsert playlist_id video_id]))
        as (attempted & rest' & -> & Hsent & Hout).
      exists (video_id :: attempted), rest'. split; [reflexivity|].
      split; [rewrite Hsent; cbn [map]; now rewrite <- app_assoc|].
      destruct (fst (add_videos_loop _ _ _ _ _)) as [n|[r|e|]];
        [exact Hout | exact Hout | |];
        destruct Hout as (before & v & -> & Hv);
        exists (video_id :: before), v; (split; [reflexivity|]);
        cbn [map]; now rewrite <- app_assoc in Hv.
    + exists [video_id], rest. cbn [fst snd map app]. repeat split.
      exists [], video_id. cbn [map app]. now rewrite app_nil_r.
    + exists [video_id], rest. cbn [fst snd map app]. repeat split.
      exists [], video_id. cbn [map app]. now rewrite app_nil_r.
Qed.

(** X6: what [add_videos_to_playlist] counts.  An [HttpError] of an
    insertion never leaves the call and does not end the loop: the
    videos are asked for one by one in the given order, also after a
    refusal.  A call that returns has asked for every video, and its
    result is the number of insertions the service accepted, between 0
    and the number of videos; if the service raises nothing but
    [HttpError], the call returns. *)
Theorem add_videos_to_playlist_counts (playlist_id : string)
    (video_ids : list json) (sent : list request) :
  let outcome :=
    add_videos_to_playlist playlist_items_insert playlist_id video_ids
      sent in
  (forall reason, fst outcome <> Api.Raise (Api.HttpError reason))
  /\ (exists attempted rest,
        video_ids = attempted ++ rest
        /\ snd outcome
           = sent ++ map (PlaylistItemsInsert playlist_id) attempted)
  /\ (forall added,
        fst outcome = Api.Ok added ->
        snd outcome = sent ++ map (PlaylistItemsInsert playlist_id) video_ids
        /\ added
           = Z.of_nat (length (accepted playlist_items_insert playlist_id
                                 video_ids sent))
        /\ 0 <= added <= Z.of_nat (length video_ids))
  /\ ((forall sent' video_id e,
         playlist_items_insert sent' playlist_id video_id = Api.Raise e ->
         exists reason, e = Api.HttpError reason) ->
      exists added, fst outcome = Api.Ok added).
Proof.
  intros outcome. subst outcome. unfold add_videos_to_playlist.
  destruct (add_videos_loop_outcome playlist_id video_ids 0 sent)
    as (attempted & rest & Hids & Hsent & Hout).
  split; [|split; [|split]].
  - intros reason H. rewrite H in Hout. exact Hout.
  - now exists attempted, rest.
  - intros added H. rewrite H in Hout. destruct Hout as [-> ->].
    rewrite app_nil_r in Hids. subst attempted.
    split; [exact Hsent|]. split; [lia|].
    pose proof (sublist_length _ _
                  (accepted_sublist playlist_id video_ids sent)).
    lia.
  - intros Honly.
    destruct (fst (add_videos_loop _ _ _ _ _)) as [n|[r|e|]];
      [now exists n|now destruct Hout| |];
      destruct Hout as (before & v & _ & Hv); apply Honly in Hv;
      now destruct Hv.
Qed.

Lemma list_item_ids_sent (playlist_id : string) (fuel : nat)
    (next_page_token : option string) (item_ids : list string)
    (sent : list request) :
  exists tokens,
    snd (list_item_ids playlist_items_list fuel playlist_id next_page_token
           item_ids sent)
    = sent ++ map (PlaylistItemsList playlist_id) tokens.
Proof.
  revert next_page_token item_ids sent.
  induction fuel as [|fuel IH]; intros tok item_ids sent;
    cbn [list_item_ids].
  - exists []. cbn. now rewrite app_nil_r.
  - unfold io_bind at 1, execute.
    destruct (playlist_items_list sent playlist_id tok)
      as [[ids next]|e].
    + cbn [fst snd].
      assert (Hend : exists tokens,
        snd (io_ret (R := request) (Some (item_ids ++ ids))
               (sent ++ [PlaylistItemsList playlist_id tok]))
        = sent ++ map (PlaylistItemsList playlist_id) tokens).
      { now exists [tok]. }
      destruct next as [t|]; [|exact Hend].
      destruct (truthy t); [|exact Hend].
      destruct (IH (Some t) (item_ids ++ ids)
                  (sent ++ [PlaylistItemsList playlist_id tok]))
        as [tokens ->].
      exists (tok :: tokens). cbn [map]. now rewrite <- app_assoc.
    + now exists [tok].
Qed.

(** The loop of deletions stops at the first deletion that raises:
    every deletion asked for before the last one has succeeded, and so
    has the last one unless the loop raises. *)
Lemma delete_items_stops (item_ids : list string) (sent : list request) :
  exists done rest,
    item_ids = done ++ rest
    /\ snd (delete_items playlist_items_delete item_ids sent)
       = sent ++ map PlaylistItemsDelete done
    /\ match fst (delete_items playlist_items_delete item_ids sent) with
       | Api.Ok _ =>
           rest = []
           /\ forall earlier item_id later,
                done = earlier ++ item_id :: later ->
                playlist_items_delete
                  (sent ++ map PlaylistItemsDelete earlier) item_id
                = Api.Ok tt
       | Api.Raise e =>
           exists before item_id,
             done = before ++ [item_id]
             /\ (forall earlier item_id' later,
                   before = earlier ++ item_id' :: later ->
                   playlist_items_delete
                     (sent ++ map PlaylistItemsDelete earlier) item_id'
                   = Api.Ok tt)
             /\ playlist_items_delete
                  (sent ++ map PlaylistItemsDelete before) item_id
                = Api.Raise e
       end.
Proof.
  revert sent. induction item_ids as [|item_id rest IH]; intros sent.
  - exists [], []. cbn. rewrite app_nil_r. repeat split.
    intros [|? ?] ? ?; discriminate.
  - cbn [delete_items]. unfold io_bind, execute.
    destruct (playlist_items_delete sent item_id) as [[]|e] eqn:E;
      cbv beta iota.
    + destruct (IH (sent ++ [PlaylistItemsDelete item_id]))
        as (done & rest' & -> & Hsent & Hout).
      exists (item_id :: done), rest'. split; [reflexivity|].
      split; [rewrite Hsent; cbn [map]; now rewrite <- app_assoc|].
      assert (Hshift : forall l : list string,
        (forall earlier item_id' later,
           l = earlier ++ item_id' :: later ->
           playlist_items_delete
             ((sent ++ [PlaylistItemsDelete item_id])
              ++ map PlaylistItemsDelete earlier) item_id' = Api.Ok tt) ->
        forall earlier item_id' later,
          item_id :: l = earlier ++ item_id' :: later ->
          playlist_items_delete
            (sent ++ map PlaylistItemsDelete earlier) item_id' = Api.Ok tt).
      { intros l Hl [|first earlier] item_id' later; cbn [app map].
        - intros [= <- _]. now rewrite app_nil_r.
        - intros [= <- Hrest]. rewrite <- (Hl _ _ _ Hrest).
          now rewrite <- app_assoc. }
      destruct (fst (delete_items _ _ _)) as [u|e].
      * destruct Hout as [-> Hall]. split; [reflexivity|].
        now apply Hshift.
      * destruct Hout as (before & i & -> & Hall & Hi).
        exists (item_id :: before), i. split; [reflexivity|].
        split; [now apply Hshift|].
        cbn [map]. now rewrite <- app_assoc in Hi.
    + exists [item_id], rest. cbn [fst snd map app]. repeat split.
      exists [], item_id. cbn [map app]. rewrite app_nil_r.
      repeat split; trivial.
      intros [|? ?] ? ?; discriminate.
Qed.

(** The request log of [clear_playlist] in terms of its two phases. *)
Lemma clear_playlist_phases (fuel : nat) (playlist_id : string)
    (sent : list request) :
  clear_playlist playlist_items_list playlist_items_delete fuel playlist_id
    sent
  = match list_item_ids playlist_items_list fuel playlist_id None [] sent with
    | (Api.Ok (Some item_ids), sent1) =>
        match delete_items playlist_items_delete item_ids sent1 with
        | (Api.Ok _, sent2) => (Api.Ok (Some tt), sent2)
        | (Api.Raise (Api.HttpError _), sent2) => (Api.Ok (Some tt), sent2)
        | (Api.Raise e, sent2) => (Api.Raise e, sent2)
        end
    | (Api.Ok None, sent1) => (Api.Ok None, sent1)
    | (Api.Raise (Api.HttpError _), sent1) => (Api.Ok (Some tt), sent1)
    | (Api.Raise e, sent1) => (Api.Raise e, sent1)
    end.
Proof.
  unfold clear_playlist, except_HttpError, io_bind, io_ret.
  destruct (list_item_ids _ _ _ _ _ _) as [[[item_ids|]|[r|e|]] sent1];
    try reflexivity.
  destruct (delete_items _ _ _) as [[u|[r|e|]] sent2]; reflexivity.
Qed.

(** X7: a listing that fails deletes nothing.  [clear_playlist] asks
    for the whole listing before it deletes anything: if a page of
    the listing raises (the first or a later one), the call has sent
    listing requests only and no item is deleted, not even those of
    the pages already received.  An [HttpError] is not passed on: the
    call returns as if the playlist had been cleared. *)
Theorem clear_playlist_failed_listing (fuel : nat) (playlist_id : string)
    (sent sent1 : list request) (e : Api.error) :
  list_item_ids playlist_items_list fuel playlist_id None [] sent
  = (Api.Raise e, sent1) ->
  clear_playlist playlist_items_list playlist_items_delete fuel playlist_id
    sent
  = (match e with
     | Api.HttpError _ => Api.Ok (Some tt)
     | _ => Api.Raise e
     end, sent1)
  /\ exists tokens, sent1 = sent ++ map (PlaylistItemsList playlist_id) tokens.
Proof.
  intros H. rewrite clear_playlist_phases, H.
  split; [now destruct e|].
  destruct (list_item_ids_sent playlist_id fuel None [] sent) as [tokens Ht].
  rewrite H in Ht. now exists tokens.
Qed.

(** X8: the deletions.  After a complete listing the items are deleted
    one by one in the order of the listing.  The first deletion that
    raises ends the loop: every deletion asked for before it has
    succeeded, it is the last request of the call, and the items after
    it stay in the playlist.  An [HttpError] is not passed on; the call
    returns in either case. *)
Theorem clear_playlist_deletions (fuel : nat) (playlist_id : string)
    (sent sent1 : list request) (item_ids : list string) :
  list_item_ids playlist_items_list fuel playlist_id None [] sent
  = (Api.Ok (Some item_ids), sent1) ->
  let outcome :=
    clear_playlist playlist_items_list playlist_items_delete fuel
      playlist_id sent in
  exists done rest,
    item_ids = done ++ rest
    /\ snd outcome = sent1 ++ map PlaylistItemsDelete done
    /\ (forall reason, fst outcome <> Api.Raise (Api.HttpError reason))
    /\ (rest = [] /\ fst outcome = Api.Ok (Some tt)
        /\ (forall earlier item_id later,
              done = earlier ++ item_id :: later ->
              playlist_items_delete
                (sent1 ++ map PlaylistItemsDelete earlier) item_id
              = Api.Ok tt)
        \/ exists before item_id e,
             done = before ++ [item_id]
             /\ (forall earlier item_id' later,
                   before = earlier ++ item_id' :: later ->
                   playlist_items_delete
                     (sent1 ++ map PlaylistItemsDelete earlier) item_id'
                   = Api.Ok tt)
             /\ playlist_items_delete
                  (sent1 ++ map PlaylistItemsDelete before) item_id
                = Api.Raise e
             /\ fst outcome
                = match e with
                  | Api.HttpError _ => Api.Ok (Some tt)
                  | _ => Api.Raise e
                  end).
Proof.
  intros H outcome. subst outcome. rewrite clear_playlist_phases, H.
  destruct (delete_items_stops item_ids sent1)
    as (done & rest & Hids & Hsent & Hout).
  exists done, rest. split; [exact Hids|].
  destruct (delete_items playlist_items_delete item_ids sent1)
    as [[u|e] sent2]; cbn [fst snd] in *.
  - destruct Hout as [-> Hall].
    repeat split; trivial; [discriminate|now left].
  - destruct Hout as (before & item_id & Hdone & Hall & He).
    destruct e as [reason|e|]; cbn [fst snd];
      (split; [exact Hsent|]); (split; [discriminate|]);
      right; exists before, item_id; eexists; repeat split; eauto.
Qed.

(** X9: [find_or_create_playlist] creates a playlist only if the
    listing shows none with the title.  If a listed playlist has the
    title, the first such is returned and the listing is the only
    request; if none has, one playlist is created with the title and
    the description and its id is returned.  An [HttpError] of either
    request leaves the call as an [Exception] with the message of the
    function. *)
Theorem find_or_create_playlist_reuses (title description : string)
    (sent : list request) :
  let outcome :=
    find_or_create_playlist playlists_list playlists_insert title
      description sent in
  (forall reason, fst outcome <> Api.Raise (Api.HttpError reason))
  /\ match playlists_list sent with
     | Api.Ok items =>
         (forall before item after,
            items = before ++ item :: after ->
            Forall (fun other => Playlist.title other <> title) before ->
            Playlist.title item = title ->
            outcome = (Api.Ok (Playlist.id item), sent ++ [PlaylistsList]))
         /\ (Forall (fun other => Playlist.title other <> title) items ->
             snd outcome
             = sent ++ [PlaylistsList; PlaylistsInsert title description]
             /\ fst outcome
                = match playlists_insert (sent ++ [PlaylistsList]) title
                          description with
                  | Api.Ok playlist_id => Api.Ok playlist_id
                  | Api.Raise (Api.HttpError reason) =>
                      Api.Raise (Api.Error
                        (Exception
                           ("Error managing playlist: " ++ reason)%string))
                  | Api.Raise e => Api.Raise e
                  end)
     | Api.Raise (Api.HttpError reason) =>
         outcome
         = (Api.Raise (Api.Error
              (Exception ("Error managing playlist: " ++ reason)%string)),
            sent ++ [PlaylistsList])
     | Api.Raise e => outcome = (Api.Raise e, sent ++ [PlaylistsList])
     end.
Proof.
  intros outcome. subst outcome.
  unfold find_or_create_playlist, except_HttpError, io_bind, execute,
    io_ret, io_raise.
  destruct (playlists_list sent) as [items|[reason|e|]].
  2,3,4: split; [discriminate|reflexivity].
  pose proof (find_first
                (fun item => String.eqb (Playlist.title item) title) items)
    as Hfind.
  destruct (List.find _ items) as [found|].
  - destruct Hfind as (before & after & -> & Hb & Hx).
    apply String.eqb_eq in Hx.
    split; [discriminate|]. split.
    + intros before' item after' Heq Hb' Hitem.
      assert (Hsame : before' = before /\ item = found).
      { clear - Heq Hb Hb' Hx Hitem.
        revert before' Heq Hb'.
        induction before as [|b before IH]; intros [|b' before'];
          cbn [app]; intros [= Hhd Htl] Hb'.
        - now subst.
        - subst b'. apply Forall_cons in Hb'. now destruct Hb' as [Hne _].
        - subst b. apply Forall_cons in Hb. destruct Hb as [Hne _].
          rewrite Hitem in Hne. now rewrite String.eqb_refl in Hne.
        - subst b'. apply Forall_cons in Hb, Hb'.
          destruct Hb as [_ Hb], Hb' as [_ Hb'].
          destruct (IH Hb before' Htl Hb') as [-> ->]. now split. }
      now destruct Hsame as [_ ->].
    + intros Hnone. exfalso.
      rewrite List.Forall_forall in Hnone.
      apply (Hnone found); [|exact Hx].
      apply in_app_iff. right. now left.
  - split.
    + destruct (playlists_insert _ _ _) as [i|[r|e|]]; discriminate.
    + split.
      * intros before item after -> _ Hitem. exfalso.
        rewrite List.Forall_forall in Hfind.
        specialize (Hfind item).
        rewrite Hitem, String.eqb_refl in Hfind.
        assert (true = false); [|discriminate].
        apply Hfind, in_app_iff. right. now left.
      * intros _.
        destruct (playlists_insert _ _ _) as [i|[r|e|]]; cbn [fst snd];
          now rewrite <- app_assoc.
Qed.

Lemma main_update_playlist_run (fuel : nat)
    (playlist_title playlist_description playlist_id : string)
    (today_videos video_ids : list json) (sent sent1 sent2 : list request) :
  find_or_create_playlist playlists_list playlists_insert playlist_title
    playlist_description sent = (Api.Ok playlist_id, sent1) ->
  clear_playlist playlist_items_list playlist_items_delete fuel playlist_id
    sent1 = (Api.Ok (Some tt), sent2) ->
  video_ids_of today_videos = Ok video_ids ->
  (forall sent' video_id e,
     playlist_items_insert sent' playlist_id video_id = Api.Raise e ->
     exists reason, e = Api.HttpError reason) ->
  main_update_playlist playlists_list playlists_insert playlist_items_list
    playlist_items_delete playlist_items_insert fuel playlist_title
    playlist_description today_videos sent
  = (Api.Ok
       (Some ("https://www.youtube.com/playlist?list=" ++ playlist_id)%string),
     sent2 ++ map (PlaylistItemsInsert playlist_id) video_ids).
Proof.
  intros Hfind Hclear Hids' Honly.
  unfold main_update_playlist, io_bind at 1. rewrite Hfind.
  unfold io_bind at 1. rewrite Hclear.
  unfold io_bind at 1, io_lift. rewrite Hids'.
  destruct (add_videos_loop_outcome playlist_id video_ids 0 sent2)
    as (attempted & rest & Hids & Hsent & Hout).
  unfold io_bind, add_videos_to_playlist, io_ret.
  destruct (add_videos_loop _ _ _ _ _) as [[n|[r|e|]] sent3];
    cbn [fst snd] in *.
  - destruct Hout as [-> _]. rewrite app_nil_r in Hids.
    now rewrite Hsent, Hids.
  - now destruct Hout.
  - destruct Hout as (before & v & _ & Hv). apply Honly in Hv.
    now destruct Hv.
  - destruct Hout as (before & v & _ & Hv). apply Honly in Hv.
    now destruct Hv.
Qed.

(** X10: the videos of the day are added also when clearing did not
    succeed.  [main] goes on once [clear_playlist] has returned, and
    that call returns after an [HttpError] as after a success: the
    value under ['video_id'] of every video of the day is then asked
    to be inserted, in the order of the list (the matcher's), and the
    URL of the playlist is returned, whatever was deleted before. *)
Theorem main_update_playlist_adds (fuel : nat)
    (playlist_title playlist_description playlist_id : string)
    (today_videos video_ids : list json) (sent sent1 sent2 : list request) :
  find_or_create_playlist playlists_list playlists_insert playlist_title
    playlist_description sent = (Api.Ok playlist_id, sent1) ->
  clear_playlist playlist_items_list playlist_items_delete fuel playlist_id
    sent1 = (Api.Ok (Some tt), sent2) ->
  video_ids_of today_videos = Ok video_ids ->
  (forall sent' video_id e,
     playlist_items_insert sent' playlist_id video_id = Api.Raise e ->
     exists reason, e = Api.HttpError reason) ->
  main_update_playlist playlists_list playlists_insert playlist_items_list
    playlist_items_delete playlist_items_insert fuel playlist_title
    playlist_description today_videos sent
  = (Api.Ok
       (Some ("https://www.youtube.com/playlist?list=" ++ playlist_id)%string),
     sent2 ++ map (PlaylistItemsInsert playlist_id) video_ids).
Proof. apply main_update_playlist_run. Qed.

(** X11: a video without an id stops the run after the playlist was
    cleared.  The ids are read from the videos of the day once the
    playlist has been found and cleared: if one of the videos has no
    ['video_id'], [main] raises [KeyError] then, the deletions are
    done and no video has been asked to be inserted. *)
Theorem main_update_playlist_missing_id (fuel : nat)
    (playlist_title playlist_description playlist_id : string)
    (before after : list json) (entries : list (string * json))
    (sent sent1 sent2 : list request) :
  find_or_create_playlist playlists_list playlists_insert playlist_title
    playlist_description sent = (Api.Ok playlist_id, sent1) ->
  clear_playlist playlist_items_list playlist_items_delete fuel playlist_id
    sent1 = (Api.Ok (Some tt), sent2) ->
  Forall (fun v => returns (subscript "video_id" v)) before ->
  dict_get "video_id" entries = None ->
  main_update_playlist playlists_list playlists_insert playlist_items_list
    playlist_items_delete playlist_items_insert fuel playlist_title
    playlist_description (before ++ JDict entries :: after) sent
  = (Api.Raise (Api.Error (KeyError "video_id")), sent2).
Proof.
  intros Hfind Hclear Hbefore Hmissing.
  unfold main_update_playlist, io_bind at 1. rewrite Hfind.
  unfold io_bind at 1. rewrite Hclear.
  assert (Hids : video_ids_of (before ++ JDict entries :: after)
                 = Raise (KeyError "video_id")).
  { induction Hbefore as [|v before [video_id Hv] _ IH];
      cbn [app video_ids_of].
    - unfold subscript. now rewrite Hmissing.
    - rewrite Hv. cbn [bind]. now rewrite IH. }
  unfold io_bind, io_lift. now rewrite Hids.
Qed.
End PlaylistFacts.

(** The second page of the listing fails: two listing requests, no
    deletion, and the call returns. *)
Lemma clear_playlist_failed_listing_witness :
  list_item_ids sample_playlist_items_list_failing 5 "PL1" None [] []
  = (Api.Raise (Api.HttpError "500"),
     [PlaylistItemsList "PL1" None; PlaylistItemsList "PL1" (Some "page2")])
  /\ clear_playlist sample_playlist_items_list_failing
       sample_playlist_items_delete 5 "PL1" []
     = (Api.Ok (Some tt),
        [PlaylistItemsList "PL1" None;
         PlaylistItemsList "PL1" (Some "page2")])
  /\ exists tokens,
       [PlaylistItemsList "PL1" None; PlaylistItemsList "PL1" (Some "page2")]
       = [] ++ map (PlaylistItemsList "PL1") tokens.
Proof.
  split; [reflexivity|].
  exact (clear_playlist_failed_listing sample_playlist_items_list_failing
           sample_playlist_items_delete 5 "PL1" [] _ _ eq_refl).
Defined.

(** Three items are listed; the deletion of the second is refused, the
    third is not asked for, and the call returns. *)
Lemma clear_playlist_deletions_witness :
  list_item_ids sample_playlist_items_list 5 "PL1" None [] []
  = (Api.Ok (Some ["item1"; "item2"; "item3"]),
     [PlaylistItemsList "PL1" None; PlaylistItemsList "PL1" (Some "page2")])
  /\ (exists done rest,
        ["item1"; "item2"; "item3"] = done ++ rest
        /\ snd (clear_playlist sample_playlist_items_list
                  sample_playlist_items_delete 5 "PL1" [])
           = [PlaylistItemsList "PL1" None;
              PlaylistItemsList "PL1" (Some "page2")]
             ++ map PlaylistItemsDelete done
        /\ (forall reason,
              fst (clear_playlist sample_playlist_items_list
                     sample_playlist_items_delete 5 "PL1" [])
              <> Api.Raise (Api.HttpError reason))
        /\ (rest = []
            /\ fst (clear_playlist sample_playlist_items_list
                      sample_playlist_items_delete 5 "PL1" [])
               = Api.Ok (Some tt)
            /\ (forall earlier item_id later,
                  done = earlier ++ item_id :: later ->
                  sample_playlist_items_delete
                    ([PlaylistItemsList "PL1" None;
                      PlaylistItemsList "PL1" (Some "page2")]
                     ++ map PlaylistItemsDelete earlier) item_id
                  = Api.Ok tt)
            \/ exists before item_id e,
                 done = before ++ [item_id]
                 /\ (forall earlier item_id' later,
                       before = earlier ++ item_id' :: later ->
                       sample_playlist_items_delete
                         ([PlaylistItemsList "PL1" None;
                           PlaylistItemsList "PL1" (Some "page2")]
                          ++ map PlaylistItemsDelete earlier) item_id'
                       = Api.Ok tt)
                 /\ sample_playlist_items_delete
                      ([PlaylistItemsList "PL1" None;
                        PlaylistItemsList "PL1" (Some "page2")]
                       ++ map PlaylistItemsDelete before) item_id
                    = Api.Raise e
                 /\ fst (clear_playlist sample_playlist_items_list
                           sample_playlist_items_delete 5 "PL1" [])
                    = match e with
                      | Api.HttpError _ => Api.Ok (Some tt)
                      | _ => Api.Raise e
                      end))
  /\ clear_playlist sample_playlist_items_list sample_playlist_items_delete
       5 "PL1" []
     = (Api.Ok (Some tt),
        [PlaylistItemsList "PL1" None; PlaylistItemsList "PL1" (Some "page2");
         PlaylistItemsDelete "item1"; PlaylistItemsDelete "item2"]).
Proof.
  split; [reflexivity|]. split; [|reflexivity].
  exact (clear_playlist_deletions sample_playlist_items_list
           sample_playlist_items_delete 5 "PL1" [] _ _ eq_refl).
Defined.

(** The update for 4 January against the sample service whose listing
    fails: the playlist is found, nothing is deleted, and the three
    videos are asked for all the same, the refused one included. *)
Lemma main_update_playlist_adds_witness :
  (find_or_create_playlist sample_playlists_list sample_playlists_insert
     "On This Day: January 04" "" [] = (Api.Ok "PL1", [PlaylistsList])
   /\ clear_playlist sample_playlist_items_list_failing
        sample_playlist_items_delete 5 "PL1" [PlaylistsList]
      = (Api.Ok (Some tt),
         [PlaylistsList; PlaylistItemsList "PL1" None;
          PlaylistItemsList "PL1" (Some "page2")])
   /\ video_ids_of (map video_to_json sample_today_videos)
      = Ok [JStr "b"; JStr "i"; JStr "a"]
   /\ (forall sent' video_id e,
         sample_playlist_items_insert sent' "PL1" video_id = Api.Raise e ->
         exists reason, e = Api.HttpError reason))
  /\ main_update_playlist sample_playlists_list sample_playlists_insert
       sample_playlist_items_list_failing sample_playlist_items_delete
       sample_playlist_items_insert 5 "On This Day: January 04" ""
       (map video_to_json sample_today_videos) []
     = (Api.Ok (Some "https://www.youtube.com/playlist?list=PL1"),
        [PlaylistsList; PlaylistItemsList "PL1" None;
         PlaylistItemsList "PL1" (Some "page2")]
        ++ map (PlaylistItemsInsert "PL1") [JStr "b"; JStr "i"; JStr "a"]).
Proof.
  assert (Honly : forall sent' video_id e,
            sample_playlist_items_insert sent' "PL1" video_id
            = Api.Raise e ->
            exists reason, e = Api.HttpError reason).
  { intros sent' video_id e. unfold sample_playlist_items_insert.
    destruct video_id as [| | |s| |]; try discriminate.
    repeat (destruct s as [|[[] [] [] [] [] [] [] []] s];
            try discriminate).
    intros [= <-]. now eexists. }
  split; [repeat split; (reflexivity || exact Honly)|].
  exact (main_update_playlist_adds sample_playlists_list
           sample_playlists_insert sample_playlist_items_list_failing
           sample_playlist_items_delete sample_playlist_items_insert 5
           "On This Day: January 04" "" "PL1"
           (map video_to_json sample_today_videos)
           [JStr "b"; JStr "i"; JStr "a"] [] _ _
           eq_refl eq_refl eq_refl Honly).
Defined.

(** A video of the day without its id, after a video with one: the
    playlist is found and cleared, and the run raises. *)
Lemma main_update_playlist_missing_id_witness :
  (find_or_create_playlist sample_playlists_list sample_playlists_insert
     "On This Day: January 04" "" [] = (Api.Ok "PL1", [PlaylistsList])
   /\ clear_playlist sample_playlist_items_list
        sample_playlist_items_delete 5 "PL1" [PlaylistsList]
      = (Api.Ok (Some tt),
         [PlaylistsList; PlaylistItemsList "PL1" None;
          PlaylistItemsList "PL1" (Some "page2");
          PlaylistItemsDelete "item1"; PlaylistItemsDelete "item2"])
   /\ Forall (fun v => returns (subscript "video_id" v))
        [video_to_json (sample_video "b" (Some "2020-01-04"))]
   /\ dict_get "video_id"
        [("title", JStr "Untitled"); ("recording_date", JStr "2021-01-04")]
      = None)
  /\ main_update_playlist sample_playlists_list sample_playlists_insert
       sample_playlist_items_list sample_playlist_items_delete
       sample_playlist_items_insert 5 "On This Day: January 04" ""
       ([video_to_json (sample_video "b" (Some "2020-01-04"))]
        ++ JDict [("title", JStr "Untitled");
                  ("recording_date", JStr "2021-01-04")]
        :: []) []
     = (Api.Raise (Api.Error (KeyError "video_id")),
        [PlaylistsList; PlaylistItemsList "PL1" None;
         PlaylistItemsList "PL1" (Some "page2");
         PlaylistItemsDelete "item1"; PlaylistItemsDelete "item2"]).
Proof.
  assert (H : Forall (fun v => returns (subscript "video_id" v))
                [video_to_json (sample_video "b" (Some "2020-01-04"))]).
  { repeat constructor. now eexists. }
  split; [repeat split; (exact H || reflexivity)|].
  exact (main_update_playlist_missing_id sample_playlists_list
           sample_playlists_insert sample_playlist_items_list
           sample_playlist_items_delete sample_playlist_items_insert 5
           "On This Day: January 04" "" "PL1"
           [video_to_json (sample_video "b" (Some "2020-01-04"))] []
           [("title", JStr "Untitled"); ("recording_date", JStr "2021-01-04")]
           [] _ _ eq_refl eq_refl H eq_refl).
Defined.
(** ** The Reddit post *)
Section RedditPostFacts.
Variable submit :
  list reddit_request -> string -> string -> string
  -> Api.result Submission.t.
Variable flair_choices :
  list reddit_request -> string -> Api.result (list Flair.t).
Variable flair_select :
  list reddit_request -> string -> string -> Api.result unit.
Variable error_str : Api.error -> string.

(** X12: with a logger, the flair cannot make the post fail.  Once
    Reddit has accepted the submission, [create_reddit_post] returns
    the URL of the post, whatever becomes of the flair: no flair
    wanted, no flair with the wanted text, or an exception of the
    request for the choices or of the selection.  The choices are
    asked for only if a flair is wanted, and at most one flair is
    selected, the first with the wanted text.  If the submission
    raises, nothing else is requested and the call raises an
    [Exception] with the message of the function. *)
Theorem create_reddit_post_flair_not_fatal
    (subreddit_name title body : string) (flair_text : option string)
    (sent : list reddit_request) :
  let outcome :=
    create_reddit_post submit flair_choices flair_select error_str
      subreddit_name title body flair_text (Some Logger) sent in
  match submit sent subreddit_name title body with
  | Api.Ok submission =>
      outcome
      = (Api.Ok ("https://www.reddit.com"
                 ++ Submission.permalink submission)%string,
         sent ++ Submit subreddit_name title body
                 :: flair_requests flair_choices
                      (sent ++ [Submit subreddit_name title body])
                      submission flair_text)
  | Api.Raise e =>
      outcome
      = (Api.Raise (Api.Error
           (Exception ("Error creating Reddit post: " ++ error_str e)%string)),
         sent ++ [Submit subreddit_name title body])
  end.
Proof.
  intros outcome. subst outcome.
  unfold create_reddit_post, except_Exception, io_bind, execute.
  cbv beta.
  destruct (submit sent subreddit_name title body) as [submission|e];
    [|reflexivity].
  unfold flair_requests.
  destruct flair_text as [text|]; [|reflexivity].
  destruct (truthy text); [|reflexivity].
  unfold select_flair, io_bind, execute, logger_call, io_ret.
  cbv beta.
  destruct (flair_choices _ _) as [choices|e];
    [|cbn; now rewrite <- app_assoc].
  destruct (List.find _ choices) as [flair|];
    [|cbn; now rewrite <- app_assoc].
  destruct (flair_select _ _ _) as [[]|e]; cbn;
    now rewrite <- !app_assoc.
Qed.

(** X13: without a logger the call never returns the URL.  [logger] is
    [None] by default, and the function logs the URL before it returns
    it: with [logger=None] every call raises an [Exception] with the
    message of the function, also when Reddit has accepted the
    submission, which is then the first request sent. *)
Theorem create_reddit_post_without_logger
    (subreddit_name title body : string) (flair_text : option string)
    (sent : list reddit_request) :
  exists e more,
    create_reddit_post submit flair_choices flair_select error_str
      subreddit_name title body flair_text None sent
    = (Api.Raise (Api.Error
         (Exception ("Error creating Reddit post: " ++ error_str e)%string)),
       sent ++ Submit subreddit_name title body :: more)
    /\ (forall submission,
          submit sent subreddit_name title body = Api.Ok submission ->
          e = Api.Error AttributeError).
Proof.
  unfold create_reddit_post, except_Exception, io_bind at 1, execute.
  cbv beta.
  destruct (submit sent subreddit_name title body) as [submission|e].
  2:{ exists e, []. split; [reflexivity|discriminate]. }
  exists (Api.Error AttributeError).
  assert (Hplain : exists more,
    (let (r, sent') :=
       (let+ _ := io_ret tt in
        let+ _ := logger_call None in
        io_ret ("https://www.reddit.com"
                ++ Submission.permalink submission)%string)
         (sent ++ [Submit subreddit_name title body]) in
     match r with
     | Api.Ok _ => (r, sent')
     | Api.Raise e0 =>
         io_raise (Exception ("Error creating Reddit post: "
                              ++ error_str e0)%string) sent'
     end)
    = (Api.Raise (Api.Error
         (Exception ("Error creating Reddit post: "
                     ++ error_str (Api.Error AttributeError))%string)),
       sent ++ Submit subreddit_name title body :: more)).
  { exists []. reflexivity. }
  destruct flair_text as [text|].
  2:{ destruct Hplain as [more H]. exists more. now split. }
  destruct (truthy text).
  2:{ destruct Hplain as [more H]. exists more. now split. }
  clear Hplain.
  unfold select_flair, io_bind, execute, logger_call, io_ret, io_raise.
  cbv beta.
  destruct (flair_choices _ _) as [choices|e].
  2:{ eexists. split; [|reflexivity]. cbn. now rewrite <- app_assoc. }
  destruct (List.find _ choices) as [flair|].
  2:{ eexists. split; [|reflexivity]. cbn. now rewrite <- app_assoc. }
  destruct (flair_select _ _ _) as [[]|e]; eexists;
    (split; [|reflexivity]); cbn; now rewrite <- !app_assoc.
Qed.
End RedditPostFacts.
(** ** The backup and the ingestion run *)

Lemma append_backup_ne (file_path : string) :
  (file_path ++ ".backup")%string <> file_path.
Proof.
  intros H. apply (f_equal String.length) in H.
  rewrite length_append in H. cbn in H. lia.
Qed.

(** X14: [create_backup] writes the backup path and nothing else.  The
    file itself and every other file are as before; if the file does
    not exist, nothing changes at all; and a second call in a row
    changes nothing. *)
Theorem create_backup_frame (file_path : string) (fs : filesystem) :
  (forall p, p <> (file_path ++ ".backup")%string ->
             create_backup file_path fs !! p = fs !! p)
  /\ create_backup file_path fs !! file_path = fs !! file_path
  /\ (forall content,
        fs !! file_path = Some content ->
        create_backup file_path fs !! (file_path ++ ".backup")%string
        = Some content)
  /\ (fs !! file_path = None -> create_backup file_path fs = fs)
  /\ create_backup file_path (create_backup file_path fs)
     = create_backup file_path fs.
Proof.
  assert (Hother : forall p, p <> (file_path ++ ".backup")%string ->
            create_backup file_path fs !! p = fs !! p).
  { intros p Hp. unfold create_backup.
    destruct (fs !! file_path); [|reflexivity].
    now rewrite lookup_insert_ne. }
  split; [exact Hother|]. split; [|split; [|split]].
  - apply Hother, not_eq_sym, append_backup_ne.
  - intros content H. unfold create_backup. rewrite H.
    apply lookup_insert_eq.
  - intros H. unfold create_backup. now rewrite H.
  - unfold create_backup at 1.
    rewrite (Hother file_path) by apply not_eq_sym, append_backup_ne.
    unfold create_backup.
    destruct (fs !! file_path) as [content|]; [|reflexivity].
    apply insert_insert_eq.
Qed.

Section IngestionRunFacts.
Variable strptime : string -> string -> result datetime.t.
Variable parser_parse_fuzzy : string -> result datetime.t.
Variable strftime_ymd : datetime.t -> string.
Variable json_dump : json -> string.

(** X15: an [HttpError] on the first page empties the catalogue.  The
    fetch then returns the empty list instead of raising, and [main]
    goes on: it saves a database without videos over the existing one,
    whose text survives in the backup file only. *)
Theorem main_fetch_and_store_after_HttpError (fuel : nat)
    (youtube : option string -> api_response) (cfg : config)
    (channel_id channel_title channel_handle uploads_playlist_id
     now_main now : string) (fs : filesystem) :
  youtube None = HttpError ->
  exists fs',
    main_fetch_and_store strptime parser_parse_fuzzy strftime_ymd json_dump
      (S fuel) youtube cfg channel_id channel_title channel_handle
      uploads_playlist_id now_main now fs
    = Some (Ok
        (JDict [ ("channel_info",
                  JDict [ ("channel_id", JStr channel_id);
                          ("channel_name", JStr channel_title);
                          ("channel_handle", JStr channel_handle);
                          ("uploads_playlist_id", JStr uploads_playlist_id);
                          ("total_videos", JInt 0);
                          ("last_updated", JStr now) ]);
                 ("videos", JList []) ], fs'))
    /\ fs' !! db_path
       = Some (json_dump
           (JDict [ ("channel_info",
                     JDict [ ("channel_id", JStr channel_id);
                             ("channel_name", JStr channel_title);
                             ("channel_handle", JStr channel_handle);
                             ("uploads_playlist_id",
                              JStr uploads_playlist_id);
                             ("total_videos", JInt 0);
                             ("last_updated", JStr now) ]);
                    ("videos", JList []) ]))
    /\ (forall prior, fs !! db_path = Some prior ->
                      fs' !! backup_path = Some prior)
    /\ (forall p, p <> db_path -> p <> backup_path -> fs' !! p = fs !! p).
Proof.
  intros Hfirst.
  unfold main_fetch_and_store, fetch_all_videos_from_playlist.
  cbn [fetch_loop]. rewrite Hfirst.
  unfold main_store, save_videos_db. cbn [set_last_updated dict_get
    String.eqb Ascii.eqb Bool.eqb dict_set length map Z.of_nat bind].
  eexists. split; [reflexivity|]. split; [apply lookup_insert_eq|].
  split.
  - intros prior Hprior. rewrite Hprior.
    rewrite lookup_insert_ne by apply db_path_ne_backup_path.
    unfold create_backup. rewrite Hprior. apply lookup_insert_eq.
  - intros p Hp Hb. rewrite lookup_insert_ne by now apply not_eq_sym.
    destruct (fs !! db_path) as [prior|] eqn:E; [|reflexivity].
    unfold create_backup. rewrite E.
    rewrite lookup_insert_ne; [reflexivity|]. now apply not_eq_sym.
Qed.
End IngestionRunFacts.

(** The run against a service that is down, over the sample file
    system with its prior snapshot. *)
Lemma main_fetch_and_store_after_HttpError_witness :
  (fun _ : option string => HttpError) None = HttpError
  /\ exists fs',
       main_fetch_and_store Lib.strptime Lib.parser_parse_fuzzy
         Lib.strftime_ymd Lib.json_dump 1 (fun _ => HttpError) sample_config
         "UC123" "Adam The Woo" "@TheDailyWoo" "UU123"
         "2024-01-04T09:00:00" "2024-01-04T09:00:01" sample_prior_fs
       = Some (Ok
           (JDict [ ("channel_info",
                     JDict [ ("channel_id", JStr "UC123");
                             ("channel_name", JStr "Adam The Woo");
                             ("channel_handle", JStr "@TheDailyWoo");
                             ("uploads_playlist_id", JStr "UU123");
                             ("total_videos", JInt 0);
                             ("last_updated", JStr "2024-01-04T09:00:01") ]);
                    ("videos", JList []) ], fs'))
       /\ fs' !! db_path
          = Some (Lib.json_dump
              (JDict [ ("channel_info",
                        JDict [ ("channel_id", JStr "UC123");
                                ("channel_name", JStr "Adam The Woo");
                                ("channel_handle", JStr "@TheDailyWoo");
                                ("uploads_playlist_id", JStr "UU123");
                                ("total_videos", JInt 0);
                                ("last_updated",
                                 JStr "2024-01-04T09:00:01") ]);
                       ("videos", JList []) ]))
       /\ (forall prior, sample_prior_fs !! db_path = Some prior ->
                         fs' !! backup_path = Some prior)
       /\ (forall p, p <> db_path -> p <> backup_path ->
                     fs' !! p = sample_prior_fs !! p).
Proof.
  split; [reflexivity|].
  exact (main_fetch_and_store_after_HttpError Lib.strptime
           Lib.parser_parse_fuzzy Lib.strftime_ymd Lib.json_dump 0
           (fun _ => HttpError) sample_config "UC123" "Adam The Woo"
           "@TheDailyWoo" "UU123" "2024-01-04T09:00:00"
           "2024-01-04T09:00:01" sample_prior_fs eq_refl).
Defined.
(** ** More on the sort and the matcher *)
Section SortedFacts.
Context {A : Type} (key : A -> string).

Lemma str_le_ltb_false (a b : string) : str_le a b -> String.ltb b a = false.
Proof.
  unfold str_le, String.leb, String.ltb.
  rewrite (String.compare_antisym b a).
  destruct (String.compare a b); simpl; congruence.
Qed.

Lemma insert_by_least (x : A) (l : list A) :
  Forall (key_le key x) l -> insert_by key x l = x :: l.
Proof.
  destruct 1 as [|y l Hy _]; cbn [insert_by]; [reflexivity|].
  now rewrite (str_le_ltb_false _ _ Hy).
Qed.

(** Sorting a sorted list changes nothing. *)
Lemma list_sort_sorted_id (l : list A) :
  StronglySorted (key_le key) l -> list_sort key l = l.
Proof.
  induction 1 as [|x l _ IH Hx]; cbn [list_sort]; [reflexivity|].
  rewrite IH. now apply insert_by_least.
Qed.

Lemma StronglySorted_last (l : list A) (x d : A) :
  StronglySorted (key_le key) l -> In x l ->
  key_le key x (List.last l d).
Proof.
  induction 1 as [|a l Hs IH Ha]; [intros []|].
  intros Hin. destruct l as [|b l].
  - destruct Hin as [<-|[]]. apply str_le_refl.
  - change (List.last (a :: b :: l) d) with (List.last (b :: l) d).
    destruct Hin as [<-|Hin]; [|now apply IH].
    rewrite List.Forall_forall in Ha. apply Ha.
    clear. revert b. induction l as [|c l IHl]; intros b; [now left|].
    right. apply IHl.
Qed.
End SortedFacts.

Lemma last_In {A : Type} (l : list A) (a d : A) :
  In (List.last (a :: l) d) (a :: l).
Proof.
  revert a. induction l as [|b l IH]; intros a; [now left|].
  right. apply IH.
Qed.

Lemma filter_all {A : Type} (p : A -> bool) (l : list A) :
  Forall (fun a => p a = true) l -> List.filter p l = l.
Proof.
  induction 1 as [|a l Ha _ IH]; cbn [List.filter]; [reflexivity|].
  now rewrite Ha, IH.
Qed.

Lemma filter_none {A : Type} (p : A -> bool) (l : list A) :
  Forall (fun a => p a = false) l -> List.filter p l = [].
Proof.
  induction 1 as [|a l Ha _ IH]; cbn [List.filter]; [reflexivity|].
  now rewrite Ha.
Qed.

Section MatcherAgain.
Variable fromisoformat : string -> result datetime.t.
Hypothesis fromisoformat_ValueError :
  forall s e, fromisoformat s = Raise e -> isinstance_ValueError e = true.
Hypothesis fromisoformat_empty : forall d, fromisoformat "" <> Ok d.

(** X16: the answer of the matcher is a fixed point.  Asked again about
    the videos it has returned, for the same day, the matcher returns
    them unchanged and in the same order; asked about them for any
    other day, it returns nothing. *)
Theorem get_videos_for_date_idempotent (videos_db : catalogue)
    (month day : Z) :
  exists found,
    get_videos_for_date fromisoformat videos_db month day = Ok found
    /\ (forall channel_name last_updated,
          get_videos_for_date fromisoformat
            (Catalogue.make channel_name last_updated found) month day
          = Ok found)
    /\ (forall channel_name last_updated month' day',
          (month', day') <> (month, day) ->
          get_videos_for_date fromisoformat
            (Catalogue.make channel_name last_updated found) month' day'
          = Ok []).
Proof.
  eexists. split.
  { apply (get_videos_for_date_sorted_filter fromisoformat
             fromisoformat_ValueError fromisoformat_empty). }
  set (found := list_sort sort_key _).
  assert (Hfound : Forall (fun v => recorded_on fromisoformat month day v
                                    = true) found).
  { rewrite List.Forall_forall. intros v Hv.
    apply (Permutation_in _ (list_sort_Permutation sort_key _)) in Hv.
    now apply filter_In in Hv. }
  split.
  - intros channel_name last_updated.
    rewrite (get_videos_for_date_sorted_filter fromisoformat
               fromisoformat_ValueError fromisoformat_empty).
    cbn [Catalogue.videos]. rewrite (filter_all _ _ Hfound).
    f_equal. apply list_sort_sorted_id, list_sort_sorted.
  - intros channel_name last_updated month' day' Hother.
    rewrite (get_videos_for_date_sorted_filter fromisoformat
               fromisoformat_ValueError fromisoformat_empty).
    cbn [Catalogue.videos]. rewrite filter_none; [reflexivity|].
    eapply List.Forall_impl; [|exact Hfound]. intros v Hv.
    destruct (recorded_on fromisoformat month' day' v) eqn:Hv';
      [|reflexivity].
    apply (recorded_on_inv fromisoformat) in Hv, Hv'.
    destruct Hv as (s & d & Hs & Hd & <- & <-).
    destruct Hv' as (s' & d' & Hs' & Hd' & <- & <-).
    rewrite Hs in Hs'. injection Hs' as <-. rewrite Hd in Hd'.
    injection Hd' as <-. now destruct Hother.
Qed.
End MatcherAgain.

(** The query for 4 January on the sample catalogue, asked again about
    its own answer. *)
Lemma get_videos_for_date_idempotent_witness :
  (exists found,
     get_videos_for_date Lib.fromisoformat sample_db 1 4 = Ok found
     /\ (forall channel_name last_updated,
           get_videos_for_date Lib.fromisoformat
             (Catalogue.make channel_name last_updated found) 1 4
           = Ok found)
     /\ (forall channel_name last_updated month' day',
           (month', day') <> (1, 4) ->
           get_videos_for_date Lib.fromisoformat
             (Catalogue.make channel_name last_updated found) month' day'
           = Ok []))
  /\ get_videos_for_date Lib.fromisoformat
       (Catalogue.make "" None sample_today_videos) 1 4
     = Ok sample_today_videos
  /\ get_videos_for_date Lib.fromisoformat sample_db 1 4
     = Ok sample_today_videos.
Proof.
  split; [|split; vm_compute; reflexivity].
  exact (get_videos_for_date_idempotent Lib.fromisoformat
           Lib_fromisoformat_ValueError Lib_fromisoformat_empty
           sample_db 1 4).
Defined.

(** ** From the title to the day *)
Section IngestThenMatch.
Variable strptime : string -> string -> result datetime.t.
Variable parser_parse_fuzzy : string -> result datetime.t.
Variable strftime_ymd : datetime.t -> string.
Variable fromisoformat : string -> result datetime.t.

(** X17: a video is found on the day its title names.  If the date
    extractor finds the date [d] in the title of a retained entry, and
    [fromisoformat] reads the text that [strftime] writes for [d] as a
    date with the month and the day of [d], then the matcher, asked
    about the ingested videos for that month and day, returns the
    record of the entry. *)
Theorem ingested_video_found_on_its_day (cfg : config)
    (items : list snippet) (item : snippet) (d d' : datetime.t)
    (channel_name : string) (last_updated : option string) :
  (forall s e, fromisoformat s = Raise e -> isinstance_ValueError e = true) ->
  (forall d, fromisoformat "" <> Ok d) ->
  (forall item', In item' items -> retained item' = true ->
     returns (parse_date_from_title strptime parser_parse_fuzzy
                (Snippet.title item') cfg)) ->
  In item items ->
  retained item = true ->
  parse_date_from_title strptime parser_parse_fuzzy (Snippet.title item) cfg
  = Ok (Some d) ->
  fromisoformat (strftime_ymd d) = Ok d' ->
  datetime.month d' = datetime.month d ->
  datetime.day d' = datetime.day d ->
  exists videos found,
    process_items strptime parser_parse_fuzzy strftime_ymd cfg [] items
    = Ok videos
    /\ get_videos_for_date fromisoformat
         (Catalogue.make channel_name last_updated videos)
         (datetime.month d) (datetime.day d)
       = Ok found
    /\ In (assemble_spec strptime parser_parse_fuzzy strftime_ymd cfg item)
         found.
Proof.
  intros HVE Hempty Hreturns Hin Hkeep Hd Hread Hmonth Hday.
  eexists. eexists. split.
  { apply (process_items_assemble strptime parser_parse_fuzzy strftime_ymd
             cfg items [] Hreturns). }
  split.
  { apply (get_videos_for_date_sorted_filter fromisoformat HVE Hempty). }
  apply (Permutation_in _
           (Permutation_sym (list_sort_Permutation sort_key _))).
  cbn [Catalogue.videos app]. apply filter_In. split.
  - apply in_map. apply filter_In. now split.
  - unfold recorded_on. cbn [assemble_spec VideoRecord.recording_date].
    unfold recording_date_spec, extracted. rewrite Hd, Hread, Hmonth, Hday.
    now rewrite !Z.eqb_refl.
Qed.
End IngestThenMatch.

(** The first sample page: the entry titled "2019-03-14" is found on
    14 March. *)
Lemma ingested_video_found_on_its_day_witness :
  exists videos found,
    process_items Lib.strptime Lib.parser_parse_fuzzy Lib.strftime_ymd
      sample_config [] sample_items_page1 = Ok videos
    /\ get_videos_for_date Lib.fromisoformat
         (Catalogue.make "Adam The Woo" None videos) 3 14
       = Ok found
    /\ In (assemble_spec Lib.strptime Lib.parser_parse_fuzzy
             Lib.strftime_ymd sample_config
             (Snippet.make "2019-03-14" "v1" (Some "Pi day")
                "2019-03-20T10:00:00Z" (Some "https://img/v1.jpg")))
         found.
Proof.
  apply (ingested_video_found_on_its_day Lib.strptime Lib.parser_parse_fuzzy
           Lib.strftime_ymd Lib.fromisoformat sample_config
           sample_items_page1
           (Snippet.make "2019-03-14" "v1" (Some "Pi day")
              "2019-03-20T10:00:00Z" (Some "https://img/v1.jpg"))
           (datetime.make 2019 3 14) (datetime.make 2019 3 14)
           "Adam The Woo" None
           Lib_fromisoformat_ValueError Lib_fromisoformat_empty).
  - intros item' _ _. apply sample_config_returns.
  - now left.
  - reflexivity.
  - vm_compute. reflexivity.
  - vm_compute. reflexivity.
  - reflexivity.
  - reflexivity.
Defined.

(** ** The statistics of the ingestion run *)

(** X18: the date range that [main] reports.  If some video has a
    non-empty recording date, the two ends are recording dates of
    videos, and every non-empty recording date lies between them in
    the order of strings; reading the ends of the list of dates never
    fails.  If no video has one, no range is
    reported. *)
Theorem date_range_bounds (videos : list video) :
  match date_range videos with
  | Range first last =>
      (exists v, In v videos /\ VideoRecord.recording_date v = Some first)
      /\ (exists v, In v videos /\ VideoRecord.recording_date v = Some last)
      /\ (forall v s,
            In v videos -> VideoRecord.recording_date v = Some s ->
            s <> "" -> str_le first s /\ str_le s last)
  | NoRange =>
      forall v, In v videos ->
                truthy_opt (VideoRecord.recording_date v) = false
  | RaisesIndexError => False
  end.
Proof.
  unfold date_range, videos_with_dates.
  set (dated := List.filter
                  (fun v => truthy_opt (VideoRecord.recording_date v))
                  videos).
  assert (Hdated : forall s, In s (map sort_key dated) <->
            exists v, In v videos
                      /\ VideoRecord.recording_date v = Some s /\ s <> "").
  { intros s. rewrite in_map_iff. split.
    - intros (v & <- & Hv). apply filter_In in Hv. destruct Hv as [Hv Ht].
      exists v. unfold sort_key.
      destruct (VideoRecord.recording_date v) as [[|c s]|]; try discriminate.
      now repeat split.
    - intros (v & Hv & Hs & Hne). exists v. unfold sort_key. rewrite Hs.
      split; [reflexivity|]. apply filter_In. split; [exact Hv|].
      rewrite Hs. now destruct s. }
  pose proof (list_sort_Permutation (fun date : string => date)
                (map sort_key dated)) as Hperm.
  pose proof (list_sort_sorted (fun date : string => date)
                (map sort_key dated)) as Hsorted.
  destruct (list_sort (fun date : string => date) (map sort_key dated))
    as [|first dates] eqn:E.
  - assert (Hnone : forall v, In v videos ->
              truthy_opt (VideoRecord.recording_date v) = false).
    { intros v Hv.
      destruct (truthy_opt (VideoRecord.recording_date v)) eqn:Ht;
        [|reflexivity].
      apply Permutation_nil in Hperm.
      assert (Hin : In v dated) by (apply filter_In; now split).
      apply (in_map sort_key) in Hin. rewrite Hperm in Hin. destruct Hin. }
    assert (Hlen : (0 <? length dated)%nat = false).
    { apply Nat.ltb_ge. apply Permutation_nil in Hperm.
      apply (f_equal (@length _)) in Hperm. rewrite length_map in Hperm.
      cbn [length] in Hperm. lia. }
    now rewrite Hlen.
  - assert (Hlen : (0 <? length dated)%nat = true).
    { apply Nat.ltb_lt. apply Permutation_length in Hperm.
      rewrite length_map in Hperm. cbn [length] in Hperm. lia. }
    rewrite Hlen.
    assert (Hmem : forall s, In s (first :: dates) <->
              exists v, In v videos
                        /\ VideoRecord.recording_date v = Some s /\ s <> "").
    { intros s. rewrite <- Hdated. split; apply Permutation_in;
        [exact Hperm|now apply Permutation_sym]. }
    split; [|split].
    + destruct (proj1 (Hmem first) (or_introl eq_refl)) as (v & Hv & Hs & _).
      now exists v.
    + destruct (proj1 (Hmem _) (last_In dates first first))
        as (v & Hv & Hs & _).
      now exists v.
    + intros v s Hv Hs Hne.
      assert (Hin : In s (first :: dates)) by (apply Hmem; now exists v).
      split.
      * destruct Hin as [<-|Hin]; [apply str_le_refl|].
        apply StronglySorted_inv in Hsorted. destruct Hsorted as [_ Hfirst].
        rewrite List.Forall_forall in Hfirst. now apply Hfirst.
      * apply (StronglySorted_last (fun date : string => date) _ s first
                 Hsorted Hin).
Qed.

(** ** What the returned list refers to *)
Section HeapSharing.
Variable fromisoformat : string -> result datetime.t.
Hypothesis fromisoformat_ValueError :
  forall s e, fromisoformat s = Raise e -> isinstance_ValueError e = true.
Hypothesis fromisoformat_empty : forall d, fromisoformat "" <> Ok d.

(** X19: the matcher copies no video.  The list it returns holds
    references, and each of them is one of the references in the
    catalogue's own list, to a video dictionary that was there before
    the call and is unchanged: the caller and the catalogue share the
    video dictionaries. *)
Theorem heap_get_videos_for_date_shares_videos (h : heap) (videos_db : nat)
    (cat : catalogue) (month day : Z) :
  read_catalogue h videos_db = Some cat ->
  exists m h' found_refs,
    heap_get_videos_for_date fromisoformat h videos_db month day
    = Some (Ok (m, h'))
    /\ h' !! m = Some (OList found_refs)
    /\ Forall (fun r =>
         (exists v, h !! r = Some (OVideo v) /\ h' !! r = Some (OVideo v))
         /\ exists channel_info l refs,
              h !! videos_db = Some (OCatalogue channel_info (Some l))
              /\ h !! l = Some (OList refs)
              /\ In r refs)
         found_refs.
Proof.
  unfold read_catalogue.
  destruct (h !! videos_db) as [[| | |ci videos]|] eqn:Hdb; try discriminate.
  destruct (h !! ci) as [[| |name updated|]|] eqn:Hci; try discriminate.
  intros Hcat.
  assert (Hvs : exists refs,
    match videos with
    | Some l => h !! l = Some (OList refs)
    | None => refs = []
    end
    /\ Forall2 (fun r v => h !! r = Some (OVideo v)) refs
         (Catalogue.videos cat)).
  { destruct videos as [l|].
    - unfold read_list in Hcat.
      destruct (h !! l) as [[|refs| |]|] eqn:Hl; try discriminate.
      destruct (read_videos h refs) as [vs|] eqn:Hrefs; [|discriminate].
      injection Hcat as <-. exists refs. split; [reflexivity|].
      now apply read_videos_map.
    - injection Hcat as <-. exists []. split; [reflexivity|constructor]. }
  destruct Hvs as (refs & Hl & Hrefs).
  set (ms := List.filter
               (fun r => recorded_on fromisoformat month day (heap_video h r))
               refs).
  set (sorted := list_sort (heap_sort_key (h ++ [OList ms])) ms).
  exists (length h), (h ++ [OList sorted]), sorted.
  split; [|split].
  - unfold heap_get_videos_for_date.
    rewrite (lookup_app_l_Some _ _ _ _ Hdb).
    destruct videos as [l|].
    + rewrite (lookup_app_l_Some _ _ _ _ Hl).
      rewrite (heap_matching_loop_filter fromisoformat
                 fromisoformat_ValueError fromisoformat_empty
                 h month day l refs
                 (Catalogue.videos cat) Hl Hrefs (S (length refs)) 0%nat [])
        by lia.
      cbn [drop app]. fold ms. now rewrite heap_sort_fresh.
    + subst refs. now rewrite heap_sort_fresh.
  - apply (list_lookup_middle h [] (OList sorted) (length h) eq_refl).
  - rewrite List.Forall_forall. intros r Hr.
    apply (Permutation_in _ (list_sort_Permutation _ _)) in Hr.
    apply filter_In in Hr. destruct Hr as [Hr _].
    destruct videos as [l|]; [|subst refs; destruct Hr].
    split.
    + apply Forall2_video_valid in Hrefs.
      rewrite List.Forall_forall in Hrefs.
      destruct (Hrefs r Hr) as [v Hv]. exists v. split; [exact Hv|].
      now apply lookup_app_l_Some.
    + now exists ci, l, refs.
Qed.
End HeapSharing.

(** On the sample heap the list returned for 4 January refers to the
    objects at 2, 4 and 1, three of the four videos of the catalogue. *)
Lemma heap_get_videos_for_date_shares_videos_witness :
  (exists m h' found_refs,
     heap_get_videos_for_date Lib.fromisoformat sample_heap 6%nat 1 4
     = Some (Ok (m, h'))
     /\ h' !! m = Some (OList found_refs)
     /\ Forall (fun r =>
          (exists v, sample_heap !! r = Some (OVideo v)
                     /\ h' !! r = Some (OVideo v))
          /\ exists channel_info l refs,
               sample_heap !! 6%nat
               = Some (OCatalogue channel_info (Some l))
               /\ sample_heap !! l = Some (OList refs)
               /\ In r refs)
          found_refs)
  /\ heap_get_videos_for_date Lib.fromisoformat sample_heap 6%nat 1 4
     = Some (Ok (7%nat, sample_heap ++ [OList [2; 4; 1]%nat])).
Proof.
  split.
  - apply (heap_get_videos_for_date_shares_videos Lib.fromisoformat
             Lib_fromisoformat_ValueError Lib_fromisoformat_empty
             sample_heap 6%nat sample_heap_catalogue 1 4).
    reflexivity.
  - vm_compute. reflexivity.
Defined.

(** ** The matcher on loaded dictionaries *)
Section MatcherOnDictionariesFacts.
Variable fromisoformat : string -> result datetime.t.

Lemma sort_key_dict_record (v : video) :
  sort_key_dict (video_to_json v) = sort_key v.
Proof. destruct v as [i t d u [s|] l th]; reflexivity. Qed.

Lemma matching_loop_dict_records (month day : Z) (videos acc : list video) :
  matching_loop_dict fromisoformat month day (map video_to_json videos)
    (map video_to_json acc)
  = let* found := matching_loop fromisoformat month day videos acc in
    Ok (map video_to_json found).
Proof.
  revert acc.
  induction videos as [|v videos IH]; intros acc; [reflexivity|].
  cbn [map matching_loop].
  assert (Hstep :
    matching_loop_dict fromisoformat month day
      (video_to_json v :: map video_to_json videos) (map video_to_json acc)
    = match VideoRecord.recording_date v with
      | Some s =>
          if truthy s then
            match fromisoformat s with
            | Ok date_obj =>
                if (datetime.month date_obj =? month)
                   && (datetime.day date_obj =? day)
                then matching_loop_dict fromisoformat month day
                       (map video_to_json videos)
                       (map video_to_json acc ++ [video_to_json v])
                else matching_loop_dict fromisoformat month day
                       (map video_to_json videos) (map video_to_json acc)
            | Raise e =>
                if isinstance_ValueError e
                then matching_loop_dict fromisoformat month day
                       (map video_to_json videos) (map video_to_json acc)
                else Raise e
            end
          else matching_loop_dict fromisoformat month day
                 (map video_to_json videos) (map video_to_json acc)
      | None => matching_loop_dict fromisoformat month day
                  (map video_to_json videos) (map video_to_json acc)
      end).
  { destruct v as [i t d u [s|] l th]; reflexivity. }
  rewrite Hstep. clear Hstep.
  destruct (VideoRecord.recording_date v) as [s|]; [|apply IH].
  destruct (truthy s); [|apply IH].
  destruct (fromisoformat s) as [date_obj|e].
  - destruct ((datetime.month date_obj =? month)
              && (datetime.day date_obj =? day)); [|apply IH].
    rewrite <- IH. now rewrite map_app.
  - destruct (isinstance_ValueError e); [apply IH|reflexivity].
Qed.

Lemma get_videos_for_date_dict_of_records (entries : list (string * json))
    (videos_db : catalogue) (month day : Z) :
  dict_get "videos" entries
  = Some (JList (map video_to_json (Catalogue.videos videos_db))) ->
  get_videos_for_date_dict fromisoformat (JDict entries) month day
  = let* found := get_videos_for_date fromisoformat videos_db month day in
    Ok (map video_to_json found).
Proof.
  intros Hvideos.
  unfold get_videos_for_date_dict, get_videos_for_date, dict_get_default.
  rewrite Hvideos. cbn [iterate bind].
  rewrite (matching_loop_dict_records month day _ []).
  destruct (matching_loop fromisoformat month day
              (Catalogue.videos videos_db) []) as [found|e];
    cbn [bind]; [|reflexivity].
  f_equal. rewrite <- list_sort_map. f_equal.
  apply list_sort_ext.
  rewrite List.Forall_forall. intros v _. apply sort_key_dict_record.
Qed.

(** X20: the matcher on the dictionaries ingestion builds.  For a
    catalogue dictionary whose videos are dictionaries as
    [fetch_all_videos_from_playlist] builds them, the matcher returns
    the dictionaries, whole, of the records that the matcher on
    records returns, in the same order, and raises what that raises. *)
Theorem get_videos_for_date_dict_records (entries : list (string * json))
    (videos_db : catalogue) (month day : Z) :
  dict_get "videos" entries
  = Some (JList (map video_to_json (Catalogue.videos videos_db))) ->
  get_videos_for_date_dict fromisoformat (JDict entries) month day
  = let* found := get_videos_for_date fromisoformat videos_db month day in
    Ok (map video_to_json found).
Proof. apply get_videos_for_date_dict_of_records. Qed.

Lemma matching_loop_dict_passable (month day : Z) (videos acc : list json) :
  Forall (passable fromisoformat) videos ->
  Forall (recorded_on_dict fromisoformat month day) acc ->
  exists found,
    matching_loop_dict fromisoformat month day videos acc = Ok found
    /\ Forall (recorded_on_dict fromisoformat month day) found
    /\ forall v, In v found -> In v acc \/ In v videos.
Proof.
  intros Hvideos. revert acc.
  induction Hvideos as [|video videos Hvideo _ IH]; intros acc Hacc.
  - exists acc. repeat split; auto.
  - assert (Hskip : exists found,
      matching_loop_dict fromisoformat month day videos acc = Ok found
      /\ Forall (recorded_on_dict fromisoformat month day) found
      /\ forall v, In v found -> In v acc \/ In v (video :: videos)).
    { destruct (IH acc Hacc) as (found & Hfound & Hall & Hin).
      exists found. repeat split; trivial.
      intros v Hv. destruct (Hin v Hv); [now left|right; now right]. }
    destruct Hvideo as (entries & -> & Hdate). cbn [matching_loop_dict].
    destruct Hdate as [Hfalsy|(s & Hs & HVE)].
    + now rewrite Hfalsy.
    + unfold dict_get_default. rewrite Hs. cbn [json_truthy].
      destruct (truthy s); [|exact Hskip].
      destruct (fromisoformat s) as [date_obj|e] eqn:E.
      * destruct (Z.eqb_spec (datetime.month date_obj) month) as [Hm|];
          [|exact Hskip].
        destruct (Z.eqb_spec (datetime.day date_obj) day) as [Hd|];
          [|exact Hskip].
        cbn [andb].
        destruct (IH (acc ++ [JDict entries])) as (found & Hfound & Hall & Hin).
        { apply Forall_app. split; [exact Hacc|].
          constructor; [|constructor]. now exists entries, s, date_obj. }
        exists found. repeat split; trivial.
        intros v Hv. destruct (Hin v Hv) as [Hv'|Hv']; [|right; now right].
        apply in_app_iff in Hv'. destruct Hv' as [Hv'|[<-|[]]];
          [now left|right; now left].
      * rewrite (HVE e eq_refl). exact Hskip.
Qed.

Lemma list_sort_Forall {A : Type} (key : A -> string) (P : A -> Prop)
    (l : list A) :
  Forall P l -> Forall P (list_sort key l).
Proof.
  rewrite !List.Forall_forall. intros H a Ha. apply H.
  revert Ha. apply Permutation_in, list_sort_Permutation.
Qed.

(** X21: what the matcher passes over and what it returns, whatever the
    dictionaries hold.  If every video of the catalogue is a
    dictionary whose recording date is absent, falsy, or a text that
    [fromisoformat] reads or rejects with a [ValueError], the matcher
    returns; an absent list of videos reads as the empty list.  The
    videos returned are videos of the catalogue, unchanged, each with
    a recording date that is a text read as a date of the month and
    the day asked for, and they are in the order of these texts. *)
Theorem get_videos_for_date_dict_returns (entries : list (string * json))
    (videos : list json) (month day : Z) :
  dict_get_default "videos" entries (JList []) = JList videos ->
  Forall (passable fromisoformat) videos ->
  exists found,
    get_videos_for_date_dict fromisoformat (JDict entries) month day
    = Ok found
    /\ Forall (fun v => In v videos
                        /\ recorded_on_dict fromisoformat month day v) found
    /\ StronglySorted (key_le sort_key_dict) found.
Proof.
  intros Hvideos Hpass. unfold get_videos_for_date_dict.
  rewrite Hvideos. cbn [iterate bind].
  destruct (matching_loop_dict_passable month day videos [] Hpass
              (@List.Forall_nil _ _)) as (found & Hfound & Hall & Hin).
  rewrite Hfound. cbn [bind]. eexists. split; [reflexivity|]. split.
  - apply list_sort_Forall. rewrite List.Forall_forall in Hall |- *.
    intros v Hv. split; [|now apply Hall].
    destruct (Hin v Hv) as [[]|]; assumption.
  - apply list_sort_sorted.
Qed.

Lemma matching_loop_dict_raises (month day : Z)
    (before after acc : list json) (video : json) (e : exn) :
  Forall (passable fromisoformat) before ->
  (forall acc', matching_loop_dict fromisoformat month day (video :: after)
                  acc' = Raise e) ->
  matching_loop_dict fromisoformat month day (before ++ video :: after) acc
  = Raise e.
Proof.
  intros Hbefore Hvideo. revert acc.
  induction Hbefore as [|v before Hv _ IH]; intros acc; [apply Hvideo|].
  destruct Hv as (entries & -> & Hdate). cbn [app matching_loop_dict].
  destruct Hdate as [Hfalsy|(s & Hs & HVE)].
  - rewrite Hfalsy. apply IH.
  - unfold dict_get_default. rewrite Hs. cbn [json_truthy].
    destruct (truthy s); [|apply IH].
    destruct (fromisoformat s) as [date_obj|e'] eqn:E.
    + destruct ((datetime.month date_obj =? month)
                && (datetime.day date_obj =? day)); apply IH.
    + rewrite (HVE e' eq_refl). apply IH.
Qed.

(** X22: what makes the matcher raise.  The matcher passes over a
    recording date that is a text and no date, but not over one that
    is no text: the first video that is a dictionary with a truthy
    recording date other than a text (a number, say) makes the call
    raise [TypeError], and the first video that is no dictionary makes
    it raise [AttributeError]; nothing is returned for the videos
    before it. *)
Theorem get_videos_for_date_dict_raises (entries : list (string * json))
    (before after : list json) (video : json) (month day : Z) :
  dict_get_default "videos" entries (JList [])
  = JList (before ++ video :: after) ->
  Forall (passable fromisoformat) before ->
  match video with
  | JDict video_entries =>
      json_truthy (dict_get_default "recording_date" video_entries JNull)
      = true
      /\ forall s, dict_get "recording_date" video_entries <> Some (JStr s)
  | _ => True
  end ->
  get_videos_for_date_dict fromisoformat (JDict entries) month day
  = Raise match video with
          | JDict _ => TypeError
          | _ => AttributeError
          end.
Proof.
  intros Hvideos Hbefore Hvideo.
  assert (Hraise : forall e,
    (forall acc', matching_loop_dict fromisoformat month day
                    (video :: after) acc' = Raise e) ->
    get_videos_for_date_dict fromisoformat (JDict entries) month day
    = Raise e).
  { intros e He. unfold get_videos_for_date_dict. rewrite Hvideos.
    cbn [iterate bind].
    now rewrite (matching_loop_dict_raises month day before after [] video e
                   Hbefore He). }
  destruct video as [| | | | |video_entries];
    try (apply Hraise; reflexivity).
  destruct Hvideo as [Htruthy Hnotext]. apply Hraise. intros acc'.
  cbn [matching_loop_dict]. rewrite Htruthy.
  unfold dict_get_default in *.
  destruct (dict_get "recording_date" video_entries) as [[| | |s| |]|];
    try reflexivity; try discriminate.
  now destruct (Hnotext s).
Qed.
End MatcherOnDictionariesFacts.

(** The whole sample catalogue as a dictionary: the matcher on
    dictionaries returns the dictionaries of the records the matcher
    on records returns. *)
Lemma get_videos_for_date_dict_records_witness :
  dict_get "videos"
    [ ("videos", JList (map video_to_json (Catalogue.videos sample_db))) ]
  = Some (JList (map video_to_json (Catalogue.videos sample_db)))
  /\ get_videos_for_date_dict Lib.fromisoformat
       (JDict [ ("videos",
                 JList (map video_to_json (Catalogue.videos sample_db))) ])
       1 4
     = (let* found := get_videos_for_date Lib.fromisoformat sample_db 1 4 in
        Ok (map video_to_json found))
  /\ get_videos_for_date_dict Lib.fromisoformat
       (JDict [ ("videos",
                 JList (map video_to_json (Catalogue.videos sample_db))) ])
       1 4
     = Ok (map video_to_json sample_today_videos).
Proof.
  split; [reflexivity|]. split; [|vm_compute; reflexivity].
  exact (get_videos_for_date_dict_records Lib.fromisoformat
           [ ("videos",
              JList (map video_to_json (Catalogue.videos sample_db))) ]
           sample_db 1 4 eq_refl).
Defined.

Lemma passable_record (v : video) :
  passable Lib.fromisoformat (video_to_json v).
Proof.
  eexists. split; [reflexivity|].
  destruct v as [i t d u [s|] l th]; [right|left; reflexivity].
  exists s. split; [reflexivity|]. apply Lib_fromisoformat_ValueError.
Qed.

(** A catalogue without the list of videos, and one whose videos are
    records: the matcher returns. *)
Lemma get_videos_for_date_dict_returns_witness :
  (dict_get_default "videos"
     [ ("videos", JList (map video_to_json (Catalogue.videos sample_db))) ]
     (JList [])
   = JList (map video_to_json (Catalogue.videos sample_db))
   /\ Forall (passable Lib.fromisoformat)
        (map video_to_json (Catalogue.videos sample_db)))
  /\ (exists found,
        get_videos_for_date_dict Lib.fromisoformat
          (JDict [ ("videos",
                    JList (map video_to_json (Catalogue.videos sample_db))) ])
          2 29
        = Ok found
        /\ Forall (fun v =>
             In v (map video_to_json (Catalogue.videos sample_db))
             /\ recorded_on_dict Lib.fromisoformat 2 29 v) found
        /\ StronglySorted (key_le sort_key_dict) found)
  /\ get_videos_for_date_dict Lib.fromisoformat (JDict []) 2 29 = Ok [].
Proof.
  assert (H : Forall (passable Lib.fromisoformat)
                (map video_to_json (Catalogue.videos sample_db))).
  { apply Forall_map. rewrite List.Forall_forall. intros v _.
    apply passable_record. }
  split; [split; [reflexivity|exact H]|]. split; [|reflexivity].
  exact (get_videos_for_date_dict_returns Lib.fromisoformat
           [ ("videos",
              JList (map video_to_json (Catalogue.videos sample_db))) ]
           _ 2 29 eq_refl H).
Defined.

(** The catalogue edited by hand: the number in the place of a date
    makes the matcher raise, while the matcher would have passed over
    the text that is no date. *)
Lemma get_videos_for_date_dict_raises_witness :
  (dict_get_default "videos"
     [ ("videos",
        JList [ video_to_json (sample_video "a" (Some "2022-01-04"));
                JDict [ ("video_id", JStr "n");
                        ("recording_date", JInt 20200104) ];
                video_to_json (sample_video "g" (Some "not a date")) ]) ]
     (JList [])
   = JList ([ video_to_json (sample_video "a" (Some "2022-01-04")) ]
            ++ JDict [ ("video_id", JStr "n");
                       ("recording_date", JInt 20200104) ]
            :: [ video_to_json (sample_video "g" (Some "not a date")) ])
   /\ Forall (passable Lib.fromisoformat)
        [ video_to_json (sample_video "a" (Some "2022-01-04")) ]
   /\ json_truthy
        (dict_get_default "recording_date"
           [ ("video_id", JStr "n"); ("recording_date", JInt 20200104) ]
           JNull) = true
   /\ forall s,
        dict_get "recording_date"
          [ ("video_id", JStr "n"); ("recording_date", JInt 20200104) ]
        <> Some (JStr s))
  /\ get_videos_for_date_dict Lib.fromisoformat sample_loaded_db 1 4
     = Raise TypeError.
Proof.
  assert (H : Forall (passable Lib.fromisoformat)
                [ video_to_json (sample_video "a" (Some "2022-01-04")) ]).
  { constructor; [apply passable_record|constructor]. }
  assert (Hn : forall s,
            dict_get "recording_date"
              [ ("video_id", JStr "n"); ("recording_date", JInt 20200104) ]
            <> Some (JStr s)) by (intros s; discriminate).
  split; [repeat split; (exact H || exact Hn || reflexivity)|].
  exact (get_videos_for_date_dict_raises Lib.fromisoformat
           [ ("videos",
              JList [ video_to_json (sample_video "a" (Some "2022-01-04"));
                      JDict [ ("video_id", JStr "n");
                              ("recording_date", JInt 20200104) ];
                      video_to_json (sample_video "g" (Some "not a date")) ])
           ]
           [ video_to_json (sample_video "a" (Some "2022-01-04")) ]
           [ video_to_json (sample_video "g" (Some "not a date")) ]
           (JDict [ ("video_id", JStr "n");
                    ("recording_date", JInt 20200104) ])
           1 4 eq_refl H (conj eq_refl Hn)).
Defined.

(** ** The daily scripts *)

Lemma io_bind_ok {R A B : Type} (m : io R A) (k : A -> io R B)
    (sent sent' : list R) (a : A) :
  m sent = (Api.Ok a, sent') -> io_bind m k sent = k a sent'.
Proof. intros H. unfold io_bind. now rewrite H. Qed.

Lemma io_bind_raise {R A B : Type} (m : io R A) (k : A -> io R B)
    (sent sent' : list R) (e : Api.error) :
  m sent = (Api.Raise e, sent') -> io_bind m k sent = (Api.Raise e, sent').
Proof. intros H. unfold io_bind. now rewrite H. Qed.

Lemma io_bind_pure {R A B : Type} (m : io R A) (k : A -> io R B)
    (sent : list R) :
  snd (m sent) = sent ->
  (forall a, snd (k a sent) = sent) ->
  snd (io_bind m k sent) = sent.
Proof.
  intros Hm Hk. unfold io_bind.
  destruct (m sent) as [[a|e] sent']; cbn [snd] in *; subst sent';
    [apply Hk|reflexivity].
Qed.

(** The videos of the day of a matcher's answer can be listed and
    formatted, and have their ids. *)
Lemma list_videos_records (fromisoformat : string -> result datetime.t)
    (month day : Z) (found : list video) :
  Forall (fun v => recorded_on fromisoformat month day v = true) found ->
  list_videos (map video_to_json found) = Ok tt.
Proof.
  induction 1 as [|v found Hv _ IH]; [reflexivity|].
  cbn [map]. unfold recorded_on in Hv.
  destruct v as [i t d u [s|] l th]; [|discriminate]. exact IH.
Qed.

Lemma video_ids_of_records (found : list video) :
  video_ids_of (map video_to_json found)
  = Ok (map (fun v => JStr (VideoRecord.video_id v)) found).
Proof.
  induction found as [|v found IH]; [reflexivity|].
  cbn [map video_ids_of].
  assert (Hid : subscript "video_id" (video_to_json v)
                = Ok (JStr (VideoRecord.video_id v))) by reflexivity.
  rewrite Hid. cbn [bind]. now rewrite IH.
Qed.

Section DailyScriptsFacts.
Variable json_load : string -> result json.
Variable fromisoformat : string -> result datetime.t.
Variable tzinfo : Type.
Variable pytz_timezone : string -> Api.result tzinfo.
Variable datetime_now : option tzinfo -> datetime.t.
Variable strftime_B_d : datetime.t -> string.
Variable str_format : string -> list (string * string) -> Api.result string.

(** The videos of today are found without a request. *)
Lemma videos_of_today_pure {R : Type} (cfg : settings) (fs : filesystem)
    (sent : list R) :
  snd (videos_of_today json_load fromisoformat tzinfo pytz_timezone
         datetime_now strftime_B_d cfg fs sent) = sent.
Proof.
  unfold videos_of_today.
  apply io_bind_pure; [reflexivity|]. intros videos_db.
  apply io_bind_pure; [reflexivity|]. intros videos.
  destruct (negb (json_truthy videos)); [reflexivity|].
  apply io_bind_pure; [reflexivity|]. intros today.
  apply io_bind_pure; [reflexivity|]. intros today_videos.
  now destruct today_videos.
Qed.

Hypothesis fromisoformat_ValueError :
  forall s e, fromisoformat s = Raise e -> isinstance_ValueError e = true.
Hypothesis fromisoformat_empty : forall d, fromisoformat "" <> Ok d.

(** The videos of today for a database of records, in a known time
    zone. *)
Lemma videos_of_today_records {R : Type} (cfg : settings) (fs : filesystem)
    (sent : list R) (entries : list (string * json)) (videos : list video)
    (tz : tzinfo) :
  load_videos_db json_load fs = Ok (JDict entries) ->
  dict_get "videos" entries = Some (JList (map video_to_json videos)) ->
  pytz_timezone (match Settings.timezone cfg with
                 | Some name => name
                 | None => "America/New_York"
                 end) = Api.Ok tz ->
  truthy (match Settings.timezone cfg with
          | Some name => name
          | None => "America/New_York"
          end) = true ->
  let now := datetime_now (Some tz) in
  let found :=
    list_sort sort_key
      (List.filter (recorded_on fromisoformat (datetime.month now)
                      (datetime.day now)) videos) in
  videos_of_today json_load fromisoformat tzinfo pytz_timezone datetime_now
    strftime_B_d cfg fs sent
  = (Api.Ok match found with
            | [] => None
            | _ :: _ => Some (strftime_B_d now, map video_to_json found)
            end, sent).
Proof.
  intros Hload Hvideos Htz Htruthy now found.
  unfold videos_of_today.
  rewrite (io_bind_ok _ _ sent sent (JDict entries))
    by (unfold io_lift; now rewrite Hload).
  rewrite (io_bind_ok _ _ sent sent
             (JList (map video_to_json videos)))
    by (unfold io_lift, get_videos, dict_get_default; now rewrite Hvideos).
  destruct videos as [|v videos]; [reflexivity|].
  cbn [map json_truthy negb].
  rewrite (io_bind_ok _ _ sent sent
             (datetime.month now, datetime.day now, strftime_B_d now))
    by (unfold get_today_date; now rewrite Htruthy, Htz).
  cbn [fst snd].
  rewrite (io_bind_ok _ _ sent sent (map video_to_json found)).
  - subst found. now destruct (list_sort sort_key _).
  - unfold io_lift.
    rewrite (get_videos_for_date_dict_of_records fromisoformat entries
               (Catalogue.make "" None (v :: videos))) by exact Hvideos.
    rewrite (get_videos_for_date_sorted_filter fromisoformat
               fromisoformat_ValueError fromisoformat_empty).
    reflexivity.
Qed.
End DailyScriptsFacts.

Section UpdatePlaylistMainFacts.
Variable json_load : string -> result json.
Variable fromisoformat : string -> result datetime.t.
Variable tzinfo : Type.
Variable pytz_timezone : string -> Api.result tzinfo.
Variable datetime_now : option tzinfo -> datetime.t.
Variable strftime_B_d : datetime.t -> string.
Variable str_format : string -> list (string * string) -> Api.result string.
Variable playlists_list : list request -> Api.result (list Playlist.t).
Variable playlists_insert :
  list request -> string -> string -> Api.result string.
Variable playlist_items_list :
  list request -> string -> option string
  -> Api.result (list string * option string).
Variable playlist_items_delete : list request -> string -> Api.result unit.
Variable playlist_items_insert :
  list request -> string -> json -> Api.result unit.
Variable get_authenticated_service : Api.result unit.

Lemma update_playlist_main_off (fuel : nat) (cfg : settings)
    (fs : filesystem) (sent : list request) :
  feature cfg Features.dry_run false = true
  \/ feature cfg Features.create_playlist true = false ->
  exists r,
    update_playlist_main json_load fromisoformat tzinfo pytz_timezone
      datetime_now strftime_B_d str_format playlists_list playlists_insert
      playlist_items_list playlist_items_delete playlist_items_insert
      get_authenticated_service fuel cfg fs sent = (r, sent)
    /\ forall x, r = Api.Ok x -> x = Some None.
Proof.
  intros Hoff. unfold update_playlist_main.
  pose proof (videos_of_today_pure json_load fromisoformat tzinfo
                pytz_timezone datetime_now strftime_B_d cfg fs sent)
    as Hpure.
  unfold io_bind at 1.
  destruct (videos_of_today _ _ _ _ _ _ _ _ _) as [[today|e] sent'];
    cbn [snd] in Hpure; subst sent';
    [|eexists; split; [reflexivity|discriminate]].
  destruct today as [[formatted_date today_videos]|];
    [|eexists; split; [reflexivity|now intros x [= <-]]].
  unfold io_bind at 1, io_lift.
  destruct (list_videos today_videos);
    [|eexists; split; [reflexivity|discriminate]].
  destruct (feature cfg Features.dry_run false);
    [eexists; split; [reflexivity|now intros x [= <-]]|].
  destruct Hoff as [Hoff|Hoff]; [discriminate|]. rewrite Hoff.
  eexists; split; [reflexivity|now intros x [= <-]].
Qed.

(** X23: a dry run leaves the playlist alone.  With [dry_run] set, or
    with [create_playlist] switched off, the script sends no request
    to the playlist service, whatever the database, the day and the
    service, and returns no URL. *)
Theorem update_playlist_main_dry_run (fuel : nat) (cfg : settings)
    (fs : filesystem) (sent : list request) :
  feature cfg Features.dry_run false = true
  \/ feature cfg Features.create_playlist true = false ->
  let outcome :=
    update_playlist_main json_load fromisoformat tzinfo pytz_timezone
      datetime_now strftime_B_d str_format playlists_list playlists_insert
      playlist_items_list playlist_items_delete playlist_items_insert
      get_authenticated_service fuel cfg fs sent in
  snd outcome = sent
  /\ forall r, fst outcome = Api.Ok r -> r = Some None.
Proof.
  intros Hoff outcome. subst outcome.
  destruct (update_playlist_main_off fuel cfg fs sent Hoff)
    as (r & -> & Hr).
  split; [reflexivity|exact Hr].
Qed.

Hypothesis fromisoformat_ValueError :
  forall s e, fromisoformat s = Raise e -> isinstance_ValueError e = true.
Hypothesis fromisoformat_empty : forall d, fromisoformat "" <> Ok d.

(** X24: the playlist gets the videos of the day.  For a database of
    records as the ingestion run saves them, on a day on which the
    catalogue has videos, a run in earnest whose playlist is found or
    created and cleared asks the service to insert the ids of exactly
    the records recorded on the month and day of today in the
    configured time zone, the oldest recording date first, and returns
    the URL of the playlist; the insertions come after every other
    request. *)
Theorem update_playlist_main_inserts_todays_videos (fuel : nat)
    (cfg : settings) (fs : filesystem) (entries : list (string * json))
    (videos : list video) (tz : tzinfo)
    (month_word day_word : string) (more_words : list string)
    (playlist_title playlist_description playlist_id : string)
    (sent sent1 sent2 : list request) :
  let timezone :=
    match Settings.timezone cfg with
    | Some name => name
    | None => "America/New_York"
    end in
  let now := datetime_now (Some tz) in
  let found :=
    list_sort sort_key
      (List.filter (recorded_on fromisoformat (datetime.month now)
                      (datetime.day now)) videos) in
  load_videos_db json_load fs = Ok (JDict entries) ->
  dict_get "videos" entries = Some (JList (map video_to_json videos)) ->
  truthy timezone = true ->
  pytz_timezone timezone = Api.Ok tz ->
  found <> [] ->
  feature cfg Features.dry_run false = false ->
  feature cfg Features.create_playlist true = true ->
  get_authenticated_service = Api.Ok tt ->
  str_split (strftime_B_d now) = month_word :: day_word :: more_words ->
  str_format
    (playlist_setting cfg PlaylistConfig.title_format
       "On This Day: {month} {day}")
    [("month", month_word); ("day", day_word)] = Api.Ok playlist_title ->
  str_format (playlist_setting cfg PlaylistConfig.description_format "")
    [("month", month_word); ("day", day_word);
     ("date", strftime_B_d now)] = Api.Ok playlist_description ->
  find_or_create_playlist playlists_list playlists_insert playlist_title
    playlist_description sent = (Api.Ok playlist_id, sent1) ->
  clear_playlist playlist_items_list playlist_items_delete fuel playlist_id
    sent1 = (Api.Ok (Some tt), sent2) ->
  (forall sent' video_id e,
     playlist_items_insert sent' playlist_id video_id = Api.Raise e ->
     exists reason, e = Api.HttpError reason) ->
  update_playlist_main json_load fromisoformat tzinfo pytz_timezone
    datetime_now strftime_B_d str_format playlists_list playlists_insert
    playlist_items_list playlist_items_delete playlist_items_insert
    get_authenticated_service fuel cfg fs sent
  = (Api.Ok
       (Some (Some ("https://www.youtube.com/playlist?list="
                    ++ playlist_id)%string)),
     sent2
     ++ map (fun v => PlaylistItemsInsert playlist_id
                        (JStr (VideoRecord.video_id v))) found).
Proof.
  intros timezone now found Hload Hvideos Htruthy Htz Hfound Hdry Hcreate
    Hauth Hwords Htitle Hdescription Hfind Hclear Honly.
  unfold update_playlist_main.
  rewrite (io_bind_ok _ _ sent sent
             (Some (strftime_B_d now, map video_to_json found))).
  2:{ rewrite (videos_of_today_records json_load fromisoformat tzinfo
                 pytz_timezone datetime_now strftime_B_d
                 fromisoformat_ValueError fromisoformat_empty cfg fs sent
                 entries videos tz Hload Hvideos Htz Htruthy).
      fold now. fold found. now destruct found. }
  assert (Hall : Forall (fun v => recorded_on fromisoformat
                                    (datetime.month now) (datetime.day now) v
                                  = true) found).
  { rewrite List.Forall_forall. intros v Hv.
    apply (Permutation_in _ (list_sort_Permutation sort_key _)) in Hv.
    now apply filter_In in Hv. }
  rewrite (io_bind_ok _ _ sent sent tt)
    by (unfold io_lift; now rewrite (list_videos_records _ _ _ _ Hall)).
  rewrite Hdry, Hcreate. cbn [negb].
  rewrite (io_bind_ok _ _ sent sent tt) by now rewrite Hauth.
  rewrite (io_bind_ok _ _ sent sent month_word)
    by now rewrite Hwords.
  rewrite (io_bind_ok _ _ sent sent day_word)
    by now rewrite Hwords.
  rewrite (io_bind_ok _ _ sent sent playlist_title)
    by now rewrite Htitle.
  rewrite (io_bind_ok _ _ sent sent month_word)
    by now rewrite Hwords.
  rewrite (io_bind_ok _ _ sent sent day_word)
    by now rewrite Hwords.
  rewrite (io_bind_ok _ _ sent sent playlist_description)
    by now rewrite Hdescription.
  rewrite (io_bind_ok _ _ sent _ _
             (main_update_playlist_run playlists_list playlists_insert
                playlist_items_list playlist_items_delete
                playlist_items_insert fuel playlist_title
                playlist_description playlist_id (map video_to_json found)
                _ sent sent1 sent2 Hfind Hclear
                (video_ids_of_records found) Honly)).
  unfold io_ret. now rewrite map_map.
Qed.
End UpdatePlaylistMainFacts.

Section PostToRedditMainFacts.
Variable json_load : string -> result json.
Variable fromisoformat : string -> result datetime.t.
Variable tzinfo : Type.
Variable pytz_timezone : string -> Api.result tzinfo.
Variable datetime_now : option tzinfo -> datetime.t.
Variable strftime_B_d : datetime.t -> string.
Variable str_format : string -> list (string * string) -> Api.result string.
Variable format_value : json -> string.
Variable user_me : list reddit_request -> Api.result string.
Variable submit :
  list reddit_request -> string -> string -> string
  -> Api.result Submission.t.
Variable flair_choices :
  list reddit_request -> string -> Api.result (list Flair.t).
Variable flair_select :
  list reddit_request -> string -> string -> Api.result unit.
Variable error_str : Api.error -> string.

Lemma post_to_reddit_main_off (playlist_url : option string)
    (cfg : settings) (env : environ) (fs : filesystem)
    (sent : list reddit_request) :
  feature cfg Features.post_to_reddit true = false
  \/ feature cfg Features.dry_run false = true ->
  exists r,
    forall env',
      post_to_reddit_main json_load fromisoformat tzinfo pytz_timezone
        datetime_now strftime_B_d str_format format_value user_me submit
        flair_choices flair_select error_str playlist_url cfg env' fs sent
      = (r, sent).
Proof.
  intros Hoff. unfold post_to_reddit_main.
  destruct (feature cfg Features.post_to_reddit true);
    [|eexists; reflexivity].
  destruct Hoff as [Hoff|Hoff]; [discriminate|]. rewrite Hoff.
  cbn [negb].
  pose proof (videos_of_today_pure json_load fromisoformat tzinfo
                pytz_timezone datetime_now strftime_B_d cfg fs sent)
    as Hpure.
  unfold io_bind at 1.
  destruct (videos_of_today _ _ _ _ _ _ _ _ _) as [[today|e] sent'];
    cbn [snd] in Hpure; subst sent'; [|eexists; reflexivity].
  destruct today as [[formatted_date today_videos]|];
    [|eexists; reflexivity].
  unfold io_bind, io_lift, io_ret.
  destruct (index (str_split formatted_date) 0); [|eexists; reflexivity].
  destruct (index (str_split formatted_date) 1); [|eexists; reflexivity].
  destruct (str_format _ [_; _; _]); [|eexists; reflexivity].
  destruct (format_video_list_for_reddit _ _ _); [|eexists; reflexivity].
  destruct (str_format _ _); eexists; reflexivity.
Qed.

(** X25: when the post is switched off, and in a dry run.  With
    [post_to_reddit] switched off the script returns at once: it does
    not read the database, so that not even a corrupt database makes
    it raise.  In a dry run it sends no request to Reddit and does not
    read the credentials: the outcome is the same in every
    environment, also one without credentials. *)
Theorem post_to_reddit_main_dry_run (playlist_url : option string)
    (cfg : settings) (env : environ) (fs : filesystem)
    (sent : list reddit_request) :
  feature cfg Features.post_to_reddit true = false
  \/ feature cfg Features.dry_run false = true ->
  let main env :=
    post_to_reddit_main json_load fromisoformat tzinfo pytz_timezone
      datetime_now strftime_B_d str_format format_value user_me submit
      flair_choices flair_select error_str playlist_url cfg env fs sent in
  snd (main env) = sent
  /\ (forall env', main env' = main env)
  /\ (feature cfg Features.post_to_reddit true = false ->
      main env = (Api.Ok tt, sent)).
Proof.
  intros Hoff main. subst main. cbv beta.
  destruct (post_to_reddit_main_off playlist_url cfg env fs sent Hoff)
    as [r Hr].
  split; [now rewrite Hr|]. split.
  - intros env'. now rewrite !Hr.
  - intros Hpost. unfold post_to_reddit_main. now rewrite Hpost.
Qed.

Hypothesis fromisoformat_ValueError :
  forall s e, fromisoformat s = Raise e -> isinstance_ValueError e = true.
Hypothesis fromisoformat_empty : forall d, fromisoformat "" <> Ok d.

(** X26: what is posted.  For a database of records as the ingestion run
    saves them, on a day on which the catalogue has videos, a run in
    earnest with credentials asks Reddit who it is and then creates
    one post: its body is the template filled in with the list of
    exactly the records recorded on the month and day of today, one
    line [**year:** [title](url)] each, the oldest first.  The
    formatter of the list cannot raise there. *)
Theorem post_to_reddit_main_posts (playlist_url : option string)
    (cfg : settings) (env : environ) (fs : filesystem)
    (entries : list (string * json)) (videos : list video) (tz : tzinfo)
    (month_word day_word : string) (more_words : list string)
    (post_title post_body name : string) (reddit : Reddit.t)
    (sent : list reddit_request) :
  let timezone :=
    match Settings.timezone cfg with
    | Some name => name
    | None => "America/New_York"
    end in
  let now := datetime_now (Some tz) in
  let found :=
    list_sort sort_key
      (List.filter (recorded_on fromisoformat (datetime.month now)
                      (datetime.day now)) videos) in
  let video_list :=
    Lib.join (Lib.newline ++ Lib.newline)%string
      (map (reddit_line fromisoformat format_value) found) in
  load_videos_db json_load fs = Ok (JDict entries) ->
  dict_get "videos" entries = Some (JList (map video_to_json videos)) ->
  truthy timezone = true ->
  pytz_timezone timezone = Api.Ok tz ->
  found <> [] ->
  feature cfg Features.post_to_reddit true = true ->
  feature cfg Features.dry_run false = false ->
  str_split (strftime_B_d now) = month_word :: day_word :: more_words ->
  str_format
    match reddit_setting cfg RedditConfig.post_title_format with
    | Some format => format
    | None => "On This Day - {month} {day}"
    end
    [("month", month_word); ("day", day_word);
     ("date", strftime_B_d now)] = Api.Ok post_title ->
  str_format
    match reddit_setting cfg RedditConfig.post_template with
    | Some template => template
    | None => ""
    end
    [("month", month_word); ("day", day_word); ("date", strftime_B_d now);
     ("video_list", video_list);
     ("playlist_url", or_default playlist_url "Coming soon!")]
  = Api.Ok post_body ->
  get_reddit_client env = Ok reddit ->
  user_me sent = Api.Ok name ->
  let post :=
    create_reddit_post submit flair_choices flair_select error_str
      match reddit_setting cfg RedditConfig.subreddit with
      | Some name => name
      | None => "Adamthewoo"
      end
      post_title post_body (reddit_setting cfg RedditConfig.flair_text)
      (Some Logger) (sent ++ [UserMe]) in
  post_to_reddit_main json_load fromisoformat tzinfo pytz_timezone
    datetime_now strftime_B_d str_format format_value user_me submit
    flair_choices flair_select error_str playlist_url cfg env fs sent
  = (match fst post with
     | Api.Ok _ => Api.Ok tt
     | Api.Raise e => Api.Raise e
     end, snd post).
Proof.
  intros timezone now found video_list Hload Hvideos Htruthy Htz Hfound
    Hpost Hdry Hwords Htitle Hbody Hclient Hme post.
  unfold post_to_reddit_main. rewrite Hpost, Hdry. cbn [negb].
  rewrite (io_bind_ok _ _ sent sent
             (Some (strftime_B_d now, map video_to_json found))).
  2:{ rewrite (videos_of_today_records json_load fromisoformat tzinfo
                 pytz_timezone datetime_now strftime_B_d
                 fromisoformat_ValueError fromisoformat_empty cfg fs sent
                 entries videos tz Hload Hvideos Htz Htruthy).
      fold now. fold found. now destruct found. }
  assert (Hall : Forall (fun v => recorded_on fromisoformat
                                    (datetime.month now) (datetime.day now) v
                                  = true) found).
  { rewrite List.Forall_forall. intros v Hv.
    apply (Permutation_in _ (list_sort_Permutation sort_key _)) in Hv.
    now apply filter_In in Hv. }
  rewrite (io_bind_ok _ _ sent sent month_word) by now rewrite Hwords.
  rewrite (io_bind_ok _ _ sent sent day_word) by now rewrite Hwords.
  rewrite (io_bind_ok _ _ sent sent post_title) by now rewrite Htitle.
  rewrite (io_bind_ok _ _ sent sent video_list).
  2:{ unfold io_lift, format_video_list_for_reddit.
      rewrite (format_lines_recorded_on fromisoformat format_value
                 fromisoformat_empty _ _ _ Hall).
      cbn [bind]. subst video_list. now destruct found. }
  rewrite (io_bind_ok _ _ sent sent month_word) by now rewrite Hwords.
  rewrite (io_bind_ok _ _ sent sent day_word) by now rewrite Hwords.
  rewrite (io_bind_ok _ _ sent sent post_body) by now rewrite Hbody.
  rewrite (io_bind_ok _ _ sent sent reddit)
    by (unfold io_lift; now rewrite Hclient).
  rewrite (io_bind_ok _ _ sent (sent ++ [UserMe]) name)
    by (unfold execute; now rewrite Hme).
  unfold io_bind, io_ret. subst post.
  now destruct (create_reddit_post _ _ _ _ _ _ _ _ _ _) as [[url|e] sent'].
Qed.
End PostToRedditMainFacts.

(** A dry run over the sample database: nothing is sent. *)
Lemma update_playlist_main_dry_run_witness :
  (feature sample_settings_dry_run Features.dry_run false = true
   \/ feature sample_settings_dry_run Features.create_playlist true = false)
  /\ snd (update_playlist_main Lib.json_load Lib.fromisoformat string
            sample_pytz_timezone sample_datetime_now sample_strftime_B_d
            sample_str_format sample_playlists_list sample_playlists_insert
            sample_playlist_items_list sample_playlist_items_delete
            sample_playlist_items_insert (Api.Ok tt) 5
            sample_settings_dry_run sample_catalogue_fs []) = []
  /\ forall r,
       fst (update_playlist_main Lib.json_load Lib.fromisoformat string
              sample_pytz_timezone sample_datetime_now sample_strftime_B_d
              sample_str_format sample_playlists_list sample_playlists_insert
              sample_playlist_items_list sample_playlist_items_delete
              sample_playlist_items_insert (Api.Ok tt) 5
              sample_settings_dry_run sample_catalogue_fs []) = Api.Ok r ->
       r = Some None.
Proof.
  split; [left; reflexivity|].
  apply (update_playlist_main_dry_run Lib.json_load Lib.fromisoformat string
           sample_pytz_timezone sample_datetime_now sample_strftime_B_d
           sample_str_format sample_playlists_list sample_playlists_insert
           sample_playlist_items_list sample_playlist_items_delete
           sample_playlist_items_insert (Api.Ok tt) 5
           sample_settings_dry_run sample_catalogue_fs []).
  left. reflexivity.
Defined.

Lemma sample_insert_HttpError_only (sent' : list request) (video_id : json)
    (e : Api.error) :
  sample_playlist_items_insert sent' "PL1" video_id = Api.Raise e ->
  exists reason, e = Api.HttpError reason.
Proof.
  unfold sample_playlist_items_insert.
  destruct video_id as [| | |s| |]; try discriminate.
  repeat (destruct s as [|[[] [] [] [] [] [] [] []] s]; try discriminate).
  intros [= <-]. now eexists.
Qed.

(** The run of 4 January over the sample database: the playlist of the
    day is found, two of its three items are deleted, and the three
    videos of the day are asked for, oldest first. *)
Lemma update_playlist_main_inserts_todays_videos_witness :
  update_playlist_main Lib.json_load Lib.fromisoformat string
    sample_pytz_timezone sample_datetime_now sample_strftime_B_d
    sample_str_format sample_playlists_list sample_playlists_insert
    sample_playlist_items_list sample_playlist_items_delete
    sample_playlist_items_insert (Api.Ok tt) 5 sample_settings
    sample_catalogue_fs []
  = (Api.Ok (Some (Some "https://www.youtube.com/playlist?list=PL1")),
     [ PlaylistsList; PlaylistItemsList "PL1" None;
       PlaylistItemsList "PL1" (Some "page2");
       PlaylistItemsDelete "item1"; PlaylistItemsDelete "item2" ]
     ++ map (fun v => PlaylistItemsInsert "PL1"
                        (JStr (VideoRecord.video_id v)))
          (list_sort sort_key
             (List.filter (recorded_on Lib.fromisoformat 1 4)
                (Catalogue.videos sample_db)))).
Proof.
  apply (update_playlist_main_inserts_todays_videos Lib.json_load
           Lib.fromisoformat string sample_pytz_timezone sample_datetime_now
           sample_strftime_B_d sample_str_format sample_playlists_list
           sample_playlists_insert sample_playlist_items_list
           sample_playlist_items_delete sample_playlist_items_insert
           (Api.Ok tt) Lib_fromisoformat_ValueError Lib_fromisoformat_empty
           5 sample_settings sample_catalogue_fs
           [ ("channel_info",
              JDict [ ("channel_name", JStr "Adam The Woo") ]);
             ("videos",
              JList (map video_to_json (Catalogue.videos sample_db))) ]
           (Catalogue.videos sample_db) "America/New_York"
           "January" "04" [] "On This Day: January 04" "" "PL1"
           [] [PlaylistsList]
           [ PlaylistsList; PlaylistItemsList "PL1" None;
             PlaylistItemsList "PL1" (Some "page2");
             PlaylistItemsDelete "item1"; PlaylistItemsDelete "item2" ]).
  - vm_compute. reflexivity.
  - reflexivity.
  - reflexivity.
  - reflexivity.
  - vm_compute. discriminate.
  - reflexivity.
  - reflexivity.
  - reflexivity.
  - reflexivity.
  - reflexivity.
  - reflexivity.
  - reflexivity.
  - reflexivity.
  - apply sample_insert_HttpError_only.
Defined.

(** With the post switched off the corrupt database is not read; in a
    dry run nothing is sent, with or without credentials. *)
Lemma post_to_reddit_main_dry_run_witness :
  (feature sample_settings_dry_run Features.post_to_reddit true = false
   \/ feature sample_settings_dry_run Features.dry_run false = true)
  /\ snd (post_to_reddit_main Lib.json_load Lib.fromisoformat string
            sample_pytz_timezone sample_datetime_now sample_strftime_B_d
            sample_str_format py_str sample_user_me sample_submit
            sample_flair_choices sample_flair_select sample_error_str None
            sample_settings_dry_run (empty : environ) sample_catalogue_fs []) = []
  /\ (forall env',
        post_to_reddit_main Lib.json_load Lib.fromisoformat string
          sample_pytz_timezone sample_datetime_now sample_strftime_B_d
          sample_str_format py_str sample_user_me sample_submit
          sample_flair_choices sample_flair_select sample_error_str None
          sample_settings_dry_run env' sample_catalogue_fs []
        = post_to_reddit_main Lib.json_load Lib.fromisoformat string
            sample_pytz_timezone sample_datetime_now sample_strftime_B_d
            sample_str_format py_str sample_user_me sample_submit
            sample_flair_choices sample_flair_select sample_error_str None
            sample_settings_dry_run (empty : environ) sample_catalogue_fs [])
  /\ (feature sample_settings_dry_run Features.post_to_reddit true = false ->
      post_to_reddit_main Lib.json_load Lib.fromisoformat string
        sample_pytz_timezone sample_datetime_now sample_strftime_B_d
        sample_str_format py_str sample_user_me sample_submit
        sample_flair_choices sample_flair_select sample_error_str None
        sample_settings_dry_run (empty : environ) sample_catalogue_fs []
      = (Api.Ok tt, [])).
Proof.
  split; [right; reflexivity|].
  apply (post_to_reddit_main_dry_run Lib.json_load Lib.fromisoformat string
           sample_pytz_timezone sample_datetime_now sample_strftime_B_d
           sample_str_format py_str sample_user_me sample_submit
           sample_flair_choices sample_flair_select sample_error_str None
           sample_settings_dry_run (empty : environ) sample_catalogue_fs []).
  right. reflexivity.
Defined.

(** The post of 4 January over the sample database: Reddit is asked
    who the account is, the post is submitted with the three lines of
    the day, the flair is asked for, and the refusal of the selection
    does not make the script fail. *)
Lemma post_to_reddit_main_posts_witness :
  post_to_reddit_main Lib.json_load Lib.fromisoformat string
    sample_pytz_timezone sample_datetime_now sample_strftime_B_d
    sample_str_format py_str sample_user_me sample_submit
    sample_flair_choices sample_flair_select sample_error_str None
    sample_settings sample_environ sample_catalogue_fs []
  = (match
       fst (create_reddit_post sample_submit sample_flair_choices
              sample_flair_select sample_error_str "Adamthewoo"
              "On This Day - January 04"
              ("**2020:** [Video b](https://www.youtube.com/watch?v=b)"
               ++ Lib.newline ++ Lib.newline
               ++ "**2020:** [Video i](https://www.youtube.com/watch?v=i)"
               ++ Lib.newline ++ Lib.newline
               ++ "**2022:** [Video a](https://www.youtube.com/watch?v=a)")%string
              (Some "On This Day") (Some Logger) ([] ++ [UserMe]))
     with
     | Api.Ok _ => Api.Ok tt
     | Api.Raise e => Api.Raise e
     end,
     snd (create_reddit_post sample_submit sample_flair_choices
            sample_flair_select sample_error_str "Adamthewoo"
            "On This Day - January 04"
            ("**2020:** [Video b](https://www.youtube.com/watch?v=b)"
             ++ Lib.newline ++ Lib.newline
             ++ "**2020:** [Video i](https://www.youtube.com/watch?v=i)"
             ++ Lib.newline ++ Lib.newline
             ++ "**2022:** [Video a](https://www.youtube.com/watch?v=a)")%string
            (Some "On This Day") (Some Logger) ([] ++ [UserMe])))
  /\ post_to_reddit_main Lib.json_load Lib.fromisoformat string
       sample_pytz_timezone sample_datetime_now sample_strftime_B_d
       sample_str_format py_str sample_user_me sample_submit
       sample_flair_choices sample_flair_select sample_error_str None
       sample_settings sample_environ sample_catalogue_fs []
     = (Api.Ok tt,
        [ UserMe;
          Submit "Adamthewoo" "On This Day - January 04"
            ("**2020:** [Video b](https://www.youtube.com/watch?v=b)"
             ++ Lib.newline ++ Lib.newline
             ++ "**2020:** [Video i](https://www.youtube.com/watch?v=i)"
             ++ Lib.newline ++ Lib.newline
             ++ "**2022:** [Video a](https://www.youtube.com/watch?v=a)")%string;
          FlairChoices "t3_abc"; FlairSelect "t3_abc" "f2" ]).
Proof.
  split; [|vm_compute; reflexivity].
  apply (post_to_reddit_main_posts Lib.json_load Lib.fromisoformat string
           sample_pytz_timezone sample_datetime_now sample_strftime_B_d
           sample_str_format py_str sample_user_me sample_submit
           sample_flair_choices sample_flair_select sample_error_str
           Lib_fromisoformat_ValueError Lib_fromisoformat_empty
           None sample_settings sample_environ sample_catalogue_fs
           [ ("channel_info",
              JDict [ ("channel_name", JStr "Adam The Woo") ]);
             ("videos",
              JList (map video_to_json (Catalogue.videos sample_db))) ]
           (Catalogue.videos sample_db) "America/New_York"
           "January" "04" [] "On This Day - January 04"
           ("**2020:** [Video b](https://www.youtube.com/watch?v=b)"
            ++ Lib.newline ++ Lib.newline
            ++ "**2020:** [Video i](https://www.youtube.com/watch?v=i)"
            ++ Lib.newline ++ Lib.newline
            ++ "**2022:** [Video a](https://www.youtube.com/watch?v=a)")%string
           "on-this-day-bot"
           (Reddit.make (Some "id") (Some "secret") (Some "on-this-day-bot")
              (Some "pw") "adam-the-woo-on-this-day-bot/1.0")
           []).
  - vm_compute. reflexivity.
  - reflexivity.
  - reflexivity.
  - reflexivity.
  - vm_compute. discriminate.
  - reflexivity.
  - reflexivity.
  - reflexivity.
  - reflexivity.
  - vm_compute. reflexivity.
  - vm_compute. reflexivity.
  - reflexivity.
Defined.

(** ** Examples for the playlist, Reddit and the backup *)

(** Three videos against the sample service, which refuses the first:
    all three are asked for, and two are counted. *)
Lemma add_videos_to_playlist_counts_witness :
  ((forall reason,
      fst (add_videos_to_playlist sample_playlist_items_insert "PL1"
             [JStr "b"; JStr "i"; JStr "a"] [])
      <> Api.Raise (Api.HttpError reason))
   /\ (exists attempted rest,
         [JStr "b"; JStr "i"; JStr "a"] = attempted ++ rest
         /\ snd (add_videos_to_playlist sample_playlist_items_insert "PL1"
                   [JStr "b"; JStr "i"; JStr "a"] [])
            = [] ++ map (PlaylistItemsInsert "PL1") attempted)
   /\ (forall added,
         fst (add_videos_to_playlist sample_playlist_items_insert "PL1"
                [JStr "b"; JStr "i"; JStr "a"] []) = Api.Ok added ->
         snd (add_videos_to_playlist sample_playlist_items_insert "PL1"
                [JStr "b"; JStr "i"; JStr "a"] [])
         = [] ++ map (PlaylistItemsInsert "PL1")
                   [JStr "b"; JStr "i"; JStr "a"]
         /\ added
            = Z.of_nat (length (accepted sample_playlist_items_insert "PL1"
                                  [JStr "b"; JStr "i"; JStr "a"] []))
         /\ 0 <= added <= Z.of_nat (length [JStr "b"; JStr "i"; JStr "a"]))
   /\ ((forall sent' video_id e,
          sample_playlist_items_insert sent' "PL1" video_id = Api.Raise e ->
          exists reason, e = Api.HttpError reason) ->
       exists added,
         fst (add_videos_to_playlist sample_playlist_items_insert "PL1"
                [JStr "b"; JStr "i"; JStr "a"] []) = Api.Ok added))
  /\ add_videos_to_playlist sample_playlist_items_insert "PL1"
       [JStr "b"; JStr "i"; JStr "a"] []
     = (Api.Ok 2,
        [ PlaylistItemsInsert "PL1" (JStr "b");
          PlaylistItemsInsert "PL1" (JStr "i");
          PlaylistItemsInsert "PL1" (JStr "a") ]).
Proof.
  split; [|reflexivity].
  exact (add_videos_to_playlist_counts sample_playlist_items_insert "PL1"
           [JStr "b"; JStr "i"; JStr "a"] []).
Defined.

(** With a logger, the refused flair does not make the post fail;
    without one, the same call raises, the post being submitted. *)
Lemma create_reddit_post_flair_not_fatal_witness :
  match sample_submit [] "Adamthewoo" "On This Day" "body" with
  | Api.Ok submission =>
      create_reddit_post sample_submit sample_flair_choices
        sample_flair_select sample_error_str "Adamthewoo" "On This Day"
        "body" (Some "On This Day") (Some Logger) []
      = (Api.Ok ("https://www.reddit.com"
                 ++ Submission.permalink submission)%string,
         [] ++ Submit "Adamthewoo" "On This Day" "body"
               :: flair_requests sample_flair_choices
                    ([] ++ [Submit "Adamthewoo" "On This Day" "body"])
                    submission (Some "On This Day"))
  | Api.Raise e =>
      create_reddit_post sample_submit sample_flair_choices
        sample_flair_select sample_error_str "Adamthewoo" "On This Day"
        "body" (Some "On This Day") (Some Logger) []
      = (Api.Raise (Api.Error
           (Exception ("Error creating Reddit post: "
                       ++ sample_error_str e)%string)),
         [] ++ [Submit "Adamthewoo" "On This Day" "body"])
  end
  /\ create_reddit_post sample_submit sample_flair_choices
       sample_flair_select sample_error_str "Adamthewoo" "On This Day"
       "body" (Some "On This Day") (Some Logger) []
     = (Api.Ok "https://www.reddit.com/r/Adamthewoo/comments/abc/",
        [ Submit "Adamthewoo" "On This Day" "body"; FlairChoices "t3_abc";
          FlairSelect "t3_abc" "f2" ]).
Proof.
  split; [|reflexivity].
  exact (create_reddit_post_flair_not_fatal sample_submit
           sample_flair_choices sample_flair_select sample_error_str
           "Adamthewoo" "On This Day" "body" (Some "On This Day") []).
Defined.

Lemma create_reddit_post_without_logger_witness :
  (exists e more,
     create_reddit_post sample_submit sample_flair_choices
       sample_flair_select sample_error_str "Adamthewoo" "On This Day"
       "body" None None []
     = (Api.Raise (Api.Error
          (Exception ("Error creating Reddit post: "
                      ++ sample_error_str e)%string)),
        [] ++ Submit "Adamthewoo" "On This Day" "body" :: more)
     /\ (forall submission,
           sample_submit [] "Adamthewoo" "On This Day" "body"
           = Api.Ok submission ->
           e = Api.Error AttributeError))
  /\ create_reddit_post sample_submit sample_flair_choices
       sample_flair_select sample_error_str "Adamthewoo" "On This Day"
       "body" None None []
     = (Api.Raise (Api.Error (Exception "Error creating Reddit post: error")),
        [Submit "Adamthewoo" "On This Day" "body"]).
Proof.
  split; [|reflexivity].
  exact (create_reddit_post_without_logger sample_submit
           sample_flair_choices sample_flair_select sample_error_str
           "Adamthewoo" "On This Day" "body" None []).
Defined.

(** ** The matcher's answer, listed and formatted *)
Section AfterTheMatcher.
Variable fromisoformat : string -> result datetime.t.
Variable format_value : json -> string.

Lemma matching_loop_dict_found (month day : Z) (videos acc found : list json) :
  matching_loop_dict fromisoformat month day videos acc = Ok found ->
  Forall (recorded_on_dict fromisoformat month day) acc ->
  Forall (recorded_on_dict fromisoformat month day) found.
Proof.
  revert acc.
  induction videos as [|video videos IH]; intros acc; cbn [matching_loop_dict].
  - now intros [= <-].
  - destruct video as [| | | | |entries]; try discriminate.
    unfold dict_get_default.
    destruct (dict_get "recording_date" entries) as [recording_date|] eqn:E;
      [|apply IH].
    destruct (json_truthy recording_date); [|apply IH].
    destruct recording_date as [| | |s| |]; try discriminate.
    destruct (fromisoformat s) as [date_obj|e] eqn:Es.
    + destruct (Z.eqb_spec (datetime.month date_obj) month) as [Hm|];
        [|apply IH].
      destruct (Z.eqb_spec (datetime.day date_obj) day) as [Hd|];
        [|apply IH].
      cbn [andb]. intros Hfound Hacc. apply (IH _ Hfound).
      apply Forall_app. split; [exact Hacc|].
      constructor; [|constructor]. now exists entries, s, date_obj.
    + destruct (isinstance_ValueError e); [apply IH|discriminate].
Qed.

Lemma format_video_recorded_on_dict (month day : Z) (video : json) :
  recorded_on_dict fromisoformat month day video ->
  returns (format_video fromisoformat format_value video)
  /\ returns (list_videos [video]).
Proof.
  intros (entries & s & date_obj & -> & Hs & Hdate & _).
  unfold format_video, list_videos, dict_get_default. rewrite Hs.
  cbn [json_truthy slice4 bind].
  split; [|now eexists].
  destruct (truthy s); [rewrite Hdate|]; now eexists.
Qed.

(** X27: what the matcher returns can be listed and formatted.  Whatever
    the catalogue dictionary holds, if the matcher returns, then the
    formatter of the Reddit list returns for its answer, and so does
    the loop of [update_playlist.py] that lists the videos found: the
    two cannot raise in the scripts, which call them on the matcher's
    answer. *)
Theorem get_videos_for_date_dict_formats (videos_db : json)
    (month day : Z) (found : list json) :
  get_videos_for_date_dict fromisoformat videos_db month day = Ok found ->
  returns (format_video_list_for_reddit fromisoformat format_value found)
  /\ list_videos found = Ok tt.
Proof.
  unfold get_videos_for_date_dict.
  destruct videos_db as [| | | | |entries]; try discriminate.
  destruct (iterate _) as [videos|e]; cbn [bind]; [|discriminate].
  destruct (matching_loop_dict fromisoformat month day videos [])
    as [matching_videos|e] eqn:E; cbn [bind]; [|discriminate].
  intros [= <-].
  apply matching_loop_dict_found in E; [|constructor].
  apply (list_sort_Forall sort_key_dict) in E.
  induction E as [|video found Hvideo _ [IHf IHl]].
  - split; [now eexists|reflexivity].
  - destruct (format_video_recorded_on_dict _ _ _ Hvideo)
      as [[line Hline] [[] Hlist]].
    split.
    + unfold format_video_list_for_reddit.
      rewrite format_lines_cons, Hline. cbn [bind].
      destruct found as [|video' found]; [now eexists|].
      unfold format_video_list_for_reddit in IHf.
      destruct (format_lines fromisoformat format_value (video' :: found) [])
        as [lines|e]; [now eexists|].
      destruct IHf as [text Htext]. discriminate.
    + destruct Hvideo as (entries' & s & date_obj & -> & Hs & _).
      cbn [list_videos]. unfold dict_get_default. rewrite Hs.
      cbn [slice4 bind]. exact IHl.
Qed.
End AfterTheMatcher.

(** The catalogue edited by hand: the second video has only a date and
    a title that is a number.  The matcher returns both videos, and its
    answer is listed and formatted. *)
Lemma get_videos_for_date_dict_formats_witness :
  returns
    (format_video_list_for_reddit Lib.fromisoformat py_str
       [ JDict [ ("recording_date", JStr "2020-01-04"); ("title", JInt 7) ];
         video_to_json (sample_video "a" (Some "2022-01-04")) ])
  /\ list_videos
       [ JDict [ ("recording_date", JStr "2020-01-04"); ("title", JInt 7) ];
         video_to_json (sample_video "a" (Some "2022-01-04")) ]
     = Ok tt.
Proof.
  exact (get_videos_for_date_dict_formats Lib.fromisoformat py_str
           (JDict [ ("videos",
                     JList [ video_to_json
                               (sample_video "a" (Some "2022-01-04"));
                             JDict [ ("recording_date", JStr "2020-01-04");
                                     ("title", JInt 7) ] ]) ])
           1 4 _ eq_refl).
Defined.
(** ** An exception of the date extractor ends the ingestion run *)
Section ExtractorRaises.
Variable strptime : string -> string -> result datetime.t.
Variable parser_parse_fuzzy : string -> result datetime.t.
Variable strftime_ymd : datetime.t -> string.
Variable json_dump : json -> string.

Lemma process_items_first_raise (cfg : config) (before : list snippet)
    (item : snippet) (after : list snippet) (e : exn) (videos : list video) :
  Forall (fun earlier =>
            retained earlier = true ->
            returns (parse_date_from_title strptime parser_parse_fuzzy
                       (Snippet.title earlier) cfg)) before ->
  retained item = true ->
  parse_date_from_title strptime parser_parse_fuzzy (Snippet.title item) cfg
  = Raise e ->
  process_items strptime parser_parse_fuzzy strftime_ymd cfg videos
    (before ++ item :: after) = Raise e.
Proof.
  intros Hbefore Hkeep Hraise. revert videos.
  induction Hbefore as [|earlier before Hearlier _ IH]; intros videos.
  - now apply process_items_propagates.
  - cbn [app process_items]. unfold retained in Hearlier.
    destruct (is_removed (Snippet.title earlier)); [apply IH|].
    destruct (Hearlier eq_refl) as [date_obj Hdate].
    unfold make_video_data. rewrite Hdate. cbn [bind]. apply IH.
Qed.

(** X28: an exception of the date extractor ends the run with nothing
    saved.  When the extractor raises on a retained entry of the first
    page, after entries it has handled, the exception leaves the fetch
    (its handler catches [HttpError] only) and [main]: the run ends
    with that exception, before the backup and the save. *)
Theorem main_fetch_and_store_extractor_raises (fuel : nat)
    (youtube : option string -> api_response) (cfg : config)
    (before : list snippet) (item : snippet) (after : list snippet)
    (next : option string) (e : exn)
    (channel_id channel_title channel_handle uploads_playlist_id
     now_main now : string) (fs : filesystem) :
  youtube None = Response (before ++ item :: after) next ->
  Forall (fun earlier =>
            retained earlier = true ->
            returns (parse_date_from_title strptime parser_parse_fuzzy
                       (Snippet.title earlier) cfg)) before ->
  retained item = true ->
  parse_date_from_title strptime parser_parse_fuzzy (Snippet.title item) cfg
  = Raise e ->
  main_fetch_and_store strptime parser_parse_fuzzy strftime_ymd json_dump
    (S fuel) youtube cfg channel_id channel_title channel_handle
    uploads_playlist_id now_main now fs
  = Some (Raise e).
Proof.
  intros Hpage Hbefore Hkeep Hraise.
  unfold main_fetch_and_store, fetch_all_videos_from_playlist.
  cbn [fetch_loop]. rewrite Hpage.
  now rewrite (process_items_first_raise _ _ _ _ e).
Qed.
End ExtractorRaises.

(** A page with a removed entry and a dated title, under the
    configuration whose first pattern names the year twice: [strptime]
    raises [re.error] on the second entry, and the run ends with it. *)
Lemma main_fetch_and_store_extractor_raises_witness :
  main_fetch_and_store Lib.strptime Lib.parser_parse_fuzzy Lib.strftime_ymd
    Lib.json_dump 1
    (fun _ =>
       Response
         ([ Snippet.make "Private video" "v2" None "2019-04-01T10:00:00Z"
              None ]
          ++ Snippet.make "2019-03-14" "v1" (Some "Pi day")
               "2019-03-20T10:00:00Z" None
          :: sample_items_page2) None)
    sample_config_repeated
    "UC123" "Adam The Woo" "@TheDailyWoo" "UU123"
    "2024-01-04T09:00:00" "2024-01-04T09:00:01" sample_prior_fs
  = Some (Raise ReError).
Proof.
  refine (main_fetch_and_store_extractor_raises Lib.strptime
            Lib.parser_parse_fuzzy Lib.strftime_ymd Lib.json_dump 0
            _ sample_config_repeated
            [ Snippet.make "Private video" "v2" None "2019-04-01T10:00:00Z"
                None ]
            (Snippet.make "2019-03-14" "v1" (Some "Pi day")
               "2019-03-20T10:00:00Z" None)
            sample_items_page2 None ReError
            "UC123" "Adam The Woo" "@TheDailyWoo" "UU123"
            "2024-01-04T09:00:00" "2024-01-04T09:00:01" sample_prior_fs
            eq_refl _ eq_refl eq_refl).
  constructor; [|constructor]. discriminate.
Defined.

(** ** The order of the matcher's answer *)

Lemma digit_of_digit_char (d : Z) :
  Lib.digit_of (Lib.digit_char d) = Some (d mod 10).
Proof.
  unfold Lib.digit_char.
  assert (H : 0 <= d mod 10 < 10) by (apply Z.mod_pos_bound; lia).
  assert (Hcases : d mod 10 = 0 \/ d mod 10 = 1 \/ d mod 10 = 2
                   \/ d mod 10 = 3 \/ d mod 10 = 4 \/ d mod 10 = 5
                   \/ d mod 10 = 6 \/ d mod 10 = 7 \/ d mod 10 = 8
                   \/ d mod 10 = 9) by lia.
  repeat (destruct Hcases as [-> | Hcases]; [reflexivity|]).
  now rewrite Hcases.
Qed.

(** The year a date is written with by [strftime('%Y-%m-%d')]. *)
Lemma year_digits_strftime_ymd (d : datetime.t) :
  0 <= datetime.year d <= 9999 ->
  year_digits (Lib.strftime_ymd d) = Some (datetime.year d).
Proof.
  intros Hy. unfold year_digits, Lib.strftime_ymd, Lib.pad4, Lib.pad2.
  cbn [String.append String.substring String.length Nat.eqb
       Lib.digits_value].
  rewrite !digit_of_digit_char. cbn [Lib.digits_value].
  f_equal. Z.to_euclidean_division_equations. lia.
Qed.

Lemma StronglySorted_weaken_In {A : Type} (R R' : A -> A -> Prop)
    (l : list A) :
  (forall a b, In a l -> In b l -> R a b -> R' a b) ->
  StronglySorted R l -> StronglySorted R' l.
Proof.
  intros HR Hl. induction Hl as [|x l Hl IH Hx]; constructor.
  - apply IH. intros a b Ha Hb. apply HR; now right.
  - rewrite List.Forall_forall in Hx |- *. intros b Hb.
    apply HR; [now left|now right|now apply Hx].
Qed.

Lemma date_eqb_eq (a b : datetime.t) : date_eqb a b = true <-> a = b.
Proof.
  destruct a as [ya ma da], b as [yb mb db]. unfold date_eqb.
  cbn [datetime.year datetime.month datetime.day].
  rewrite !andb_true_iff, !Z.eqb_eq. split.
  - now intros [[-> ->] ->].
  - now intros [= -> -> ->].
Qed.

Section OrderFacts.
Variable fromisoformat : string -> result datetime.t.
Hypothesis fromisoformat_ValueError :
  forall s e, fromisoformat s = Raise e -> isinstance_ValueError e = true.
Hypothesis fromisoformat_empty : forall d, fromisoformat "" <> Ok d.

(** Among videos stored in the form the fetch writes, those of one
    date are those of one text. *)
Lemma has_date_has_key (v w : video) (d : datetime.t) :
  stored_as_ymd fromisoformat v ->
  stored_as_ymd fromisoformat w ->
  recorded_date fromisoformat v = Some d ->
  recorded_on fromisoformat (datetime.month d) (datetime.day d) w = true ->
  has_date fromisoformat d w = has_key sort_key (sort_key v) w.
Proof.
  intros Hv Hw Hd Hrec.
  apply recorded_on_inv in Hrec.
  destruct Hrec as (sw & dw & Hsw & Hdw & _).
  unfold recorded_date in Hd.
  destruct (VideoRecord.recording_date v) as [sv|] eqn:Hsv; [|discriminate].
  destruct (fromisoformat sv) as [dv|] eqn:Hdv; [|discriminate].
  injection Hd as ->.
  destruct (Hv _ _ Hsv Hdv) as [Hsv' _], (Hw _ _ Hsw Hdw) as [Hsw' _].
  unfold has_date, recorded_date, has_key, sort_key.
  rewrite Hsw, Hdw, Hsv.
  destruct (String.eqb_spec sw sv) as [->|Hne].
  - assert (dw = d) by congruence. subst dw. now apply date_eqb_eq.
  - destruct (date_eqb dw d) eqn:E; [|reflexivity].
    apply date_eqb_eq in E. subst dw. congruence.
Qed.

(** X30: the order of the matcher's answer.  The answer is in
    ascending order of the stored recording date, a text, and the
    records with one and the same text come in the order the catalogue
    has them.  If every recording date of the catalogue is stored in
    the form the fetch writes, [YYYY-MM-DD], this is the order of the
    dates read: the answer ascends by date, the oldest year first, and
    the records of one and the same date come in the order the
    catalogue has them. *)
Theorem get_videos_for_date_order (videos_db : catalogue) (month day : Z) :
  exists found,
    get_videos_for_date fromisoformat videos_db month day = Ok found
    /\ StronglySorted (key_le sort_key) found
    /\ (forall v, In v found ->
          VideoRecord.recording_date v = Some (sort_key v))
    /\ (forall k,
          List.filter (has_key sort_key k) found
          = List.filter (has_key sort_key k)
              (List.filter (recorded_on fromisoformat month day)
                 (Catalogue.videos videos_db)))
    /\ (Forall (stored_as_ymd fromisoformat) (Catalogue.videos videos_db) ->
        StronglySorted
          (fun a b => exists da db,
             recorded_date fromisoformat a = Some da
             /\ recorded_date fromisoformat b = Some db
             /\ date_le da db
             /\ datetime.year da <= datetime.year db)
          found
        /\ forall d,
             List.filter (has_date fromisoformat d) found
             = List.filter (has_date fromisoformat d)
                 (List.filter (recorded_on fromisoformat month day)
                    (Catalogue.videos videos_db))).
Proof.
  eexists.
  split; [apply (get_videos_for_date_sorted_filter fromisoformat
                   fromisoformat_ValueError fromisoformat_empty)|].
  set (matching := List.filter (recorded_on fromisoformat month day)
                     (Catalogue.videos videos_db)).
  assert (Hin : forall v, In v (list_sort sort_key matching) ->
            In v (Catalogue.videos videos_db)
            /\ recorded_on fromisoformat month day v = true).
  { intros v Hv. apply filter_In.
    revert Hv. apply Permutation_in, list_sort_Permutation. }
  assert (Hdate : forall v, In v (list_sort sort_key matching) ->
            exists s d, VideoRecord.recording_date v = Some s
              /\ fromisoformat s = Ok d
              /\ datetime.month d = month /\ datetime.day d = day).
  { intros v Hv. apply recorded_on_inv. now apply Hin. }
  split; [apply list_sort_sorted|]. split; [|split].
  - intros v Hv. destruct (Hdate v Hv) as (s & d & Hs & _).
    unfold sort_key. now rewrite Hs.
  - intros k. apply list_sort_stable.
  - intros Hstored. rewrite List.Forall_forall in Hstored. split.
    + apply (StronglySorted_weaken_In (key_le sort_key));
        [|apply list_sort_sorted].
      intros a b Ha Hb Hle.
      destruct (Hdate a Ha) as (sa & da & Hsa & Hda & Hma & Hdaya).
      destruct (Hdate b Hb) as (sb & db & Hsb & Hdb & Hmb & Hdayb).
      destruct (Hstored a (proj1 (Hin a Ha)) _ _ Hsa Hda) as [Hta Hya].
      destruct (Hstored b (proj1 (Hin b Hb)) _ _ Hsb Hdb) as [Htb Hyb].
      exists da, db. unfold recorded_date. rewrite Hsa, Hda, Hsb, Hdb.
      assert (Hyear : datetime.year da <= datetime.year db).
      { apply (key_le_year_le a b Hle); unfold sort_key.
        - rewrite Hsa, Hta. apply year_digits_strftime_ymd. lia.
        - rewrite Hsb, Htb. apply year_digits_strftime_ymd. lia. }
      repeat split; trivial. unfold date_le. lia.
    + intros d.
      destruct (existsb (has_date fromisoformat d) matching) eqn:E.
      * apply existsb_exists in E. destruct E as (v & Hv & Hvd).
        apply filter_In in Hv. destruct Hv as [Hv Hrec].
        assert (Hvdate : recorded_date fromisoformat v = Some d).
        { unfold has_date in Hvd.
          destruct (recorded_date fromisoformat v) as [d'|];
            [|discriminate].
          apply date_eqb_eq in Hvd. now subst d'. }
        assert (Hd : datetime.month d = month /\ datetime.day d = day).
        { apply recorded_on_inv in Hrec.
          destruct Hrec as (s & d' & Hs & Hd' & Hm & Hday).
          unfold recorded_date in Hvdate. rewrite Hs, Hd' in Hvdate.
          injection Hvdate as ->. now split. }
        destruct Hd as [<- <-].
        rewrite (List.filter_ext_in (has_date fromisoformat d)
                   (has_key sort_key (sort_key v))
                   (list_sort sort_key matching)).
        2:{ intros w Hw. apply Hin in Hw. destruct Hw as [Hw Hwrec].
            apply has_date_has_key; auto. }
        rewrite (List.filter_ext_in (has_date fromisoformat d)
                   (has_key sort_key (sort_key v)) matching).
        2:{ intros w Hw. apply filter_In in Hw. destruct Hw as [Hw Hwrec].
            apply has_date_has_key; auto. }
        apply list_sort_stable.
      * assert (Hnone : forall l, (forall w, In w l -> In w matching) ->
                  List.filter (has_date fromisoformat d) l = []).
        { intros l Hl. induction l as [|w l IH]; [reflexivity|].
          cbn [List.filter].
          destruct (has_date fromisoformat d w) eqn:Ew.
          - assert (existsb (has_date fromisoformat d) matching = true).
            { apply existsb_exists. exists w. split; [|exact Ew].
              apply Hl. now left. }
            congruence.
          - apply IH. intros w' Hw'. apply Hl. now right. }
        rewrite (Hnone matching) by auto.
        apply Hnone. intros w Hw. apply filter_In. now apply Hin.
Qed.
End OrderFacts.

(** The sample catalogue stores its dates in the form the fetch
    writes. *)
Lemma sample_db_stored_as_ymd :
  Forall (stored_as_ymd Lib.fromisoformat) (Catalogue.videos sample_db).
Proof.
  unfold sample_db. cbn [Catalogue.videos].
  repeat (apply List.Forall_cons;
    [intros s d Hs Hd; cbn in Hs; try discriminate Hs;
     injection Hs as <-; vm_compute in Hd; try discriminate Hd;
     injection Hd as <-; (split; [reflexivity|cbn; lia])|]).
  apply List.Forall_nil.
Qed.

(** On the sample catalogue: the query for 4 January returns the 2020
    records before the 2022 record, the two 2020 records in catalogue
    order. *)
Lemma get_videos_for_date_order_witness :
  (exists found,
     get_videos_for_date Lib.fromisoformat sample_db 1 4 = Ok found
     /\ StronglySorted (key_le sort_key) found
     /\ (forall v, In v found ->
           VideoRecord.recording_date v = Some (sort_key v))
     /\ (forall k,
           List.filter (has_key sort_key k) found
           = List.filter (has_key sort_key k)
               (List.filter (recorded_on Lib.fromisoformat 1 4)
                  (Catalogue.videos sample_db)))
     /\ (Forall (stored_as_ymd Lib.fromisoformat)
           (Catalogue.videos sample_db) ->
         StronglySorted
           (fun a b => exists da db,
              recorded_date Lib.fromisoformat a = Some da
              /\ recorded_date Lib.fromisoformat b = Some db
              /\ date_le da db
              /\ datetime.year da <= datetime.year db)
           found
         /\ forall d,
              List.filter (has_date Lib.fromisoformat d) found
              = List.filter (has_date Lib.fromisoformat d)
                  (List.filter (recorded_on Lib.fromisoformat 1 4)
                     (Catalogue.videos sample_db))))
  /\ Forall (stored_as_ymd Lib.fromisoformat) (Catalogue.videos sample_db)
  /\ get_videos_for_date Lib.fromisoformat sample_db 1 4
     = Ok [ sample_video "b" (Some "2020-01-04");
            sample_video "i" (Some "2020-01-04");
            sample_video "a" (Some "2022-01-04") ].
Proof.
  split; [|split].
  - exact (get_videos_for_date_order Lib.fromisoformat
             Lib_fromisoformat_ValueError Lib_fromisoformat_empty
             sample_db 1 4).
  - exact sample_db_stored_as_ymd.
  - vm_compute. reflexivity.
Defined.

